(** * Account-sync job orchestrator: [spaceone.identity.service.job_service]

    A shallow embedding of [JobService] (job creation with duplicate
    detection, the sync executor and the hierarchy reconciler) together
    with the properties its specification states about it.

    Conventions.
    - Persistent collections (jobs, workspaces, project groups, projects,
      service accounts) are lists of documents; a document's identity is
      its position in the collection, and a value object ("vo") returned by
      a query is that position together with a snapshot of the document.
    - Python dict payloads handed to [update_*_by_vo] are finite maps from
      field names to values.
    - A method is a function [World -> World * outcome A]: the store
      changes made before an exception is raised stay in place, as they do
      in the source, which has no rollback. *)

From Stdlib Require Import ZArith Lia.
From stdpp Require Import gmap strings list fin_maps pretty.

#[local] Open Scope string_scope.
#[local] Open Scope list_scope.

(** ** Plain Python values *)

Abbreviation payload := (gmap string string).

(** Values that occur in the dict payloads of this service. *)
Inductive value :=
| VStr (s : string)
| VBool (b : bool)
| VTime (t : Z)
| VList (l : list string)
| VDict (d : payload)
| VNone.

Abbreviation params := (gmap string value).

(** ** Payload accessors *)

Definition get_str (p : params) (k : string) (d : string) : string :=
  match p !! k with Some (VStr s) => s | _ => d end.

Definition get_ostr (p : params) (k : string) (d : option string) : option string :=
  match p !! k with Some (VStr s) => Some s | _ => d end.

Definition get_bool (p : params) (k : string) (d : bool) : bool :=
  match p !! k with Some (VBool b) => b | _ => d end.

Definition get_time (p : params) (k : string) (d : option Z) : option Z :=
  match p !! k with Some (VTime t) => Some t | _ => d end.

Definition get_list (p : params) (k : string) (d : list string) : list string :=
  match p !! k with Some (VList l) => l | _ => d end.

Definition get_dict (p : params) (k : string) (d : payload) : payload :=
  match p !! k with Some (VDict m) => m | _ => d end.

(** [d.update({k: v})] *)
Definition update (k : string) (v : value) (d : params) : params := <[k := v]> d.

Definition of_opt (s : option string) : value :=
  match s with Some s => VStr s | None => VNone end.

#[global] Instance value_eq_dec : EqDecision value.
Proof. solve_decision. Defined.

(** One keyword condition of a [filter_*] call against the actual value of
    the field. An absent keyword does not constrain; a list-valued keyword
    asks that the field holds one of the listed values (for a list field:
    that the field contains one of them); any other keyword asks for
    equality. *)
Definition field_ok (p : params) (k : string) (actual : value) : bool :=
  match p !! k with
  | None => true
  | Some (VList vs) =>
      match actual with
      | VList l => existsb (fun v => bool_decide (v ∈ l)) vs
      | VStr s => bool_decide (s ∈ vs)
      | _ => false
      end
  | Some v => bool_decide (v = actual)
  end.

Module Py.

(** Truth value of an optional string: [None] and [""] are falsy. *)
Definition truthy (s : option string) : bool :=
  match s with
  | Some s => negb (String.eqb s "")
  | None => false
  end.

(** Truth value of a dict: the empty dict is falsy. *)
Definition truthy_dict (d : payload) : bool :=
  negb (bool_decide (d = ∅)).

(** Truth value of a list. *)
Definition truthy_list {A} (l : list A) : bool :=
  match l with
  | [] => false
  | _ :: _ => true
  end.

(** [x in l] on lists of strings. *)
Definition contains (x : string) (l : list string) : bool :=
  bool_decide (x ∈ l).

(** [l.remove(x)]: drops the first occurrence; [None] stands for the
    [ValueError] Python raises when there is none. *)
Fixpoint remove (x : string) (l : list string) : option (list string) :=
  match l with
  | [] => None
  | y :: l' =>
      if String.eqb x y then Some l'
      else match remove x l' with
           | Some r => Some (y :: r)
           | None => None
           end
  end.

End Py.

(** ** Data model *)

Inductive JobStatus := PENDING | IN_PROGRESS | SUCCESS | FAILURE | CANCELED.

Inductive ResourceGroup := DOMAIN | WORKSPACE.

Inductive exn :=
| ERROR_DUPLICATE_JOB (trusted_account_id : string)
| ERROR_NOT_FOUND (key value : string)
| ERROR_EXTERNAL (message : string)
| ValueError.

#[global] Instance JobStatus_eq_dec : EqDecision JobStatus.
Proof. solve_decision. Defined.

#[global] Instance ResourceGroup_eq_dec : EqDecision ResourceGroup.
Proof. solve_decision. Defined.

Module SyncOptions.
Record t := mk {
  skip_project_group : bool;
  single_workspace_id : option string
}.
End SyncOptions.

Module LocationNode.
Record t := mk {
  name : string;
  resource_id : string
}.
End LocationNode.

(** One record of the plugin's response ([result] in the source).
    [location = None] is a record without the ["location"] key. *)
Module Result.
Record t := mk {
  name : string;
  resource_id : string;
  location : option (list LocationNode.t);
  secret_data : payload;
  data : payload;
  secret_schema_id : option string;
  tags : payload
}.
End Result.

Module TrustedAccount.
Record t := mk {
  trusted_account_id : string;
  domain_id : string;
  workspace_id : option string;
  resource_group : ResourceGroup;
  provider : string;
  secret_schema_id : string;
  trusted_secret_id : option string;
  sync_options : SyncOptions.t;
  plugin_options : payload
}.
End TrustedAccount.

Module Provider.
Record t := mk {
  provider : string;
  domain_id : string;
  plugin_id : string;
  plugin_options : payload;
  schema_id : option string
}.
End Provider.

(** The entities below are the documents of the persistent collections.
    Each has [apply], the effect of an [update_*_by_vo] payload on a
    document (the listed fields are overwritten, every other field is
    kept), and [matches], the test a [filter_*] call makes. *)

Definition status_name (s : JobStatus) : string :=
  match s with
  | PENDING => "PENDING"
  | IN_PROGRESS => "IN_PROGRESS"
  | SUCCESS => "SUCCESS"
  | FAILURE => "FAILURE"
  | CANCELED => "CANCELED"
  end.

Module Job.
Record t := mk {
  job_id : string;
  resource_group : ResourceGroup;
  domain_id : string;
  workspace_id : option string;
  trusted_account_id : string;
  plugin_id : string;
  options : payload;
  status : JobStatus;
  created_at : Z;
  finished_at : option Z;
  error : option exn
}.

Definition with_status (s : JobStatus) (j : t) : t :=
  mk (job_id j) (resource_group j) (domain_id j) (workspace_id j)
     (trusted_account_id j) (plugin_id j) (options j)
     s (created_at j) (finished_at j) (error j).

Definition with_finished_at (f : option Z) (j : t) : t :=
  mk (job_id j) (resource_group j) (domain_id j) (workspace_id j)
     (trusted_account_id j) (plugin_id j) (options j)
     (status j) (created_at j) f (error j).

Definition with_error (e : option exn) (j : t) : t :=
  mk (job_id j) (resource_group j) (domain_id j) (workspace_id j)
     (trusted_account_id j) (plugin_id j) (options j)
     (status j) (created_at j) (finished_at j) e.

Definition terminal (s : JobStatus) : bool :=
  match s with
  | SUCCESS | FAILURE | CANCELED => true
  | PENDING | IN_PROGRESS => false
  end.

Definition apply (p : params) (j : t) : t :=
  with_finished_at (get_time p "finished_at" (finished_at j)) j.

(** The value of the field a query condition names. *)
Definition field (k : string) (j : t) : value :=
  if String.eqb k "job_id" then VStr (job_id j)
  else if String.eqb k "domain_id" then VStr (domain_id j)
  else if String.eqb k "workspace_id" then of_opt (workspace_id j)
  else if String.eqb k "trusted_account_id" then VStr (trusted_account_id j)
  else if String.eqb k "plugin_id" then VStr (plugin_id j)
  else if String.eqb k "status" then VStr (status_name (status j))
  else VNone.
End Job.

Module Workspace.
Record t := mk {
  workspace_id : string;
  name : string;
  domain_id : string;
  references : list string;
  tags : payload;
  trusted_account_id : option string;
  is_managed : bool;
  last_synced_at : option Z
}.

Definition apply (p : params) (x : t) : t :=
  mk (workspace_id x)
     (get_str p "name" (name x))
     (get_str p "domain_id" (domain_id x))
     (get_list p "references" (references x))
     (get_dict p "tags" (tags x))
     (get_ostr p "trusted_account_id" (trusted_account_id x))
     (get_bool p "is_managed" (is_managed x))
     (get_time p "last_synced_at" (last_synced_at x)).

Definition matches (p : params) (x : t) : bool :=
  field_ok p "workspace_id" (VStr (workspace_id x))
  && field_ok p "name" (VStr (name x))
  && field_ok p "domain_id" (VStr (domain_id x))
  && field_ok p "references" (VList (references x))
  && field_ok p "is_managed" (VBool (is_managed x)).

Definition blank (id : string) : t := mk id "" "" [] ∅ None false None.

Definition with_references (l : list string) (x : t) : t :=
  mk (workspace_id x) (name x) (domain_id x) l (tags x) (trusted_account_id x)
     (is_managed x) (last_synced_at x).

(** [x] holds the provider id [reference_id] in the domain [domain_id]. *)
Definition holds (domain_id' reference_id : string) (x : t) : bool :=
  String.eqb (domain_id x) domain_id' && bool_decide (reference_id ∈ references x).
End Workspace.

Module ProjectGroup.
Record t := mk {
  project_group_id : string;
  name : string;
  reference_id : option string;
  is_managed : bool;
  domain_id : string;
  workspace_id : string;
  parent_group_id : option string;
  trusted_account_id : option string;
  last_synced_at : option Z
}.

Definition apply (p : params) (x : t) : t :=
  mk (project_group_id x)
     (get_str p "name" (name x))
     (get_ostr p "reference_id" (reference_id x))
     (get_bool p "is_managed" (is_managed x))
     (get_str p "domain_id" (domain_id x))
     (get_str p "workspace_id" (workspace_id x))
     (get_ostr p "parent_group_id" (parent_group_id x))
     (get_ostr p "trusted_account_id" (trusted_account_id x))
     (get_time p "last_synced_at" (last_synced_at x)).

Definition matches (p : params) (x : t) : bool :=
  field_ok p "project_group_id" (VStr (project_group_id x))
  && field_ok p "is_managed" (VBool (is_managed x))
  && field_ok p "reference_id" (of_opt (reference_id x))
  && field_ok p "domain_id" (VStr (domain_id x))
  && field_ok p "workspace_id" (VStr (workspace_id x)).

Definition blank (id : string) : t := mk id "" None false "" "" None None None.
End ProjectGroup.

Module Project.
Record t := mk {
  project_id : string;
  name : string;
  reference_id : option string;
  is_managed : bool;
  project_type : string;
  domain_id : string;
  workspace_id : string;
  project_group_id : option string;
  trusted_account_id : option string;
  last_synced_at : option Z
}.

Definition apply (p : params) (x : t) : t :=
  mk (project_id x)
     (get_str p "name" (name x))
     (get_ostr p "reference_id" (reference_id x))
     (get_bool p "is_managed" (is_managed x))
     (get_str p "project_type" (project_type x))
     (get_str p "domain_id" (domain_id x))
     (get_str p "workspace_id" (workspace_id x))
     (get_ostr p "project_group_id" (project_group_id x))
     (get_ostr p "trusted_account_id" (trusted_account_id x))
     (get_time p "last_synced_at" (last_synced_at x)).

Definition matches (p : params) (x : t) : bool :=
  field_ok p "project_id" (VStr (project_id x))
  && field_ok p "domain_id" (VStr (domain_id x))
  && field_ok p "workspace_id" (VStr (workspace_id x))
  && field_ok p "project_type" (VStr (project_type x))
  && field_ok p "reference_id" (of_opt (reference_id x))
  && field_ok p "is_managed" (VBool (is_managed x)).

Definition blank (id : string) : t := mk id "" None false "" "" "" None None None.

(** [x] renamed, put under a project group and given a renewed sync
    stamp, nothing else changed. *)
Definition resynced (name project_group_id trusted_account_id : string)
    (now : Z) (x : t) : t :=
  mk (project_id x) name (reference_id x) (is_managed x) (project_type x)
     (domain_id x) (workspace_id x) (Some project_group_id)
     (Some trusted_account_id) (Some now).
End Project.

Module ServiceAccount.
Record t := mk {
  service_account_id : string;
  name : string;
  data : payload;
  provider : string;
  reference_id : option string;
  is_managed : bool;
  domain_id : string;
  workspace_id : string;
  project_id : string;
  trusted_account_id : option string;
  tags : payload;
  schema_id : option string;
  secret_id : option string;
  last_synced_at : option Z
}.

Definition apply (p : params) (x : t) : t :=
  mk (service_account_id x)
     (get_str p "name" (name x))
     (get_dict p "data" (data x))
     (get_str p "provider" (provider x))
     (get_ostr p "reference_id" (reference_id x))
     (get_bool p "is_managed" (is_managed x))
     (get_str p "domain_id" (domain_id x))
     (get_str p "workspace_id" (workspace_id x))
     (get_str p "project_id" (project_id x))
     (get_ostr p "trusted_account_id" (trusted_account_id x))
     (get_dict p "tags" (tags x))
     (get_ostr p "schema_id" (schema_id x))
     (get_ostr p "secret_id" (secret_id x))
     (get_time p "last_synced_at" (last_synced_at x)).

Definition matches (p : params) (x : t) : bool :=
  field_ok p "service_account_id" (VStr (service_account_id x))
  && field_ok p "provider" (VStr (provider x))
  && field_ok p "reference_id" (of_opt (reference_id x))
  && field_ok p "is_managed" (VBool (is_managed x))
  && field_ok p "domain_id" (VStr (domain_id x))
  && field_ok p "workspace_id" (VStr (workspace_id x))
  && field_ok p "project_id" (VStr (project_id x)).

Definition blank (id : string) : t :=
  mk id "" ∅ "" None false "" "" "" None ∅ None None None.

(** [x] with its sync stamp renewed and nothing else changed. *)
Definition synced (trusted_account_id : string) (now : Z) (x : t) : t :=
  mk (service_account_id x) (name x) (data x) (provider x) (reference_id x)
     (is_managed x) (domain_id x) (workspace_id x) (project_id x)
     (Some trusted_account_id) (tags x) (schema_id x) (secret_id x) (Some now).
End ServiceAccount.

(** The dispatch message of [push_job]. *)
Module Message.
Record t := mk {
  job_id : string;
  trusted_account_id : string;
  trusted_secret_id : option string;
  secret_data : payload;
  workspace_id : option string;
  domain_id : string;
  options : payload
}.
End Message.

(** ** Value objects and collections *)

(** A value object: the position of a document in its collection and the
    snapshot of the document taken when it was read. *)
Record vo (A : Type) := VO { oid : nat; doc : A }.
Arguments VO {A} oid doc.
Arguments oid {A} v.
Arguments doc {A} v.

(** The documents of a collection that satisfy [p], in collection order. *)
Definition query {A} (p : A -> bool) (l : list A) : list (vo A) :=
  filter (fun v => Is_true (p (doc v))) (imap VO l).

(** ** The world *)

Inductive outcome (A : Type) :=
| Return (a : A)
| Raise (e : exn).
Arguments Return {A} a.
Arguments Raise {A} e.

(** A request sent to the secret vault. *)
Inductive VaultCall :=
| DeleteSecret (secret_id domain_id : string)
| CreateSecret (p : params) (domain_id : string).

Record World := mkWorld {
  jobs : list Job.t;
  workspaces : list Workspace.t;
  project_groups : list ProjectGroup.t;
  projects : list Project.t;
  service_accounts : list ServiceAccount.t;
  trusted_accounts : list TrustedAccount.t;
  providers : list Provider.t;
  queue : list Message.t;
  vault : list VaultCall;
  clock : Z
}.

Definition set_jobs (x : list Job.t) (w : World) : World :=
  mkWorld x (workspaces w) (project_groups w) (projects w) (service_accounts w)
          (trusted_accounts w) (providers w) (queue w) (vault w) (clock w).

Definition set_workspaces (x : list Workspace.t) (w : World) : World :=
  mkWorld (jobs w) x (project_groups w) (projects w) (service_accounts w)
          (trusted_accounts w) (providers w) (queue w) (vault w) (clock w).

Definition set_project_groups (x : list ProjectGroup.t) (w : World) : World :=
  mkWorld (jobs w) (workspaces w) x (projects w) (service_accounts w)
          (trusted_accounts w) (providers w) (queue w) (vault w) (clock w).

Definition set_projects (x : list Project.t) (w : World) : World :=
  mkWorld (jobs w) (workspaces w) (project_groups w) x (service_accounts w)
          (trusted_accounts w) (providers w) (queue w) (vault w) (clock w).

Definition set_service_accounts (x : list ServiceAccount.t) (w : World) : World :=
  mkWorld (jobs w) (workspaces w) (project_groups w) (projects w) x
          (trusted_accounts w) (providers w) (queue w) (vault w) (clock w).

Definition set_queue (x : list Message.t) (w : World) : World :=
  mkWorld (jobs w) (workspaces w) (project_groups w) (projects w) (service_accounts w)
          (trusted_accounts w) (providers w) x (vault w) (clock w).

Definition set_vault (x : list VaultCall) (w : World) : World :=
  mkWorld (jobs w) (workspaces w) (project_groups w) (projects w) (service_accounts w)
          (trusted_accounts w) (providers w) (queue w) x (clock w).

(** ** The method monad: state that survives exceptions *)

Definition M (A : Type) : Type := World -> World * outcome A.

Definition ret {A} (a : A) : M A := fun w => (w, Return a).

Definition raise {A} (e : exn) : M A := fun w => (w, Raise e).

Definition bind {A B} (m : M A) (k : A -> M B) : M B :=
  fun w =>
    match m w with
    | (w', Return a) => k a w'
    | (w', Raise e) => (w', Raise e)
    end.

(** [try: m except Exception as e: handler e] *)
Definition try_except {A} (m : M A) (handler : exn -> M A) : M A :=
  fun w =>
    match m w with
    | (w', Raise e) => handler e w'
    | (w', Return a) => (w', Return a)
    end.

(** The value a run returned, if it returned. *)
Definition snd_return {A} (r : World * outcome A) : option A :=
  match snd r with
  | Return a => Some a
  | Raise _ => None
  end.

Definition utcnow : M Z := fun w => (w, Return (clock w)).

(** Lifts the answer of an external collaborator. *)
Definition external {A} (r : outcome A) : M A := fun w => (w, r).

(** A collaborator call made for its exception only. *)
Definition check (r : option exn) : M unit :=
  fun w => match r with Some e => (w, Raise e) | None => (w, Return tt) end.

Notation "x <- m ;; k" := (bind m (fun x => k))
  (at level 62, m at next level, right associativity).
Notation "m ;;; k" := (bind m (fun _ => k))
  (at level 62, right associativity).

(** [m] leaves the observation [g] of the world as it found it, whether
    it returns or raises. *)
Definition frames {A X} (g : World -> X) (m : M A) : Prop :=
  forall w, g (fst (m w)) = g w.

(** [m] keeps the property [P] of the world, whether it returns or
    raises. *)
Definition preserves {A} (P : World -> Prop) (m : M A) : Prop :=
  forall w, P w -> P (fst (m w)).

(** [for x in xs: body x] *)
Fixpoint for_each {A} (xs : list A) (body : A -> M unit) : M unit :=
  match xs with
  | [] => ret tt
  | x :: xs' => body x ;;; for_each xs' body
  end.

(** ** [_get_location] *)

Definition _get_location (result : Result.t) (resource_group : ResourceGroup)
    (sync_options : SyncOptions.t) : list LocationNode.t :=
  let location := default [] (Result.location result) in
  let skip_project_group_option := SyncOptions.skip_project_group sync_options in
  if skip_project_group_option then
    match resource_group with
    | DOMAIN =>
        match location with
        | first :: _ => [first]
        | [] => location
        end
    | _ => []
    end
  else location.

(** ** External collaborators *)

(** The status transitions of the job ledger ([JobManager.change_*]), each
    a function of the current time and of the stored job document. The
    executor and the job-creation path are stated over an arbitrary ledger;
    [spec_ledger] below is the ledger the specification describes. *)
Module Ledger.
Record t := mk {
  change_in_progress_status : Z -> Job.t -> Job.t;
  change_success_status : Z -> Job.t -> Job.t;
  change_error_status : Z -> exn -> Job.t -> Job.t;
  change_canceled_status : Z -> Job.t -> Job.t;
  change_canceled_by_vo : Z -> Job.t -> Job.t
}.
End Ledger.

(** Everything the service reaches outside its own collections: the
    ledger's transitions, id generation, [random.choice], the secret
    vault, the schema validator, the plugin transport, the dispatch queue
    and the writes of other workers to the shared store. *)
Record Env := mkEnv {
  ledger : Ledger.t;
  generate_id : string -> nat -> string;
  random_choice : string;
  get_trusted_secret_data : string -> string -> outcome payload;
  validate_secret_data_by_schema_id :
    option string -> string -> payload -> string -> option exn;
  get_schema : string -> string -> option exn;
  get_account_collector_plugin_endpoint_by_vo : Provider.t -> outcome string;
  get_account_collector_plugin_endpoint :
    Provider.t -> string -> outcome (string * string);
  initialize : string -> option exn;
  plugin_sync :
    string -> payload -> payload -> string -> option string ->
    outcome (list Result.t);
  push : Message.t -> option exn;
  create_secret : params -> string -> outcome string;
  delete_secret : string -> string -> option exn;
  concurrent : World -> World
}.

(** Modelled from the spec: the transitions of [JobManager]
    (spaceone.identity.manager.job_manager, not among the sources), after
    section 4.2: transitions are strictly forward and a transition called
    on an already-terminal job is a no-op (the spec allows "no-op or
    error"; the no-op is taken here). Success and cancellation stamp
    [finished_at]; failure records the error detail and leaves the
    timestamp to [_close_job]. *)
Definition forward (f : Job.t -> Job.t) (j : Job.t) : Job.t :=
  if Job.terminal (Job.status j) then j else f j.

Definition spec_ledger : Ledger.t :=
  Ledger.mk
    (fun now => forward (Job.with_status IN_PROGRESS))
    (fun now => forward (fun j =>
       Job.with_finished_at (Some now) (Job.with_status SUCCESS j)))
    (fun now e => forward (fun j =>
       Job.with_error (Some e) (Job.with_status FAILURE j)))
    (fun now => forward (fun j =>
       Job.with_finished_at (Some now) (Job.with_status CANCELED j)))
    (fun now => forward (fun j =>
       Job.with_finished_at (Some now) (Job.with_status CANCELED j))).

(** One condition of a [list_jobs] query: [{"k": k, "v": v, "o": "eq"}]
    or [{"k": k, "v": v, "o": "not"}]. *)
Inductive cond :=
| OpEq (k : string) (v : value)
| OpNot (k : string) (v : value).

Definition cond_ok (j : Job.t) (c : cond) : bool :=
  match c with
  | OpEq k v => bool_decide (Job.field k j = v)
  | OpNot k v => negb (bool_decide (Job.field k j = v))
  end.

(** Modelled from the spec: [JobManager]
    (spaceone.identity.manager.job_manager, not among the sources): the
    job collection with create, get, list and update-by-identity as in
    sections 4.2 and 6; a created job is PENDING; a transition applies the
    ledger's function to the stored document. *)
Module JobManager.
Section WithEnv.
Variable env : Env.

Definition create_job (resource_group : ResourceGroup)
    (domain_id : string) (workspace_id : option string)
    (trusted_account_id plugin_id : string) (options : payload)
  : M (vo Job.t) :=
  fun w =>
    let job :=
      Job.mk (generate_id env "job" (length (jobs w))) resource_group
             domain_id workspace_id trusted_account_id plugin_id options
             PENDING (clock w) None None in
    (set_jobs (jobs w ++ [job]) w, Return (VO (length (jobs w)) job)).

Definition get_job (domain_id job_id : string)
    (workspace_id : option string) : M (vo Job.t) :=
  fun w =>
    let found :=
      query (fun j =>
               String.eqb (Job.job_id j) job_id
               && String.eqb (Job.domain_id j) domain_id
               && match workspace_id with
                  | Some _ => bool_decide (Job.workspace_id j = workspace_id)
                  | None => true
                  end) (jobs w) in
    match found with
    | job_vo :: _ => (w, Return job_vo)
    | [] => (w, Raise (ERROR_NOT_FOUND "job_id" job_id))
    end.

Definition list_jobs (filter : list cond) : M (list (vo Job.t) * nat) :=
  fun w =>
    let job_vos := query (fun j => forallb (cond_ok j) filter) (jobs w) in
    (w, Return (job_vos, length job_vos)).

Definition transition (f : Z -> Job.t -> Job.t) (job_vo : vo Job.t)
  : M unit :=
  fun w => (set_jobs (alter (f (clock w)) (oid job_vo) (jobs w)) w, Return tt).

Definition change_in_progress_status :=
  transition (Ledger.change_in_progress_status (ledger env)).

Definition change_success_status :=
  transition (Ledger.change_success_status (ledger env)).

Definition change_error_status (job_vo : vo Job.t) (e : exn) :=
  transition (fun now => Ledger.change_error_status (ledger env) now e) job_vo.

Definition change_canceled_status :=
  transition (Ledger.change_canceled_status (ledger env)).

Definition change_canceled_by_vo :=
  transition (Ledger.change_canceled_by_vo (ledger env)).

Definition update_job_by_vo (p : params) (job_vo : vo Job.t) : M unit :=
  fun w => (set_jobs (alter (Job.apply p) (oid job_vo) (jobs w)) w, Return tt).

Definition push_job (task : Message.t) : M unit :=
  fun w =>
    match push env task with
    | Some e => (w, Raise e)
    | None => (set_queue (queue w ++ [task]) w, Return tt)
    end.
End WithEnv.
End JobManager.

(** Modelled from the spec: [TrustedAccountManager] and [ProviderManager]
    (spaceone.identity.manager, not among the sources): lookup by
    identity, an error when the document does not exist. *)
Module TrustedAccountManager.
Definition get_trusted_account (trusted_account_id domain_id : string)
    (workspace_id : option string) : M TrustedAccount.t :=
  fun w =>
    let found :=
      List.filter
        (fun a =>
           String.eqb (TrustedAccount.trusted_account_id a) trusted_account_id
           && String.eqb (TrustedAccount.domain_id a) domain_id
           && match workspace_id with
              | Some _ => bool_decide (TrustedAccount.workspace_id a = workspace_id)
              | None => true
              end) (trusted_accounts w) in
    match found with
    | a :: _ => (w, Return a)
    | [] => (w, Raise (ERROR_NOT_FOUND "trusted_account_id" trusted_account_id))
    end.
End TrustedAccountManager.

Module ProviderManager.
Definition get_provider (provider domain_id : string) : M Provider.t :=
  fun w =>
    let found :=
      List.filter
        (fun p =>
           String.eqb (Provider.provider p) provider
           && String.eqb (Provider.domain_id p) domain_id) (providers w) in
    match found with
    | p :: _ => (w, Return p)
    | [] => (w, Raise (ERROR_NOT_FOUND "provider" provider))
    end.
End ProviderManager.

(** Modelled from the spec: [WorkspaceManager], [ProjectGroupManager],
    [ProjectManager] and [ServiceAccountManager] (spaceone.identity.manager,
    not among the sources): the "standard filter/create/update-by-identity
    operations" of section 6. A filter returns the matching documents in
    collection order; an update overwrites the fields of its payload in the
    stored document and returns the document as stored; a create appends
    a document built from its payload under a generated id. *)
Module WorkspaceManager.
Section WithEnv.
Variable env : Env.

Definition filter_workspaces (conditions : params)
  : M (list (vo Workspace.t)) :=
  fun w => (w, Return (query (Workspace.matches conditions) (workspaces w))).

Definition get_workspace (workspace_id domain_id : string)
  : M (vo Workspace.t) :=
  fun w =>
    let conditions : params :=
      update "domain_id" (VStr domain_id)
        (update "workspace_id" (VStr workspace_id) ∅) in
    match query (Workspace.matches conditions) (workspaces w) with
    | workspace_vo :: _ => (w, Return workspace_vo)
    | [] => (w, Raise (ERROR_NOT_FOUND "workspace_id" workspace_id))
    end.

Definition update_workspace_by_vo (p : params) (workspace_vo : vo Workspace.t)
  : M (vo Workspace.t) :=
  fun w =>
    let stored := alter (Workspace.apply p) (oid workspace_vo) (workspaces w) in
    (set_workspaces stored w,
     Return (VO (oid workspace_vo)
                (default (Workspace.apply p (doc workspace_vo))
                         (stored !! oid workspace_vo)))).

Definition create_workspace (p : params) : M (vo Workspace.t) :=
  fun w =>
    let n := length (workspaces w) in
    let x := Workspace.apply p (Workspace.blank (generate_id env "workspace" n)) in
    (set_workspaces (workspaces w ++ [x]) w, Return (VO n x)).
End WithEnv.
End WorkspaceManager.

Module ProjectGroupManager.
Section WithEnv.
Variable env : Env.

Definition filter_project_groups (conditions : params)
  : M (list (vo ProjectGroup.t)) :=
  fun w =>
    (w, Return (query (ProjectGroup.matches conditions) (project_groups w))).

Definition update_project_group_by_vo (p : params)
    (project_group_vo : vo ProjectGroup.t) : M (vo ProjectGroup.t) :=
  fun w =>
    let stored :=
      alter (ProjectGroup.apply p) (oid project_group_vo) (project_groups w) in
    (set_project_groups stored w,
     Return (VO (oid project_group_vo)
                (default (ProjectGroup.apply p (doc project_group_vo))
                         (stored !! oid project_group_vo)))).

Definition create_project_group (p : params) : M (vo ProjectGroup.t) :=
  fun w =>
    let n := length (project_groups w) in
    let x := ProjectGroup.apply p (ProjectGroup.blank (generate_id env "pg" n)) in
    (set_project_groups (project_groups w ++ [x]) w, Return (VO n x)).
End WithEnv.
End ProjectGroupManager.

Module ProjectManager.
Section WithEnv.
Variable env : Env.

Definition filter_projects (conditions : params) : M (list (vo Project.t)) :=
  fun w => (w, Return (query (Project.matches conditions) (projects w))).

Definition update_project_by_vo (p : params) (project_vo : vo Project.t)
  : M (vo Project.t) :=
  fun w =>
    let stored := alter (Project.apply p) (oid project_vo) (projects w) in
    (set_projects stored w,
     Return (VO (oid project_vo)
                (default (Project.apply p (doc project_vo))
                         (stored !! oid project_vo)))).

Definition create_project (p : params) : M (vo Project.t) :=
  fun w =>
    let n := length (projects w) in
    let x := Project.apply p (Project.blank (generate_id env "project" n)) in
    (set_projects (projects w ++ [x]) w, Return (VO n x)).
End WithEnv.
End ProjectManager.

Module ServiceAccountManager.
Section WithEnv.
Variable env : Env.

Definition filter_service_accounts (conditions : params)
  : M (list (vo ServiceAccount.t)) :=
  fun w =>
    (w, Return (query (ServiceAccount.matches conditions) (service_accounts w))).

Definition update_service_account_by_vo (p : params)
    (service_account_vo : vo ServiceAccount.t) : M (vo ServiceAccount.t) :=
  fun w =>
    let stored :=
      alter (ServiceAccount.apply p) (oid service_account_vo)
            (service_accounts w) in
    (set_service_accounts stored w,
     Return (VO (oid service_account_vo)
                (default (ServiceAccount.apply p (doc service_account_vo))
                         (stored !! oid service_account_vo)))).

Definition create_service_account (p : params) : M (vo ServiceAccount.t) :=
  fun w =>
    let n := length (service_accounts w) in
    let x :=
      ServiceAccount.apply p (ServiceAccount.blank (generate_id env "sa" n)) in
    (set_service_accounts (service_accounts w ++ [x]) w, Return (VO n x)).
End WithEnv.
End ServiceAccountManager.

(** Modelled from the spec: [SecretManager] (the secret vault of section 6,
    not among the sources): every request is recorded in [vault]; its
    answer is the environment's. *)
Module SecretManager.
Section WithEnv.
Variable env : Env.

Definition delete_secret (secret_id domain_id : string) : M unit :=
  fun w =>
    let w' := set_vault (vault w ++ [DeleteSecret secret_id domain_id]) w in
    match delete_secret env secret_id domain_id with
    | Some e => (w', Raise e)
    | None => (w', Return tt)
    end.

Definition create_secret (p : params) (domain_id : string) : M string :=
  fun w =>
    (set_vault (vault w ++ [CreateSecret p domain_id]) w,
     create_secret env p domain_id).
End WithEnv.
End SecretManager.

(** ** Observations of the world *)


(** The status of the job stored at position [i]. *)
Definition job_status_at (i : nat) (w : World) : option JobStatus :=
  Job.status <$> jobs w !! i.

(** [CANCELED] and [FAILURE], the statuses [_is_job_failed] reports. *)
Definition failed_status (s : JobStatus) : bool :=
  match s with
  | CANCELED | FAILURE => true
  | _ => false
  end.

(** ** Vocabulary of the duplicate check *)

(** Another job of the same trusted account, workspace and domain that is
    IN_PROGRESS: the matches of [_check_duplicate_job] in the words of
    the specification. *)
Definition other_in_progress (trusted_account_id : string)
    (workspace_id : option string) (domain_id job_id : string) (j : Job.t)
  : bool :=
  String.eqb (Job.trusted_account_id j) trusted_account_id
  && bool_decide (Job.workspace_id j = workspace_id)
  && String.eqb (Job.domain_id j) domain_id
  && bool_decide (Job.status j = IN_PROGRESS)
  && negb (String.eqb (Job.job_id j) job_id).

(** A match created after [duplicate_job_time]. *)
Definition fresh (duplicate_job_time : Z) (v : vo Job.t) : bool :=
  (Job.created_at (doc v) >? duplicate_job_time)%Z.

(** The matches the loop looks at: every match up to and including the
    first fresh one. *)
Fixpoint examined (duplicate_job_time : Z) (l : list (vo Job.t))
  : list (vo Job.t) :=
  match l with
  | [] => []
  | v :: rest =>
      if fresh duplicate_job_time v then [v]
      else v :: examined duplicate_job_time rest
  end.

(** The job [create_job] inserts for a trusted account. *)
Definition new_job (env : Env) (trusted_account_vo : TrustedAccount.t)
    (provider_vo : Provider.t) (job_options : payload) (w : World) : Job.t :=
  Job.mk (generate_id env "job" (length (jobs w)))
    (TrustedAccount.resource_group trusted_account_vo)
    (TrustedAccount.domain_id trusted_account_vo)
    (match TrustedAccount.resource_group trusted_account_vo with
     | DOMAIN => Some "*"
     | _ => TrustedAccount.workspace_id trusted_account_vo
     end)
    (TrustedAccount.trusted_account_id trusted_account_vo)
    (Provider.plugin_id provider_vo) job_options PENDING (clock w) None None.

(** The message [create_service_account_job] hands to [push_job]. *)
Definition dispatch_message (trusted_account_vo : TrustedAccount.t)
    (job : Job.t) (secret_data job_options : payload) : Message.t :=
  Message.mk (Job.job_id job)
    (TrustedAccount.trusted_account_id trusted_account_vo)
    (TrustedAccount.trusted_secret_id trusted_account_vo)
    secret_data
    (TrustedAccount.workspace_id trusted_account_vo)
    (TrustedAccount.domain_id trusted_account_vo)
    job_options.

(** ** [JobService] *)

(** [timedelta(minutes=n)], in microseconds, the resolution of [datetime];
    [clock] and every timestamp are microseconds since the epoch. *)
Definition timedelta_minutes (n : Z) : Z := (n * 60 * 1000000)%Z.

Section JobService.
Variable env : Env.

Definition _get_trusted_secret_data (trusted_secret_id : option string)
    (domain_id : string) : M payload :=
  match trusted_secret_id with
  | Some id =>
      if Py.truthy trusted_secret_id
      then external (get_trusted_secret_data env id domain_id)
      else ret ∅
  | None => ret ∅
  end.

(** The loop of [_check_duplicate_job] over the matching jobs. *)
Fixpoint _check_duplicate_job_loop (duplicate_job_time : Z)
    (job_vos : list (vo Job.t)) : M bool :=
  match job_vos with
  | [] => ret false
  | job_vo :: rest =>
      if (Job.created_at (doc job_vo) >? duplicate_job_time)%Z
      then ret true
      else
        JobManager.change_canceled_by_vo env job_vo ;;;
        _check_duplicate_job_loop duplicate_job_time rest
  end.

Definition _check_duplicate_job (domain_id trusted_account_id : string)
    (this_job_vo : vo Job.t) : M bool :=
  let filter :=
    [ OpEq "trusted_account_id" (VStr trusted_account_id);
      OpEq "workspace_id" (of_opt (Job.workspace_id (doc this_job_vo)));
      OpEq "domain_id" (VStr domain_id);
      OpEq "status" (VStr "IN_PROGRESS");
      OpNot "job_id" (VStr (Job.job_id (doc this_job_vo))) ] in
  listed <- JobManager.list_jobs filter ;;
  let job_vos := fst listed in
  now <- utcnow ;;
  let duplicate_job_time := (now - timedelta_minutes 10)%Z in
  _check_duplicate_job_loop duplicate_job_time job_vos.

Definition _is_job_failed (job_id domain_id : string)
    (workspace_id : option string) : M bool :=
  job_vo <- JobManager.get_job domain_id job_id workspace_id ;;
  match Job.status (doc job_vo) with
  | CANCELED | FAILURE => ret true
  | _ => ret false
  end.

Definition _close_job (job_id domain_id : string)
    (workspace_id : option string) : M unit :=
  job_vo <- JobManager.get_job domain_id job_id workspace_id ;;
  match Job.status (doc job_vo) with
  | IN_PROGRESS => JobManager.change_success_status env job_vo
  | FAILURE =>
      now <- utcnow ;;
      JobManager.update_job_by_vo (update "finished_at" (VTime now) ∅) job_vo
  | _ => ret tt
  end.

Definition create_service_account_job (trusted_account_vo : TrustedAccount.t)
    (job_options : payload) : M (vo Job.t) :=
  let resource_group := TrustedAccount.resource_group trusted_account_vo in
  let provider := TrustedAccount.provider trusted_account_vo in
  let trusted_account_id := TrustedAccount.trusted_account_id trusted_account_vo in
  let workspace_id :=
    match resource_group with
    | DOMAIN => Some "*"
    | _ => TrustedAccount.workspace_id trusted_account_vo
    end in
  let domain_id := TrustedAccount.domain_id trusted_account_vo in
  provider_vo <- ProviderManager.get_provider provider domain_id ;;
  let plugin_id := Provider.plugin_id provider_vo in
  endpoint <- external (get_account_collector_plugin_endpoint_by_vo env provider_vo) ;;
  let schema_id := TrustedAccount.secret_schema_id trusted_account_vo in
  check (initialize env endpoint) ;;;
  trusted_secret_data <-
    try_except
      (trusted_secret_data <-
         _get_trusted_secret_data
           (TrustedAccount.trusted_secret_id trusted_account_vo) domain_id ;;
       (if Py.truthy_dict trusted_secret_data
        then check (validate_secret_data_by_schema_id env (Some schema_id)
                      domain_id trusted_secret_data "SECRET")
        else ret tt) ;;;
       ret trusted_secret_data)
      (fun e => ret ∅) ;;
  job_vo <- JobManager.create_job env resource_group domain_id workspace_id
              trusted_account_id plugin_id job_options ;;
  duplicate <- _check_duplicate_job domain_id trusted_account_id job_vo ;;
  (if duplicate
   then JobManager.change_error_status env job_vo
          (ERROR_DUPLICATE_JOB trusted_account_id)
   else
     try_except
       (JobManager.push_job env
          (Message.mk (Job.job_id (doc job_vo)) trusted_account_id
             (TrustedAccount.trusted_secret_id trusted_account_vo)
             trusted_secret_data
             (TrustedAccount.workspace_id trusted_account_vo)
             domain_id job_options))
       (fun e => JobManager.change_error_status env job_vo e)) ;;;
  ret job_vo.

Definition _set_workspace_theme : payload :=
  let theme := random_choice env in
  {[ "theme" := theme ]}.

Definition _remove_old_reference_id_from_workspace
    (domain_id reference_id : string) : M unit :=
  workspace_vos <-
    WorkspaceManager.filter_workspaces
      (update "references" (VList [reference_id])
         (update "domain_id" (VStr domain_id) ∅)) ;;
  for_each workspace_vos (fun workspace_vo =>
    let references := Workspace.references (doc workspace_vo) in
    match Py.remove reference_id references with
    | None => raise ValueError
    | Some references =>
        WorkspaceManager.update_workspace_by_vo
          (update "references" (VList references) ∅) workspace_vo ;;;
        ret tt
    end).

Definition _create_workspace (domain_id trusted_account_id : string)
    (location_info : LocationNode.t) : M (vo Workspace.t) :=
  let name := LocationNode.name location_info in
  let reference_id := LocationNode.resource_id location_info in
  workspace_vos <-
    WorkspaceManager.filter_workspaces
      (update "name" (VStr name) (update "domain_id" (VStr domain_id) ∅)) ;;
  let p : params :=
    update "is_managed" (VBool true)
      (update "trusted_account_id" (VStr trusted_account_id) ∅) in
  match workspace_vos with
  | workspace_vo :: _ =>
      let p :=
        if negb (String.eqb (Workspace.name (doc workspace_vo)) name)
        then update "name" (VStr name) p else p in
      let p :=
        if Py.truthy_list (Workspace.references (doc workspace_vo))
           && negb (Py.contains reference_id (Workspace.references (doc workspace_vo)))
        then update "references"
               (VList (Workspace.references (doc workspace_vo) ++ [reference_id])) p
        else p in
      now <- utcnow ;;
      let p := update "last_synced_at" (VTime now) p in
      workspace_vo <- WorkspaceManager.update_workspace_by_vo p workspace_vo ;;
      _remove_old_reference_id_from_workspace domain_id reference_id ;;;
      ret workspace_vo
  | [] =>
      now <- utcnow ;;
      let p :=
        update "references" (VList [reference_id])
          (update "last_synced_at" (VTime now)
             (update "domain_id" (VStr domain_id)
                (update "tags" (VDict _set_workspace_theme)
                   (update "name" (VStr name) p)))) in
      WorkspaceManager.create_workspace env p
  end.

Definition _create_project_group (domain_id workspace_id trusted_account_id : string)
    (location_info : LocationNode.t) (parent_group_id : option string)
  : M (vo ProjectGroup.t) :=
  let name := LocationNode.name location_info in
  let reference_id := LocationNode.resource_id location_info in
  let filter_params : params :=
    update "workspace_id" (VStr workspace_id)
      (update "domain_id" (VStr domain_id)
         (update "reference_id" (VStr reference_id)
            (update "is_managed" (VBool true) ∅))) in
  project_group_vos <- ProjectGroupManager.filter_project_groups filter_params ;;
  let p : params := update "trusted_account_id" (VStr trusted_account_id) ∅ in
  let p :=
    if Py.truthy parent_group_id
    then update "parent_group_id" (of_opt parent_group_id) p else p in
  match project_group_vos with
  | project_group_vo :: _ =>
      let p :=
        if negb (String.eqb (ProjectGroup.name (doc project_group_vo)) name)
        then update "name" (VStr name) p else p in
      now <- utcnow ;;
      let p := update "last_synced_at" (VTime now) p in
      ProjectGroupManager.update_project_group_by_vo p project_group_vo
  | [] =>
      now <- utcnow ;;
      let p :=
        update "last_synced_at" (VTime now)
          (update "workspace_id" (VStr workspace_id)
             (update "domain_id" (VStr domain_id)
                (update "is_managed" (VBool true)
                   (update "reference_id" (VStr reference_id)
                      (update "name" (VStr name) p))))) in
      let p :=
        if Py.truthy parent_group_id
        then update "parent_group_id" (of_opt parent_group_id) p else p in
      ProjectGroupManager.create_project_group env p
  end.

(** The dict [_create_project] builds first: the key of its
[filter_projects] call, later grown into the create or update payload. *)
Definition _project_filter (domain_id workspace_id project_type reference_id : string)
  : params :=
  update "is_managed" (VBool true)
    (update "reference_id" (VStr reference_id)
       (update "project_type" (VStr project_type)
          (update "workspace_id" (VStr workspace_id)
             (update "domain_id" (VStr domain_id) ∅)))).

Definition _create_project (result : Result.t)
    (domain_id workspace_id trusted_account_id : string)
    (project_group_id : option string) (sync_options : SyncOptions.t)
    (project_type : string) : M (vo Project.t) :=
  let name := Result.name result in
  let reference_id := Result.resource_id result in
  let p : params :=
  _project_filter domain_id workspace_id project_type reference_id in
project_vos <- ProjectManager.filter_projects p ;;
  let p :=
    if Py.truthy project_group_id
    then update "project_group_id" (of_opt project_group_id) p else p in
  match project_vos with
  | project_vo :: _ =>
      let p :=
        if negb (String.eqb (Project.name (doc project_vo)) name)
        then update "name" (VStr name) p else p in
      now <- utcnow ;;
      let p :=
        update "last_synced_at" (VTime now)
          (update "trusted_account_id" (VStr trusted_account_id) p) in
      ProjectManager.update_project_by_vo p project_vo
  | [] =>
      now <- utcnow ;;
      let p := update "last_synced_at" (VTime now) (update "name" (VStr name) p) in
      ProjectManager.create_project env p
  end.

(** The dict [_create_service_account] builds first: the key of its
[filter_service_accounts] call. *)
Definition _service_account_filter
    (provider reference_id domain_id workspace_id project_id : string) : params :=
  update "project_id" (VStr project_id)
    (update "workspace_id" (VStr workspace_id)
       (update "domain_id" (VStr domain_id)
          (update "is_managed" (VBool true)
             (update "reference_id" (VStr reference_id)
                (update "provider" (VStr provider) ∅))))).

(** The payload [_create_service_account] hands to
    [update_service_account_by_vo] for a matched service account: the
    dict is started, conditionally given ["name"], and then rebound to a
    fresh two-key dict. *)
Definition _create_service_account_update_params (result : Result.t)
    (service_account_vo : vo ServiceAccount.t) (trusted_account_id : string)
    (now : Z) : params :=
  let name := Result.name result in
  let update_params : params := ∅ in
  let update_params :=
    if negb (String.eqb (ServiceAccount.name (doc service_account_vo))
                        (Result.name result))
    then update "name" (VStr name) update_params else update_params in
  let update_params : params :=
    update "last_synced_at" (VTime now)
      (update "trusted_account_id" (VStr trusted_account_id) ∅) in
  update_params.

Definition _create_service_account (result : Result.t)
    (project_vo : vo Project.t) (trusted_account_id : string)
    (trusted_secret_id : option string) (provider : string)
    (sync_options : SyncOptions.t) : M (vo ServiceAccount.t) :=
  let domain_id := Project.domain_id (doc project_vo) in
  let workspace_id := Project.workspace_id (doc project_vo) in
  let project_id := Project.project_id (doc project_vo) in
  let name := Result.name result in
  let reference_id := Result.resource_id result in
  let secret_data := Result.secret_data result in
  let data := Result.data result in
  let secret_schema_id := Result.secret_schema_id result in
  let tags := Result.tags result in
  let p : params :=
  _service_account_filter provider reference_id domain_id workspace_id project_id in
service_account_vos <- ServiceAccountManager.filter_service_accounts p ;;
  service_account_vo <-
    match service_account_vos with
    | service_account_vo :: _ =>
        now <- utcnow ;;
        ServiceAccountManager.update_service_account_by_vo
          (_create_service_account_update_params result service_account_vo
             trusted_account_id now)
          service_account_vo
    | [] =>
        let p :=
          update "tags" (VDict tags)
            (update "trusted_account_id" (VStr trusted_account_id)
               (update "data" (VDict data)
                  (update "name" (VStr name) p))) in
        let p :=
          if Py.truthy secret_schema_id
          then update "schema_id" (of_opt secret_schema_id) p else p in
        ServiceAccountManager.create_service_account env p
    end ;;
  if Py.truthy_dict secret_data then
    (match ServiceAccount.secret_id (doc service_account_vo) with
     | Some secret_id =>
         if Py.truthy (Some secret_id)
         then SecretManager.delete_secret env secret_id domain_id
         else ret tt
     | None => ret tt
     end) ;;;
    check (validate_secret_data_by_schema_id env secret_schema_id
             (ServiceAccount.domain_id (doc service_account_vo))
             secret_data "TRUSTING_SECRET") ;;;
    let create_secret_params : params :=
      update "schema_id" (of_opt secret_schema_id)
        (update "trusted_secret_id" (of_opt trusted_secret_id)
           (update "service_account_id"
              (VStr (ServiceAccount.service_account_id (doc service_account_vo)))
              (update "project_id" (VStr project_id)
                 (update "workspace_id" (VStr workspace_id)
                    (update "resource_group" (VStr "PROJECT")
                       (update "data" (VDict secret_data)
                          (update "name"
                             (VStr (ServiceAccount.service_account_id
                                      (doc service_account_vo) +:+ "-secret"))
                             ∅))))))) in
    secret_id <- SecretManager.create_secret env create_secret_params domain_id ;;
    ServiceAccountManager.update_service_account_by_vo
      (update "secret_id" (VStr secret_id) ∅) service_account_vo
  else ret service_account_vo.

(** The inner loop of [sync_service_accounts] over the remaining location
    nodes; returns the last [parent_group_id]. *)
Fixpoint _create_project_groups (domain_id sync_workspace_id trusted_account_id : string)
    (location : list LocationNode.t) (parent_group_id : option string)
  : M (option string) :=
  match location with
  | [] => ret parent_group_id
  | location_info :: rest =>
      project_group_vo <-
        _create_project_group domain_id sync_workspace_id trusted_account_id
          location_info parent_group_id ;;
      _create_project_groups domain_id sync_workspace_id trusted_account_id rest
        (Some (ProjectGroup.project_group_id (doc project_group_vo)))
  end.

(** The body of the loop of [sync_service_accounts] over the plugin's
    results. The first step resolves the workspace and the location left
    for the project groups; [None] is the source's [continue]. A
    WORKSPACE-scoped account carries its workspace id. *)
Definition sync_result (trusted_account_vo : TrustedAccount.t)
    (workspace_id : option string) (domain_id trusted_account_id : string)
    (trusted_secret_id : option string) (provider : string)
    (sync_options : SyncOptions.t) (result : Result.t) : M unit :=
  let location :=
    _get_location result (TrustedAccount.resource_group trusted_account_vo)
      sync_options in
  placed <-
    match TrustedAccount.resource_group trusted_account_vo with
    | DOMAIN =>
        match SyncOptions.single_workspace_id sync_options with
        | Some single_workspace_id =>
            if Py.truthy (Some single_workspace_id) then
              workspace_vo <-
                WorkspaceManager.get_workspace single_workspace_id domain_id ;;
              ret (Some (Workspace.workspace_id (doc workspace_vo), location))
            else
              match location with
              | location_info :: location =>
                  workspace_vo <-
                    _create_workspace domain_id trusted_account_id location_info ;;
                  ret (Some (Workspace.workspace_id (doc workspace_vo), location))
              | [] => ret None
              end
        | None =>
            match location with
            | location_info :: location =>
                workspace_vo <-
                  _create_workspace domain_id trusted_account_id location_info ;;
                ret (Some (Workspace.workspace_id (doc workspace_vo), location))
            | [] => ret None
            end
        end
    | _ => ret (Some (default "" workspace_id, location))
    end ;;
  match placed with
  | None => ret tt
  | Some (sync_workspace_id, location) =>
      parent_group_id <-
        _create_project_groups domain_id sync_workspace_id trusted_account_id
          location None ;;
      project_vo <-
        _create_project result domain_id sync_workspace_id trusted_account_id
          parent_group_id sync_options "PRIVATE" ;;
      _create_service_account result project_vo trusted_account_id
        trusted_secret_id provider sync_options ;;;
      ret tt
  end.

(** The writes of other workers to the shared store while the plugin is
    called and its results are processed. *)
Definition other_workers : M unit := fun w => (concurrent env w, Return tt).

Definition sync_service_accounts (params : Message.t) : M unit :=
  let trusted_secret_id := Message.trusted_secret_id params in
  let secret_data := Message.secret_data params in
  let trusted_account_id := Message.trusted_account_id params in
  let job_id := Message.job_id params in
  let workspace_id := Message.workspace_id params in
  let domain_id := Message.domain_id params in
  trusted_account_vo <-
    TrustedAccountManager.get_trusted_account trusted_account_id domain_id
      workspace_id ;;
  job_vo <- JobManager.get_job domain_id job_id workspace_id ;;
  check (get_schema env (TrustedAccount.secret_schema_id trusted_account_vo)
           domain_id) ;;;
  provider_vo <-
    ProviderManager.get_provider (TrustedAccount.provider trusted_account_vo)
      domain_id ;;
  let plugin_info := provider_vo in
  let provider := Provider.provider provider_vo in
  let sync_options := TrustedAccount.sync_options trusted_account_vo in
  let plugin_options := TrustedAccount.plugin_options trusted_account_vo in
  failed <- _is_job_failed job_id domain_id (Job.workspace_id (doc job_vo)) ;;
  (if failed then JobManager.change_canceled_status env job_vo
   else
     JobManager.change_in_progress_status env job_vo ;;;
     try_except
       (let options := plugin_options ∪ Provider.plugin_options plugin_info in
        let schema_id := Provider.schema_id plugin_info in
        located <-
          external (get_account_collector_plugin_endpoint env plugin_info domain_id) ;;
        let endpoint := fst located in
        check (initialize env endpoint) ;;;
        start_dt <- utcnow ;;
        response <-
          external (plugin_sync env endpoint options secret_data domain_id schema_id) ;;
        for_each response
          (sync_result trusted_account_vo workspace_id domain_id
             trusted_account_id trusted_secret_id provider sync_options) ;;;
        other_workers ;;;
        failed <- _is_job_failed job_id domain_id (Job.workspace_id (doc job_vo)) ;;
        is_canceled <-
          (if failed
           then JobManager.change_canceled_status env job_vo ;;; ret true
           else ret false) ;;
        if negb is_canceled
        then end_dt <- utcnow ;; JobManager.change_success_status env job_vo
        else ret tt)
       (fun e => JobManager.change_error_status env job_vo e)) ;;;
  _close_job job_id domain_id (Job.workspace_id (doc job_vo)).

End JobService.

(** Fetching the trusted credential raises, or the credential fetched is
    rejected by its schema. *)
Definition secret_resolution_fails (env : Env)
    (trusted_account_vo : TrustedAccount.t) (w : World) : Prop :=
  let fetched :=
    snd (_get_trusted_secret_data env
           (TrustedAccount.trusted_secret_id trusted_account_vo)
           (TrustedAccount.domain_id trusted_account_vo) w) in
  (exists e, fetched = Raise e)
  \/ (exists secret_data e,
        fetched = Return secret_data
        /\ Py.truthy_dict secret_data = true
        /\ validate_secret_data_by_schema_id env
             (Some (TrustedAccount.secret_schema_id trusted_account_vo))
             (TrustedAccount.domain_id trusted_account_vo) secret_data "SECRET"
           = Some e).

(** ** Sample data

    A domain-scoped trusted account, its provider and plugin answers, used
    to run the definitions on concrete inputs. *)

Definition sample_location : list LocationNode.t :=
  [ LocationNode.mk "ws-a" "w1";
    LocationNode.mk "group-b" "g1";
    LocationNode.mk "group-c" "g2" ].

Definition sample_result : Result.t :=
  Result.mk "acct-1" "r1" (Some sample_location) {[ "key" := "abc" ]} ∅ None ∅.

Definition skip_options : SyncOptions.t := SyncOptions.mk true None.

(** Collaborators that all answer: the ledger of the specification, a
    vault holding one credential, a validator that accepts, a plugin that
    returns [sample_result], a queue that accepts, no other worker. *)
Definition sample_env : Env :=
  mkEnv spec_ledger (fun kind n => kind +:+ "-" +:+ pretty n) "blue"
    (fun _ _ => Return {[ "key" := "abc" ]})
    (fun _ _ _ _ => None)
    (fun _ _ => None)
    (fun _ => Return "grpc://plugin")
    (fun _ _ => Return ("grpc://plugin", "1.0"))
    (fun _ => None)
    (fun _ _ _ _ _ => Return [sample_result])
    (fun _ => None)
    (fun _ _ => Return "secret-1")
    (fun _ _ => None)
    (fun w => w).

Definition sample_account : TrustedAccount.t :=
  TrustedAccount.mk "ta-1" "d" None DOMAIN "aws" "schema" (Some "ts-1")
    (SyncOptions.mk false None) ∅.

Definition sample_provider : Provider.t := Provider.mk "aws" "d" "plugin-x" ∅ None.

(** An empty inventory at time 10^9. *)
Definition empty_world : World :=
  mkWorld [] [] [] [] [] [sample_account] [sample_provider] [] [] 1000000000.

(** Two jobs of [sample_account] still IN_PROGRESS: one created long
    before the ten-minute window, one inside it. *)
Definition stale_job : Job.t :=
  Job.mk "job-a" DOMAIN "d" (Some "*") "ta-1" "plugin-x" ∅ IN_PROGRESS
    100000000 None None.

Definition fresh_job : Job.t :=
  Job.mk "job-b" DOMAIN "d" (Some "*") "ta-1" "plugin-x" ∅ IN_PROGRESS
    900000000 None None.

Definition busy_world : World :=
  mkWorld [stale_job; fresh_job] [] [] [] [] [sample_account] [sample_provider]
    [] [] 1000000000.

(** The vault is down. *)
Definition vault_down_env : Env :=
  mkEnv spec_ledger (generate_id sample_env) "blue"
    (fun _ _ => Raise (ERROR_EXTERNAL "vault down"))
    (validate_secret_data_by_schema_id sample_env)
    (get_schema sample_env)
    (get_account_collector_plugin_endpoint_by_vo sample_env)
    (get_account_collector_plugin_endpoint sample_env)
    (initialize sample_env)
    (plugin_sync sample_env)
    (push sample_env)
    (create_secret sample_env)
    (delete_secret sample_env)
    (concurrent sample_env).

(** Another worker cancels the first job while the results are
    processed. *)
Definition canceling_env : Env :=
  mkEnv spec_ledger (generate_id sample_env) "blue"
    (get_trusted_secret_data sample_env)
    (validate_secret_data_by_schema_id sample_env)
    (get_schema sample_env)
    (get_account_collector_plugin_endpoint_by_vo sample_env)
    (get_account_collector_plugin_endpoint sample_env)
    (initialize sample_env)
    (plugin_sync sample_env)
    (push sample_env)
    (create_secret sample_env)
    (delete_secret sample_env)
    (fun w => set_jobs (alter (Job.with_status CANCELED) 0 (jobs w)) w).

(** A job of [sample_account] just created and its dispatch message. *)
Definition pending_job : Job.t :=
  Job.mk "job-0" DOMAIN "d" (Some "*") "ta-1" "plugin-x" ∅ PENDING
    1000000000 None None.

Definition sample_task : Message.t :=
  dispatch_message sample_account pending_job {[ "key" := "abc" ]} ∅.

Definition dispatched_world : World :=
  mkWorld [pending_job] [] [] [] [] [sample_account] [sample_provider]
    [sample_task] [] 1000000000.

(** The same, after the provider has been deleted. *)
Definition orphaned_world : World :=
  mkWorld [pending_job] [] [] [] [] [sample_account] [] [sample_task] []
    1000000000.

(** An inventory holding what a first sync of ["acct-1"] left. *)
Definition sample_project : Project.t :=
  Project.mk "project-0" "acct-1" (Some "r1") true "PRIVATE" "d" "workspace-0"
    None (Some "ta-1") (Some 900000000%Z).

Definition sample_service_account : ServiceAccount.t :=
  ServiceAccount.mk "sa-0" "acct-1" ∅ "aws" (Some "r1") true "d" "workspace-0"
    "project-0" (Some "ta-1") ∅ None None None.

Definition synced_world : World :=
  mkWorld [] [] [] [sample_project] [sample_service_account] [sample_account]
    [sample_provider] [] [] 1000000000.

(** The record of ["acct-1"] seen again under a new name, without secret. *)
Definition renamed_result : Result.t :=
  Result.mk "acct-1-renamed" "r1" (Some [LocationNode.mk "ws-a" "w1"]) ∅ ∅ None ∅.

(** A record that carries no location. *)
Definition unplaced_result : Result.t :=
  Result.mk "acct-2" "r2" None ∅ ∅ None ∅.

(** A domain in which ["ws-a"] exists and the provider id ["w1"] is held
    by ["ws-b"]. *)
Definition ws_a : Workspace.t :=
  Workspace.mk "workspace-1" "ws-a" "d" ["w0"] ∅ None false None.

Definition ws_b : Workspace.t :=
  Workspace.mk "workspace-2" "ws-b" "d" ["w1"; "w9"] ∅ None false None.

Definition migrating_world : World :=
  mkWorld [] [ws_a; ws_b] [] [] [] [sample_account] [sample_provider] [] []
    1000000000.

(** A domain in which ["ws-a"] already holds ["w1"], as a first sync
    leaves it. *)
Definition settled_world : World :=
  mkWorld []
    [Workspace.mk "workspace-0" "ws-a" "d" ["w1"] {[ "theme" := "blue" ]}
       (Some "ta-1") true (Some 900000000%Z)]
    [] [] [] [sample_account] [sample_provider] [] [] 1000000000.

(** The dispatched job, already marked FAILURE when the worker picks its
    message up. *)
Definition failed_world : World :=
  mkWorld [Job.with_status FAILURE pending_job] [] [] [] [] [sample_account]
    [sample_provider] [sample_task] [] 1000000000.

(** ** Further vocabulary *)

(** The fields by which a job is looked up. *)
Definition job_key (j : Job.t) : string * string * option string :=
  (Job.job_id j, Job.domain_id j, Job.workspace_id j).

(** The inventory and the vault: everything the reconciler may write. *)
Definition inventory (w : World)
  : list Workspace.t * list ProjectGroup.t * list Project.t
    * list ServiceAccount.t * list VaultCall :=
  (workspaces w, project_groups w, projects w, service_accounts w, vault w).

(** What [_close_job] does to the job it finds, under the ledger of the
    specification. *)
Definition closed (now : Z) (x : Job.t) : Job.t :=
  match Job.status x with
  | IN_PROGRESS => Ledger.change_success_status spec_ledger now x
  | FAILURE => Job.with_finished_at (Some now) x
  | _ => x
  end.

(** The part of the try block of [sync_service_accounts] that talks to
    the plugin and reconciles its results: from the merge of the plugin
    options to the end of the loop over [response["results"]]. *)
Definition reconcile_all (env : Env) (trusted_account_vo : TrustedAccount.t)
    (params : Message.t) (provider_vo : Provider.t) : M unit :=
  let domain_id := Message.domain_id params in
  let options :=
    TrustedAccount.plugin_options trusted_account_vo
    ∪ Provider.plugin_options provider_vo in
  let schema_id := Provider.schema_id provider_vo in
  located <-
    external (get_account_collector_plugin_endpoint env provider_vo domain_id) ;;
  let endpoint := fst located in
  check (initialize env endpoint) ;;;
  start_dt <- utcnow ;;
  response <-
    external (plugin_sync env endpoint options (Message.secret_data params)
                domain_id schema_id) ;;
  for_each response
    (sync_result env trusted_account_vo (Message.workspace_id params) domain_id
       (Message.trusted_account_id params) (Message.trusted_secret_id params)
       (Provider.provider provider_vo)
       (TrustedAccount.sync_options trusted_account_vo)).


(** The vault refuses to store a new credential. *)
Definition vault_full_env : Env :=
  mkEnv spec_ledger (generate_id sample_env) "blue"
    (get_trusted_secret_data sample_env)
    (validate_secret_data_by_schema_id sample_env)
    (get_schema sample_env)
    (get_account_collector_plugin_endpoint_by_vo sample_env)
    (get_account_collector_plugin_endpoint sample_env)
    (initialize sample_env)
    (plugin_sync sample_env)
    (push sample_env)
    (fun _ _ => Raise (ERROR_EXTERNAL "vault full"))
    (delete_secret sample_env)
    (concurrent sample_env).

(** A project group left by an earlier sync under the group ["pg-9"]. *)
Definition sample_group : ProjectGroup.t :=
  ProjectGroup.mk "pg-0" "group-b" (Some "g1") true "d" "workspace-0"
    (Some "pg-9") (Some "ta-1") (Some 900000000%Z).

Definition grouped_world : World :=
  mkWorld [] [] [sample_group] [] [] [sample_account] [sample_provider] [] []
    1000000000.

(** The project of ["acct-1"], placed under the group ["pg-0"] by an
    earlier sync. *)
Definition grouped_project : Project.t :=
  Project.mk "project-0" "acct-1" (Some "r1") true "PRIVATE" "d" "workspace-0"
    (Some "pg-0") (Some "ta-1") (Some 900000000%Z).

Definition regrouped_world : World :=
  mkWorld [] [] [sample_group] [grouped_project] [] [sample_account]
    [sample_provider] [] [] 1000000000.

(** The secret ids of the stored service accounts, by position. *)
Definition service_account_secrets (w : World) : list (option string) :=
  ServiceAccount.secret_id <$> service_accounts w.

(** A first sync left ["acct-1"] with the secret ["secret-0"]; the record
    comes again with new secret material. *)
Definition keyed_service_account : ServiceAccount.t :=
  ServiceAccount.mk "sa-0" "acct-1" ∅ "aws" (Some "r1") true "d" "workspace-0"
    "project-0" (Some "ta-1") ∅ None (Some "secret-0") None.

Definition keyed_world : World :=
  mkWorld [] [] [] [sample_project] [keyed_service_account] [sample_account]
    [sample_provider] [] [] 1000000000.

(** The schema check rejects the secret material of a service account. *)
Definition strict_env : Env :=
  mkEnv spec_ledger (generate_id sample_env) "blue"
    (get_trusted_secret_data sample_env)
    (fun _ _ _ kind =>
       if String.eqb kind "TRUSTING_SECRET"
       then Some (ERROR_EXTERNAL "schema mismatch") else None)
    (get_schema sample_env)
    (get_account_collector_plugin_endpoint_by_vo sample_env)
    (get_account_collector_plugin_endpoint sample_env)
    (initialize sample_env)
    (plugin_sync sample_env)
    (push sample_env)
    (create_secret sample_env)
    (delete_secret sample_env)
    (concurrent sample_env).

(** What [_create_service_account] does after it has created or updated
    the account: the secret of the record, if it carries one. *)
Definition secret_step (env : Env) (result : Result.t) (project_vo : vo Project.t)
    (trusted_secret_id : option string) (service_account_vo : vo ServiceAccount.t)
  : M (vo ServiceAccount.t) :=
  let domain_id := Project.domain_id (doc project_vo) in
  let workspace_id := Project.workspace_id (doc project_vo) in
  let project_id := Project.project_id (doc project_vo) in
  let secret_data := Result.secret_data result in
  let secret_schema_id := Result.secret_schema_id result in
  if Py.truthy_dict secret_data then
    (match ServiceAccount.secret_id (doc service_account_vo) with
     | Some secret_id =>
         if Py.truthy (Some secret_id)
         then SecretManager.delete_secret env secret_id domain_id
         else ret tt
     | None => ret tt
     end) ;;;
    check (validate_secret_data_by_schema_id env secret_schema_id
             (ServiceAccount.domain_id (doc service_account_vo))
             secret_data "TRUSTING_SECRET") ;;;
    let create_secret_params : params :=
      update "schema_id" (of_opt secret_schema_id)
        (update "trusted_secret_id" (of_opt trusted_secret_id)
           (update "service_account_id"
              (VStr (ServiceAccount.service_account_id (doc service_account_vo)))
              (update "project_id" (VStr project_id)
                 (update "workspace_id" (VStr workspace_id)
                    (update "resource_group" (VStr "PROJECT")
                       (update "data" (VDict secret_data)
                          (update "name"
                             (VStr (ServiceAccount.service_account_id
                                      (doc service_account_vo) +:+ "-secret"))
                             ∅))))))) in
    secret_id <- SecretManager.create_secret env create_secret_params domain_id ;;
    ServiceAccountManager.update_service_account_by_vo
      (update "secret_id" (VStr secret_id) ∅) service_account_vo
  else ret service_account_vo.

(** ** The scheduler entry point *)

(** [datetime.utcnow().hour] *)
Definition utc_hour (now : Z) : Z := ((now / (3600 * 1000000)) mod 24)%Z.

(** One condition of the query that
    [_get_all_schedule_enabled_trusted_accounts] builds:
    [{"k": k, "v": v, "o": "eq"}] or [{"k": k, "v": [..], "o": "in"}]. *)
Inductive schedule_cond :=
| ScheduleEq (k v : string)
| ScheduleIn (k : string) (v : list Z).

Section Scheduler.
Variable env : Env.

(** [TrustedAccountManager.list_trusted_accounts] is not among the
    sources, and the schedule of a trusted account is read nowhere else
    in the service: the listing is a parameter, given the query. *)
Variable list_trusted_accounts :
  list schedule_cond -> M (list TrustedAccount.t * nat).

Definition _get_all_schedule_enabled_trusted_accounts (current_hour : Z)
  : M (list TrustedAccount.t) :=
  let query :=
    [ ScheduleEq "schedule.state" "ENABLED";
      ScheduleIn "schedule.hours" [current_hour] ] in
  listed <- list_trusted_accounts query ;;
  let trusted_account_vos := fst listed in
  ret trusted_account_vos.

(** [params] is the optional ["current_hour"] of the request; the default,
    [datetime.utcnow().hour], is evaluated whether it is used or not. *)
Definition create_jobs_by_trusted_account (params : option Z) : M unit :=
  now <- utcnow ;;
  let current_hour := default (utc_hour now) params in
  trusted_account_vos <- _get_all_schedule_enabled_trusted_accounts current_hour ;;
  for_each trusted_account_vos (fun trusted_account_vo =>
    try_except
      (create_service_account_job env trusted_account_vo ∅ ;;; ret tt)
      (fun e => ret tt)).

End Scheduler.

(** The provider of the trusted account resolves, its plugin endpoint is
    obtained and the plugin initialises: the three calls
    [create_service_account_job] makes before it records a job. *)
Definition reachable (env : Env) (w : World) (trusted_account_vo : TrustedAccount.t)
  : bool :=
  match snd (ProviderManager.get_provider
               (TrustedAccount.provider trusted_account_vo)
               (TrustedAccount.domain_id trusted_account_vo) w) with
  | Return provider_vo =>
      match get_account_collector_plugin_endpoint_by_vo env provider_vo with
      | Return endpoint =>
          match initialize env endpoint with
          | None => true
          | Some _ => false
          end
      | Raise _ => false
      end
  | Raise _ => false
  end.

(** A trusted account of another cloud, whose provider is not registered. *)
Definition stray_account : TrustedAccount.t :=
  TrustedAccount.mk "ta-9" "d" None DOMAIN "gcp" "schema" None
    (SyncOptions.mk false None) ∅.

(** The schedule lists [stray_account] before [sample_account]. *)
Definition sample_schedule (query : list schedule_cond)
  : M (list TrustedAccount.t * nat) :=
  ret ([stray_account; sample_account], 2).

(** A fresh job of [sample_account] listed before a stale one. *)
Definition late_world : World :=
  mkWorld [fresh_job; stale_job] [] [] [] [] [sample_account] [sample_provider]
    [] [] 1000000000.

(** The sizes of the four inventory collections. *)
Definition inventory_sizes (w : World) : nat * nat * nat * nat :=
  (length (workspaces w), length (project_groups w), length (projects w),
   length (service_accounts w)).

(** The dict [_create_project_group] builds as [filter_params]. *)
Definition _project_group_filter (domain_id workspace_id reference_id : string)
  : params :=
  update "workspace_id" (VStr workspace_id)
    (update "domain_id" (VStr domain_id)
       (update "reference_id" (VStr reference_id)
          (update "is_managed" (VBool true) ∅))).

(** What the loop body of [sync_service_accounts] does once the workspace
    of a record is known: the project groups of the remaining location,
    the project, the service account. *)
Definition reconcile_placed (env : Env) (result : Result.t)
    (domain_id trusted_account_id : string) (trusted_secret_id : option string)
    (provider : string) (sync_options : SyncOptions.t)
    (sync_workspace_id : string) (location : list LocationNode.t) : M unit :=
  parent_group_id <-
    _create_project_groups env domain_id sync_workspace_id trusted_account_id
      location None ;;
  project_vo <-
    _create_project env result domain_id sync_workspace_id trusted_account_id
      parent_group_id sync_options "PRIVATE" ;;
  _create_service_account env result project_vo trusted_account_id
    trusted_secret_id provider sync_options ;;;
  ret tt.



(** The plugin is out of reach: no endpoint, no initialisation, no
    answer to a sync. *)
Definition plugin_down_env : Env :=
  mkEnv spec_ledger (generate_id sample_env) "blue"
    (get_trusted_secret_data sample_env)
    (validate_secret_data_by_schema_id sample_env)
    (get_schema sample_env)
    (fun _ => Raise (ERROR_EXTERNAL "plugin down"))
    (fun _ _ => Raise (ERROR_EXTERNAL "plugin down"))
    (fun _ => Some (ERROR_EXTERNAL "plugin down"))
    (fun _ _ _ _ _ => Raise (ERROR_EXTERNAL "plugin down"))
    (push sample_env)
    (create_secret sample_env)
    (delete_secret sample_env)
    (concurrent sample_env).

(** Whom a job is for, and the same of a trusted account. *)
Definition job_owner (j : Job.t) : string * string :=
  (Job.trusted_account_id j, Job.domain_id j).

Definition account_owner (a : TrustedAccount.t) : string * string :=
  (TrustedAccount.trusted_account_id a, TrustedAccount.domain_id a).
(** * Properties *)


(** ** Running a method *)

Lemma bind_Return {A B} (m : M A) (k : A -> M B) (w w' : World) (a : A) :
  m w = (w', Return a) -> bind m k w = k a w'.
Proof. intros H. unfold bind. rewrite H. reflexivity. Qed.

Lemma bind_Raise {A B} (m : M A) (k : A -> M B) (w w' : World) (e : exn) :
  m w = (w', Raise e) -> bind m k w = (w', Raise e).
Proof. intros H. unfold bind. rewrite H. reflexivity. Qed.

(** ** Frames: what a method leaves alone *)

Section Frames.
Context {X : Type} (g : World -> X).

Lemma frames_ret {A} (a : A) : frames g (ret a).
Proof. intros w. reflexivity. Qed.

Lemma frames_raise {A} (e : exn) : frames g (@raise A e).
Proof. intros w. reflexivity. Qed.

Lemma frames_external {A} (r : outcome A) : frames g (external r).
Proof. intros w. reflexivity. Qed.

Lemma frames_check (r : option exn) : frames g (check r).
Proof. intros w. unfold check. destruct r; reflexivity. Qed.

Lemma frames_utcnow : frames g utcnow.
Proof. intros w. reflexivity. Qed.

Lemma frames_bind {A B} (m : M A) (k : A -> M B) :
  frames g m -> (forall a, frames g (k a)) -> frames g (bind m k).
Proof.
  intros Hm Hk w. unfold bind. specialize (Hm w).
  destruct (m w) as [w' [a|e]]; simpl in *.
  - rewrite Hk. exact Hm.
  - exact Hm.
Qed.

Lemma frames_try_except {A} (m : M A) (handler : exn -> M A) :
  frames g m -> (forall e, frames g (handler e)) -> frames g (try_except m handler).
Proof.
  intros Hm Hh w. unfold try_except. specialize (Hm w).
  destruct (m w) as [w' [a|e]]; simpl in *.
  - exact Hm.
  - rewrite Hh. exact Hm.
Qed.

Lemma frames_for_each {A} (xs : list A) (body : A -> M unit) :
  (forall x, frames g (body x)) -> frames g (for_each xs body).
Proof.
  intros Hbody. induction xs as [|x xs IH]; simpl.
  - apply frames_ret.
  - apply frames_bind; [apply Hbody|intros _; exact IH].
Qed.

End Frames.

(** The primitives of the managers, each framing whatever does not depend
    on the collection it writes. *)
Section PrimitiveFrames.
Context {X : Type} (g : World -> X) (env : Env).

Lemma frames_job_transition f job_vo :
  (forall w x, g (set_jobs x w) = g w) -> frames g (JobManager.transition f job_vo).
Proof. intros H w. apply H. Qed.

Lemma frames_update_job_by_vo p job_vo :
  (forall w x, g (set_jobs x w) = g w) -> frames g (JobManager.update_job_by_vo p job_vo).
Proof. intros H w. apply H. Qed.

Lemma frames_get_job d j ws : frames g (JobManager.get_job d j ws).
Proof. intros w. unfold JobManager.get_job. destruct (query _ _); reflexivity. Qed.

Lemma frames_filter_workspaces c : frames g (WorkspaceManager.filter_workspaces c).
Proof. intros w. reflexivity. Qed.

Lemma frames_get_workspace i d : frames g (WorkspaceManager.get_workspace i d).
Proof. intros w. unfold WorkspaceManager.get_workspace. destruct (query _ _); reflexivity. Qed.

Lemma frames_update_workspace_by_vo p v :
  (forall w x, g (set_workspaces x w) = g w) ->
  frames g (WorkspaceManager.update_workspace_by_vo p v).
Proof. intros H w. apply H. Qed.

Lemma frames_create_workspace p :
  (forall w x, g (set_workspaces x w) = g w) ->
  frames g (WorkspaceManager.create_workspace env p).
Proof. intros H w. apply H. Qed.

Lemma frames_filter_project_groups c :
  frames g (ProjectGroupManager.filter_project_groups c).
Proof. intros w. reflexivity. Qed.

Lemma frames_update_project_group_by_vo p v :
  (forall w x, g (set_project_groups x w) = g w) ->
  frames g (ProjectGroupManager.update_project_group_by_vo p v).
Proof. intros H w. apply H. Qed.

Lemma frames_create_project_group p :
  (forall w x, g (set_project_groups x w) = g w) ->
  frames g (ProjectGroupManager.create_project_group env p).
Proof. intros H w. apply H. Qed.

Lemma frames_filter_projects c : frames g (ProjectManager.filter_projects c).
Proof. intros w. reflexivity. Qed.

Lemma frames_update_project_by_vo p v :
  (forall w x, g (set_projects x w) = g w) ->
  frames g (ProjectManager.update_project_by_vo p v).
Proof. intros H w. apply H. Qed.

Lemma frames_create_project p :
  (forall w x, g (set_projects x w) = g w) ->
  frames g (ProjectManager.create_project env p).
Proof. intros H w. apply H. Qed.

Lemma frames_filter_service_accounts c :
  frames g (ServiceAccountManager.filter_service_accounts c).
Proof. intros w. reflexivity. Qed.

Lemma frames_update_service_account_by_vo p v :
  (forall w x, g (set_service_accounts x w) = g w) ->
  frames g (ServiceAccountManager.update_service_account_by_vo p v).
Proof. intros H w. apply H. Qed.

Lemma frames_create_service_account p :
  (forall w x, g (set_service_accounts x w) = g w) ->
  frames g (ServiceAccountManager.create_service_account env p).
Proof. intros H w. apply H. Qed.

Lemma frames_delete_secret s d :
  (forall w x, g (set_vault x w) = g w) ->
  frames g (SecretManager.delete_secret env s d).
Proof.
  intros H w. unfold SecretManager.delete_secret.
  destruct (delete_secret env s d); apply H.
Qed.

Lemma frames_create_secret p d :
  (forall w x, g (set_vault x w) = g w) ->
  frames g (SecretManager.create_secret env p d).
Proof. intros H w. apply H. Qed.

End PrimitiveFrames.

(** Steps through a method given as a chain of binds and branches. *)
Ltac frames_step :=
  first
    [ apply frames_ret | apply frames_raise | apply frames_external
    | apply frames_check | apply frames_utcnow
    | apply frames_bind; [|intros ?]
    | apply frames_try_except; [|intros ?]
    | apply frames_for_each; intros ?
    | apply frames_get_job | apply frames_filter_workspaces
    | apply frames_get_workspace | apply frames_filter_project_groups
    | apply frames_filter_projects | apply frames_filter_service_accounts
    | apply frames_job_transition; intros; reflexivity
    | apply frames_update_job_by_vo; intros; reflexivity
    | apply frames_update_workspace_by_vo; intros; reflexivity
    | apply frames_create_workspace; intros; reflexivity
    | apply frames_update_project_group_by_vo; intros; reflexivity
    | apply frames_create_project_group; intros; reflexivity
    | apply frames_update_project_by_vo; intros; reflexivity
    | apply frames_create_project; intros; reflexivity
    | apply frames_update_service_account_by_vo; intros; reflexivity
    | apply frames_create_service_account; intros; reflexivity
    | apply frames_delete_secret; intros; reflexivity
    | apply frames_create_secret; intros; reflexivity
    | match goal with
      | |- frames _ (if ?b then _ else _) => destruct b
      | |- frames _ (match ?x with _ => _ end) => destruct x
      | |- frames _ (let _ := _ in _) => cbv zeta
      end ].

Ltac frames_auto := repeat frames_step.

(** Turns a goal [g (fst (m w)) = g w] into [frames g m]. *)
Ltac frames_goal g :=
  match goal with
  | |- g (fst (?m ?w)) = g ?w => refine ((_ : frames g m) w)
  end.

Lemma remove_old_reference_frames_jobs d r :
  frames jobs (_remove_old_reference_id_from_workspace d r).
Proof. unfold _remove_old_reference_id_from_workspace. frames_auto. Qed.

Lemma create_workspace_frames_jobs env d ta n :
  frames jobs (_create_workspace env d ta n).
Proof.
  unfold _create_workspace. frames_auto.
  all: apply remove_old_reference_frames_jobs.
Qed.

Lemma create_project_group_frames_jobs env d ws ta n parent :
  frames jobs (_create_project_group env d ws ta n parent).
Proof. unfold _create_project_group. frames_auto. Qed.

Lemma create_project_groups_frames_jobs env d ws ta l parent :
  frames jobs (_create_project_groups env d ws ta l parent).
Proof.
  revert parent. induction l as [|n l IH]; intros parent; simpl.
  - apply frames_ret.
  - apply frames_bind; [apply create_project_group_frames_jobs|intros v; apply IH].
Qed.

Lemma create_project_frames_jobs env r d ws ta g so ty :
  frames jobs (_create_project env r d ws ta g so ty).
Proof. unfold _create_project. frames_auto. Qed.

Lemma create_service_account_frames_jobs env r pv ta ts prov so :
  frames jobs (_create_service_account env r pv ta ts prov so).
Proof. unfold _create_service_account. frames_auto. Qed.

Lemma sync_result_frames_jobs env tav ws d ta ts prov so r :
  frames jobs (sync_result env tav ws d ta ts prov so r).
Proof.
  unfold sync_result.
  apply frames_bind.
  - frames_auto; apply create_workspace_frames_jobs.
  - intros [[sw loc]|]; [|apply frames_ret].
    apply frames_bind; [apply create_project_groups_frames_jobs|intros parent].
    apply frames_bind; [apply create_project_frames_jobs|intros pv].
    apply frames_bind; [apply create_service_account_frames_jobs|intros sa].
    apply frames_ret.
Qed.

(** ** Queries and lookups *)

Lemma query_elem_of {A} (p : A -> bool) (l : list A) (v : vo A) :
  v ∈ query p l <-> l !! oid v = Some (doc v) /\ p (doc v) = true.
Proof.
  unfold query. rewrite list_elem_of_filter, elem_of_lookup_imap. split.
  - intros [Hp (i & x & -> & Hl)]. simpl in *. split; [exact Hl|].
    destruct (p x); [reflexivity|contradiction].
  - intros [Hl Hp]. split; [rewrite Hp; exact I|].
    exists (oid v), (doc v). split; [destruct v; reflexivity|exact Hl].
Qed.

Lemma query_head {A} (p : A -> bool) (l : list A) (v : vo A) (rest : list (vo A)) :
  query p l = v :: rest -> l !! oid v = Some (doc v) /\ p (doc v) = true.
Proof. intros H. apply query_elem_of. rewrite H. left. Qed.

Lemma query_nonempty {A} (p : A -> bool) (l : list A) (i : nat) (x : A) :
  l !! i = Some x -> p x = true -> query p l <> [].
Proof.
  intros Hl Hp Hnil.
  assert (H : VO i x ∈ query p l) by (apply query_elem_of; auto).
  rewrite Hnil in H. inversion H.
Qed.

Lemma get_job_world d j ws w : fst (JobManager.get_job d j ws w) = w.
Proof. unfold JobManager.get_job. destruct (query _ _); reflexivity. Qed.

Lemma get_job_found d j ws w w' v :
  JobManager.get_job d j ws w = (w', Return v) ->
  w' = w /\ jobs w !! oid v = Some (doc v)
  /\ Job.job_id (doc v) = j /\ Job.domain_id (doc v) = d.
Proof.
  unfold JobManager.get_job.
  destruct (query _ _) as [|v0 rest] eqn:Hq; [discriminate|].
  intros [= <- <-]. apply query_head in Hq as [Hl Hp].
  apply andb_prop in Hp as [Hp _]. apply andb_prop in Hp as [Hid Hd].
  apply String.eqb_eq in Hid, Hd. auto.
Qed.

(** A job found once is found again under its own workspace id. *)
Lemma get_job_again d j ws w v :
  JobManager.get_job d j ws w = (w, Return v) ->
  exists v', JobManager.get_job d j (Job.workspace_id (doc v)) w = (w, Return v').
Proof.
  intros H. apply get_job_found in H as (_ & Hl & Hid & Hd).
  unfold JobManager.get_job.
  destruct (query _ _) as [|v' rest] eqn:Hq; [|eauto].
  exfalso. eapply query_nonempty in Hq; [exact Hq|exact Hl|].
  rewrite Hid, Hd, !String.eqb_refl. simpl.
  destruct (Job.workspace_id (doc v)); [apply bool_decide_eq_true; reflexivity|reflexivity].
Qed.

Lemma is_job_failed_total d j ws w v :
  JobManager.get_job d j ws w = (w, Return v) ->
  exists b, _is_job_failed j d (Job.workspace_id (doc v)) w = (w, Return b).
Proof.
  intros H. apply get_job_again in H as [v' H].
  unfold _is_job_failed. rewrite (bind_Return _ _ _ _ _ H).
  destruct (Job.status (doc v')); eexists; reflexivity.
Qed.

Lemma try_except_total (m : M unit) (handler : exn -> M unit) :
  (forall e w, exists w', handler e w = (w', Return tt)) ->
  forall w, exists w', try_except m handler w = (w', Return tt).
Proof.
  intros Hh w. unfold try_except. destruct (m w) as [w1 [[]|e]]; eauto.
Qed.

Lemma transition_total f v w :
  JobManager.transition f v w
  = (set_jobs (alter (f (clock w)) (oid v) (jobs w)) w, Return tt).
Proof. reflexivity. Qed.

Lemma close_job_outcome env j d ws w :
  snd (_close_job env j d ws w) = Return tt
  \/ snd (_close_job env j d ws w) = Raise (ERROR_NOT_FOUND "job_id" j).
Proof.
  unfold _close_job, bind, JobManager.get_job.
  destruct (query _ _) as [|v rest]; [right; reflexivity|left].
  destruct (Job.status (doc v)); reflexivity.
Qed.


(** ** Preserved properties *)

Section Preserves.
Context (P : World -> Prop).

Lemma preserves_frames {A X} (g : World -> X) (m : M A) :
  (forall w w', g w' = g w -> P w -> P w') -> frames g m -> preserves P m.
Proof. intros Hg Hm w Hw. exact (Hg w _ (Hm w) Hw). Qed.

Lemma preserves_ret {A} (a : A) : preserves P (ret a).
Proof. intros w Hw. exact Hw. Qed.

Lemma preserves_bind {A B} (m : M A) (k : A -> M B) :
  preserves P m -> (forall a, preserves P (k a)) -> preserves P (bind m k).
Proof.
  intros Hm Hk w Hw. unfold bind. specialize (Hm w Hw).
  destruct (m w) as [w' [a|e]]; simpl in *.
  - apply Hk. exact Hm.
  - exact Hm.
Qed.

Lemma preserves_try_except {A} (m : M A) (handler : exn -> M A) :
  preserves P m -> (forall e, preserves P (handler e)) ->
  preserves P (try_except m handler).
Proof.
  intros Hm Hh w Hw. unfold try_except. specialize (Hm w Hw).
  destruct (m w) as [w' [a|e]]; simpl in *.
  - exact Hm.
  - apply Hh. exact Hm.
Qed.

Lemma preserves_for_each {A} (xs : list A) (body : A -> M unit) :
  (forall x, preserves P (body x)) -> preserves P (for_each xs body).
Proof.
  intros Hbody. induction xs as [|x xs IH]; simpl.
  - apply preserves_ret.
  - apply preserves_bind; [apply Hbody|intros _; exact IH].
Qed.

End Preserves.

(** ** The ledger of the specification *)

Lemma forward_terminal (f : Job.t -> Job.t) (j : Job.t) :
  Job.terminal (Job.status j) = true -> forward f j = j.
Proof. intros H. unfold forward. rewrite H. reflexivity. Qed.

Lemma forward_status (f : Job.t -> Job.t) (j : Job.t) (s : JobStatus) :
  Job.terminal s = true -> Job.status j = s -> Job.status (forward f j) = s.
Proof. intros Hs <-. rewrite forward_terminal by exact Hs. reflexivity. Qed.

(** A transition that keeps terminal statuses does so at every position
    of the collection. *)
Lemma transition_preserves_status (f : Z -> Job.t -> Job.t) (v : vo Job.t)
    (i : nat) (s : JobStatus) :
  (forall now j, Job.status j = s -> Job.status (f now j) = s) ->
  preserves (fun w => job_status_at i w = Some s) (JobManager.transition f v).
Proof.
  intros Hf w Hw. unfold job_status_at in *. simpl.
  destruct (decide (oid v = i)) as [<-|Hne].
  - rewrite list_lookup_alter_eq.
    destruct (jobs w !! oid v) as [j|]; simpl in *; [|discriminate].
    injection Hw as Hw. f_equal. apply Hf. exact Hw.
  - rewrite list_lookup_alter_ne by exact Hne. exact Hw.
Qed.

Lemma update_job_preserves_status (p : params) (v : vo Job.t) (i : nat)
    (s : JobStatus) :
  preserves (fun w => job_status_at i w = Some s) (JobManager.update_job_by_vo p v).
Proof.
  intros w Hw. unfold job_status_at in *. simpl.
  destruct (decide (oid v = i)) as [<-|Hne].
  - rewrite list_lookup_alter_eq.
    destruct (jobs w !! oid v) as [j|]; simpl in *; [|discriminate].
    exact Hw.
  - rewrite list_lookup_alter_ne by exact Hne. exact Hw.
Qed.

Lemma get_job_preserves (P : World -> Prop) d j ws :
  preserves P (JobManager.get_job d j ws).
Proof. intros w Hw. rewrite get_job_world. exact Hw. Qed.

Section SpecLedger.
Context (env : Env) (Hledger : ledger env = spec_ledger).
Context (i : nat) (s : JobStatus) (Hs : Job.terminal s = true).

Let P : World -> Prop := fun w => job_status_at i w = Some s.

Lemma spec_change_in_progress_preserves v :
  preserves P (JobManager.change_in_progress_status env v).
Proof.
  unfold JobManager.change_in_progress_status. rewrite Hledger.
  apply transition_preserves_status. intros now j. apply forward_status, Hs.
Qed.

Lemma spec_change_success_preserves v :
  preserves P (JobManager.change_success_status env v).
Proof.
  unfold JobManager.change_success_status. rewrite Hledger.
  apply transition_preserves_status. intros now j. apply forward_status, Hs.
Qed.

Lemma spec_change_error_preserves v e :
  preserves P (JobManager.change_error_status env v e).
Proof.
  unfold JobManager.change_error_status. rewrite Hledger.
  apply transition_preserves_status. intros now j. apply forward_status, Hs.
Qed.

Lemma spec_change_canceled_preserves v :
  preserves P (JobManager.change_canceled_status env v).
Proof.
  unfold JobManager.change_canceled_status. rewrite Hledger.
  apply transition_preserves_status. intros now j. apply forward_status, Hs.
Qed.

Lemma spec_change_canceled_by_vo_preserves v :
  preserves P (JobManager.change_canceled_by_vo env v).
Proof.
  unfold JobManager.change_canceled_by_vo. rewrite Hledger.
  apply transition_preserves_status. intros now j. apply forward_status, Hs.
Qed.

Lemma spec_close_job_preserves j d ws : preserves P (_close_job env j d ws).
Proof.
  unfold _close_job. apply preserves_bind; [apply get_job_preserves|intros v].
  destruct (Job.status (doc v)); try apply preserves_ret.
  - apply spec_change_success_preserves.
  - apply preserves_bind; [intros w Hw; exact Hw|intros now].
    apply update_job_preserves_status.
Qed.

End SpecLedger.

(** ** Positions of query results *)

Lemma query_oids {A} (P : vo A -> Prop) `{forall v, Decision (P v)}
    (l : list A) (n : nat) :
  NoDup (oid <$> filter P (imap (fun i => VO (n + i)) l))
  /\ (forall v, v ∈ filter P (imap (fun i => VO (n + i)) l) -> n <= oid v).
Proof.
  revert n. induction l as [|x l IH]; intros n; simpl.
  - split; [constructor|]. intros v Hv. inversion Hv.
  - assert (Hext : imap ((fun i => VO (n + i)) ∘ S) l
                   = imap (fun i => VO (S n + i)) l).
    { apply imap_ext. intros i y _. simpl. f_equal. lia. }
    rewrite Hext. destruct (IH (S n)) as [IHnd IHge].
    rewrite filter_cons. destruct (decide (P (VO (n + 0) x))).
    + split.
      * simpl. apply NoDup_cons. split; [|exact IHnd].
        intros Hin. apply list_elem_of_fmap in Hin as (v & Hv & Hin).
        apply IHge in Hin. lia.
      * intros v Hv. apply elem_of_cons in Hv as [->|Hv]; simpl; [lia|].
        apply IHge in Hv. lia.
    + split; [exact IHnd|]. intros v Hv. apply IHge in Hv. lia.
Qed.

Lemma query_NoDup {A} (p : A -> bool) (l : list A) :
  NoDup (oid <$> query p l).
Proof. unfold query. apply (query_oids _ l 0). Qed.

Lemma query_snoc {A} (p : A -> bool) (l : list A) (x : A) :
  query p (l ++ [x])
  = (query p l ++ (if p x then [VO (length l) x] else []))%list.
Proof.
  unfold query. rewrite imap_app, filter_app. f_equal. simpl.
  rewrite filter_cons. simpl. rewrite Nat.add_0_r.
  destruct (p x); simpl.
  - destruct (decide (Is_true true)) as [_|Hn]; [reflexivity|].
    exfalso. apply Hn. exact I.
  - destruct (decide (Is_true false)) as [[]|_]. reflexivity.
Qed.

Lemma query_ext {A} (p q : A -> bool) (l : list A) :
  (forall x, p x = q x) -> query p l = query q l.
Proof.
  intros H. unfold query. apply list_filter_iff. intros v. rewrite H. reflexivity.
Qed.

(** ** The duplicate check *)

Lemma bool_decide_VStr (a b : string) :
  bool_decide (VStr a = VStr b) = String.eqb a b.
Proof.
  destruct (String.eqb_spec a b) as [->|Hne].
  - apply bool_decide_eq_true. reflexivity.
  - apply bool_decide_eq_false. intros [= H]. contradiction.
Qed.

Lemma bool_decide_of_opt (a b : option string) :
  bool_decide (of_opt a = of_opt b) = bool_decide (a = b).
Proof.
  apply bool_decide_ext. destruct a, b; simpl; split; congruence.
Qed.

Lemma bool_decide_in_progress (s : JobStatus) :
  bool_decide (VStr (status_name s) = VStr "IN_PROGRESS")
  = bool_decide (s = IN_PROGRESS).
Proof. destruct s; reflexivity. Qed.

(** The query the source builds selects the jobs the specification
    describes. *)
Lemma duplicate_filter_spec (ta : string) (ws : option string) (d id : string)
    (j : Job.t) :
  forallb (cond_ok j)
    [ OpEq "trusted_account_id" (VStr ta);
      OpEq "workspace_id" (of_opt ws);
      OpEq "domain_id" (VStr d);
      OpEq "status" (VStr "IN_PROGRESS");
      OpNot "job_id" (VStr id) ]
  = other_in_progress ta ws d id j.
Proof.
  unfold other_in_progress. simpl.
  change (Job.field "trusted_account_id" j) with (VStr (Job.trusted_account_id j)).
  change (Job.field "workspace_id" j) with (of_opt (Job.workspace_id j)).
  change (Job.field "domain_id" j) with (VStr (Job.domain_id j)).
  change (Job.field "status" j) with (VStr (status_name (Job.status j))).
  change (Job.field "job_id" j) with (VStr (Job.job_id j)).
  rewrite bool_decide_in_progress, !bool_decide_VStr, bool_decide_of_opt.
  rewrite andb_true_r, !andb_assoc. reflexivity.
Qed.

Lemma set_jobs_id (w : World) : set_jobs (jobs w) w = w.
Proof. destruct w. reflexivity. Qed.

Lemma check_duplicate_job_loop_spec (env : Env) (thr : Z) (l : list (vo Job.t))
    (w : World) :
  NoDup (oid <$> l) ->
  (forall v, v ∈ l -> jobs w !! oid v = Some (doc v)) ->
  exists js,
    _check_duplicate_job_loop env thr l w
    = (set_jobs js w, Return (existsb (fresh thr) l))
    /\ length js = length (jobs w)
    /\ (forall v, v ∈ examined thr l -> fresh thr v = false ->
        js !! oid v
        = Some (Ledger.change_canceled_by_vo (ledger env) (clock w) (doc v)))
    /\ (forall i, i ∉ oid <$> l -> js !! i = jobs w !! i).
Proof.
  revert w. induction l as [|v l IH]; intros w Hnd Hstored.
  - exists (jobs w). simpl. rewrite set_jobs_id. split; [reflexivity|].
    split; [reflexivity|]. split; [|reflexivity].
    intros v Hv. inversion Hv.
  - simpl in Hnd. apply NoDup_cons in Hnd as [Hfirst Hnd].
    simpl. fold (fresh thr v). destruct (fresh thr v) eqn:Hfresh.
    + exists (jobs w). rewrite set_jobs_id. split; [reflexivity|].
      split; [reflexivity|]. split; [|reflexivity].
      intros u Hu Hstale. apply list_elem_of_singleton in Hu as ->. congruence.
    + unfold bind. unfold JobManager.change_canceled_by_vo.
      rewrite transition_total.
      set (js1 := alter (Ledger.change_canceled_by_vo (ledger env) (clock w))
                    (oid v) (jobs w)).
      destruct (IH (set_jobs js1 w) Hnd) as (js & Hrun & Hlen & Hcanceled & Hother).
      { intros u Hu. simpl. subst js1. rewrite list_lookup_alter_ne.
        - apply Hstored. right. exact Hu.
        - intros Heq. apply Hfirst. rewrite Heq.
          apply list_elem_of_fmap_2. exact Hu. }
      exists js. rewrite Hrun. simpl in *. split; [reflexivity|].
      split; [rewrite Hlen; subst js1; apply length_alter|].
      split.
      * intros u Hu Hstale. apply elem_of_cons in Hu as [->|Hu].
        -- rewrite Hother by exact Hfirst. subst js1.
           rewrite list_lookup_alter_eq, (Hstored v) by left. reflexivity.
        -- apply Hcanceled; assumption.
      * intros i Hi. rewrite Hother.
        -- subst js1. apply list_lookup_alter_ne. intros Heq. apply Hi.
           rewrite Heq. left.
        -- intros Hin. apply Hi. right. exact Hin.
Qed.

(** [_check_duplicate_job] for a job the query cannot return ([this] is
    not IN_PROGRESS): its answer and what it leaves in the store. *)
Lemma check_duplicate_job_spec (env : Env) (domain_id trusted_account_id : string)
    (this : vo Job.t) (w : World) :
  let matches :=
    query (other_in_progress trusted_account_id (Job.workspace_id (doc this))
             domain_id (Job.job_id (doc this))) (jobs w) in
  let thr := (clock w - timedelta_minutes 10)%Z in
  exists js,
    _check_duplicate_job env domain_id trusted_account_id this w
    = (set_jobs js w, Return (existsb (fresh thr) matches))
    /\ length js = length (jobs w)
    /\ (forall v, v ∈ examined thr matches -> fresh thr v = false ->
        js !! oid v
        = Some (Ledger.change_canceled_by_vo (ledger env) (clock w) (doc v)))
    /\ (forall i, i ∉ oid <$> matches -> js !! i = jobs w !! i).
Proof.
  intros matches thr. unfold _check_duplicate_job.
  unfold bind at 1. unfold JobManager.list_jobs at 1. cbv iota beta. simpl fst.
  unfold bind at 1, utcnow at 1.
  erewrite query_ext by (intros x; apply duplicate_filter_spec).
  fold matches. fold thr.
  apply check_duplicate_job_loop_spec.
  - apply query_NoDup.
  - intros v Hv. apply query_elem_of in Hv as [Hv _]. exact Hv.
Qed.

(** ** [create_service_account_job] *)

Lemma get_trusted_secret_data_world env id d w :
  fst (_get_trusted_secret_data env id d w) = w.
Proof.
  unfold _get_trusted_secret_data.
  destruct id as [id|]; [|reflexivity]. destruct (Py.truthy (Some id)); reflexivity.
Qed.

(** The try block around the credential never raises, leaves the world
    alone, and yields the empty payload when resolution fails. *)
Lemma secret_block_spec (env : Env) (ta : TrustedAccount.t) (w : World) :
  exists sd,
    try_except
      (bind
         (_get_trusted_secret_data env (TrustedAccount.trusted_secret_id ta)
            (TrustedAccount.domain_id ta))
         (fun trusted_secret_data =>
            bind
              (if Py.truthy_dict trusted_secret_data
               then check (validate_secret_data_by_schema_id env
                             (Some (TrustedAccount.secret_schema_id ta))
                             (TrustedAccount.domain_id ta) trusted_secret_data
                             "SECRET")
               else ret tt)
              (fun _ => ret trusted_secret_data)))
      (fun e => ret ∅) w
    = (w, Return sd)
    /\ (secret_resolution_fails env ta w -> sd = ∅).
Proof.
  unfold secret_resolution_fails, try_except, bind.
  pose proof (get_trusted_secret_data_world env
                (TrustedAccount.trusted_secret_id ta)
                (TrustedAccount.domain_id ta) w) as Hw.
  destruct (_get_trusted_secret_data env _ _ w) as [w1 [sd|e]]; simpl in *; subst w1.
  - destruct (Py.truthy_dict sd) eqn:Htruthy.
    + unfold check.
      destruct (validate_secret_data_by_schema_id env _ _ sd "SECRET") as [e|] eqn:Hv.
      * exists ∅. split; [reflexivity|]. reflexivity.
      * exists sd. split; [reflexivity|].
        intros [[e He]|(sd' & e & [= <-] & _ & He)]; congruence.
    + exists sd. split; [reflexivity|].
      intros [[e He]|(sd' & e & [= <-] & Ht & _)]; congruence.
  - exists ∅. split; reflexivity.
Qed.

Lemma new_job_unmatched env ta pv options w ta_id ws d id :
  other_in_progress ta_id ws d id (new_job env ta pv options w) = false.
Proof.
  unfold other_in_progress. simpl.
  rewrite andb_false_r. reflexivity.
Qed.

(** What [create_service_account_job] does once the provider and its
    plugin endpoint are resolved. [js] is the job collection the
    duplicate check leaves behind. *)
Lemma create_service_account_job_spec (env : Env) (ta : TrustedAccount.t)
    (options : payload) (w : World) (pv : Provider.t) (endpoint : string) :
  ProviderManager.get_provider (TrustedAccount.provider ta)
    (TrustedAccount.domain_id ta) w = (w, Return pv) ->
  get_account_collector_plugin_endpoint_by_vo env pv = Return endpoint ->
  initialize env endpoint = None ->
  let job := new_job env ta pv options w in
  let n := length (jobs w) in
  let matches :=
    query (other_in_progress (TrustedAccount.trusted_account_id ta)
             (Job.workspace_id job) (TrustedAccount.domain_id ta)
             (Job.job_id job)) (jobs w) in
  let thr := (clock w - timedelta_minutes 10)%Z in
  let run := create_service_account_job env ta options w in
  exists sd js,
    (secret_resolution_fails env ta w -> sd = ∅)
    /\ snd run = Return (VO n job)
    /\ _check_duplicate_job env (TrustedAccount.domain_id ta)
         (TrustedAccount.trusted_account_id ta) (VO n job)
         (set_jobs (jobs w ++ [job]) w)
       = (set_jobs js w, Return (existsb (fresh thr) matches))
    /\ js !! n = Some job
    /\ (forall v, v ∈ examined thr matches -> fresh thr v = false ->
        js !! oid v
        = Some (Ledger.change_canceled_by_vo (ledger env) (clock w) (doc v)))
    /\ (forall i, i ∉ oid <$> matches -> js !! i = (jobs w ++ [job]) !! i)
    /\ fst run
       = if existsb (fresh thr) matches
         then set_jobs
                (alter (Ledger.change_error_status (ledger env) (clock w)
                          (ERROR_DUPLICATE_JOB (TrustedAccount.trusted_account_id ta)))
                   n js) w
         else match push env (dispatch_message ta job sd options) with
              | None =>
                  set_queue (queue w ++ [dispatch_message ta job sd options])
                    (set_jobs js w)
              | Some e =>
                  set_jobs
                    (alter (Ledger.change_error_status (ledger env) (clock w) e)
                       n js) w
              end.
Proof.
  intros Hprov Hendpoint Hinit job n matches thr run.
  destruct (secret_block_spec env ta w) as (sd & Hsecret & Hfails).
  pose proof (check_duplicate_job_spec env (TrustedAccount.domain_id ta)
                (TrustedAccount.trusted_account_id ta) (VO n job)
                (set_jobs (jobs w ++ [job]) w)) as Hcheck.
  cbn [doc jobs clock set_jobs] in Hcheck.
  rewrite query_snoc in Hcheck. subst job.
  rewrite new_job_unmatched, app_nil_r in Hcheck.
  set (job := new_job env ta pv options w) in *.
  fold matches thr in Hcheck.
  destruct Hcheck as (js & Hrun & Hlen & Hcanceled & Hother).
  assert (Hnew : n ∉ oid <$> matches).
  { intros Hin. apply list_elem_of_fmap in Hin as (v & Hv & Hin).
    apply query_elem_of in Hin as [Hin _]. apply lookup_lt_Some in Hin.
    subst n. lia. }
  exists sd, js.
  assert (Hjob : js !! n = Some job).
  { rewrite Hother by exact Hnew. subst n. apply list_lookup_middle. reflexivity. }
  assert (Hall :
    run = (if existsb (fresh thr) matches
           then set_jobs
                  (alter (Ledger.change_error_status (ledger env) (clock w)
                            (ERROR_DUPLICATE_JOB (TrustedAccount.trusted_account_id ta)))
                     n js) w
           else match push env (dispatch_message ta job sd options) with
                | None =>
                    set_queue (queue w ++ [dispatch_message ta job sd options])
                      (set_jobs js w)
                | Some e =>
                    set_jobs
                      (alter (Ledger.change_error_status (ledger env) (clock w) e)
                         n js) w
                end, Return (VO n job))).
  { subst run. unfold create_service_account_job. cbv zeta.
    rewrite (bind_Return _ _ _ _ _ Hprov).
    rewrite Hendpoint. unfold external at 1. unfold bind at 1.
    rewrite Hinit. unfold check at 1. unfold bind at 1.
    rewrite (bind_Return _ _ _ _ _ Hsecret).
    unfold bind at 1. unfold JobManager.create_job at 1. cbv iota beta.
    fold n. fold job.
    change (Job.mk (generate_id env "job" n) _ _ _ _ _ options PENDING (clock w)
              None None) with job.
    rewrite (bind_Return _ _ _ _ _ Hrun).
    destruct (existsb (fresh thr) matches).
    - reflexivity.
    - unfold bind, try_except, JobManager.push_job.
      match goal with
      | |- context [push env ?m] =>
          change m with (dispatch_message ta job sd options)
      end.
      destruct (push env (dispatch_message ta job sd options)) as [e|];
        reflexivity. }
  rewrite Hall. simpl. repeat split; auto.
Qed.

(** ** Looking a job up again *)

Lemma filter_head_stronger {A} (P Q : A -> Prop) `{forall x, Decision (P x)}
    `{forall x, Decision (Q x)} (l : list A) (v : A) (rest : list A) :
  filter P l = v :: rest -> (forall x, Q x -> P x) -> Q v ->
  exists rest', filter Q l = v :: rest'.
Proof.
  intros Hl Hsub Hv. induction l as [|x l IH]; [discriminate|].
  rewrite filter_cons in Hl. rewrite filter_cons.
  destruct (decide (P x)) as [Hp|Hp].
  - injection Hl as -> _. destruct (decide (Q v)); [eauto|contradiction].
  - destruct (decide (Q x)) as [Hq|Hq]; [exfalso; auto|]. apply IH. exact Hl.
Qed.

Lemma query_head_stronger {A} (p q : A -> bool) (l : list A) (v : vo A)
    (rest : list (vo A)) :
  query p l = v :: rest -> (forall x, q x = true -> p x = true) ->
  q (doc v) = true -> exists rest', query q l = v :: rest'.
Proof.
  intros Hl Hsub Hv. unfold query in *.
  apply (filter_head_stronger (fun v => Is_true (p (doc v)))
           (fun v => Is_true (q (doc v))) _ v rest Hl).
  - intros x Hx. apply Is_true_true. apply Hsub. apply Is_true_true. exact Hx.
  - apply Is_true_true. exact Hv.
Qed.

(** The job found under the workspace of the message is the job found
    under its own workspace. *)
Lemma get_job_again_same d j ws w v :
  JobManager.get_job d j ws w = (w, Return v) ->
  JobManager.get_job d j (Job.workspace_id (doc v)) w = (w, Return v).
Proof.
  unfold JobManager.get_job.
  destruct (query _ _) as [|v0 rest] eqn:Hq; [discriminate|].
  intros [= ->].
  destruct (query_head _ _ _ _ Hq) as [_ Hv].
  apply andb_prop in Hv as [Hv Hws].
  eapply query_head_stronger in Hq as [rest' Hq'].
  - rewrite Hq'. reflexivity.
  - intros x Hx. simpl in Hx. apply andb_prop in Hx as [Hx Hx']. rewrite Hx. simpl.
    destruct ws as [ws|]; [|reflexivity].
    apply bool_decide_eq_true in Hws. rewrite Hws in Hx'.
    simpl in Hx'. exact Hx'.
  - simpl. rewrite Hv. simpl.
    destruct (Job.workspace_id (doc v)); [apply bool_decide_eq_true|]; reflexivity.
Qed.

(** ** Queries that read only a key *)

Lemma query_key_oids_from {A K} (k : A -> K) (q : K -> bool) (l l' : list A)
    (n : nat) :
  k <$> l' = k <$> l ->
  oid <$> filter (fun v => Is_true (q (k (doc v)))) (imap (fun i => VO (n + i)) l')
  = oid <$> filter (fun v => Is_true (q (k (doc v)))) (imap (fun i => VO (n + i)) l).
Proof.
  revert l' n. induction l as [|x l IH]; intros [|x' l'] n Hk; try discriminate.
  - reflexivity.
  - injection Hk as Hx Hk. simpl.
    assert (Hext : forall m : list A,
              imap ((fun i => VO (n + i)) ∘ S) m = imap (fun i => VO (S n + i)) m).
    { intros m. apply imap_ext. intros i y _. simpl. f_equal. lia. }
    rewrite !Hext, !filter_cons. simpl. rewrite Hx.
    specialize (IH l' (S n) Hk).
    destruct (decide (Is_true (q (k x)))); [rewrite !fmap_cons; f_equal|];
      exact IH.
Qed.

Lemma query_key_oids {A K} (k : A -> K) (q : K -> bool) (l l' : list A) :
  k <$> l' = k <$> l ->
  oid <$> query (fun x => q (k x)) l' = oid <$> query (fun x => q (k x)) l.
Proof. intros Hk. unfold query. apply (query_key_oids_from k q l l' 0 Hk). Qed.

(** A job found in one collection is found at the same position in any
    collection with the same keys. *)
Lemma get_job_same_keys d j ws (w w' : World) (v : vo Job.t) :
  job_key <$> jobs w' = job_key <$> jobs w ->
  JobManager.get_job d j ws w = (w, Return v) ->
  exists x',
    JobManager.get_job d j ws w' = (w', Return (VO (oid v) x'))
    /\ jobs w' !! oid v = Some x'.
Proof.
  intros Hk. unfold JobManager.get_job.
  set (q := fun key : string * string * option string =>
              String.eqb key.1.1 j && String.eqb key.1.2 d
              && match ws with
                 | Some _ => bool_decide (key.2 = ws)
                 | None => true
                 end).
  change (query _ (jobs w)) with (query (fun x => q (job_key x)) (jobs w)).
  change (query _ (jobs w')) with (query (fun x => q (job_key x)) (jobs w')).
  pose proof (query_key_oids job_key q (jobs w) (jobs w') Hk) as Hoids.
  destruct (query _ (jobs w)) as [|v0 rest] eqn:Hq; [discriminate|].
  intros [= ->].
  destruct (query _ (jobs w')) as [|v' rest'] eqn:Hq'; [discriminate|].
  injection Hoids as Hoid _.
  apply query_head in Hq' as [Hstored _].
  exists (doc v'). rewrite <- Hoid. split; [destruct v'; reflexivity|exact Hstored].
Qed.

(** ** Keys under the ledger of the specification *)

Lemma fmap_alter_key {A K} (k : A -> K) (f : A -> A) (i : nat) (l : list A) :
  (forall x, k (f x) = k x) -> k <$> alter f i l = k <$> l.
Proof.
  intros Hf. revert i. induction l as [|x l IH]; intros [|i]; simpl; try reflexivity.
  - rewrite Hf. reflexivity.
  - f_equal. apply IH.
Qed.

Lemma forward_key (f : Job.t -> Job.t) (j : Job.t) :
  (forall x, job_key (f x) = job_key x) -> job_key (forward f j) = job_key j.
Proof. intros Hf. unfold forward. destruct (Job.terminal _); auto. Qed.

Lemma spec_transitions_keep_keys (now : Z) (e : exn) (j : Job.t) :
  job_key (Ledger.change_in_progress_status spec_ledger now j) = job_key j
  /\ job_key (Ledger.change_success_status spec_ledger now j) = job_key j
  /\ job_key (Ledger.change_error_status spec_ledger now e j) = job_key j
  /\ job_key (Ledger.change_canceled_status spec_ledger now j) = job_key j
  /\ job_key (Ledger.change_canceled_by_vo spec_ledger now j) = job_key j.
Proof. simpl. repeat split; apply forward_key; reflexivity. Qed.

(** ** What the reconciler leaves alone *)

(** Any observation that the writes to the four inventory collections
    and to the vault do not change is framed by the reconciler. *)
Section ReconcilerFrames.
Context {X : Type} (g : World -> X).
Context (Hworkspaces : forall w x, g (set_workspaces x w) = g w).
Context (Hgroups : forall w x, g (set_project_groups x w) = g w).
Context (Hprojects : forall w x, g (set_projects x w) = g w).
Context (Haccounts : forall w x, g (set_service_accounts x w) = g w).
Context (Hvault : forall w x, g (set_vault x w) = g w).

Ltac reconciler_step :=
  first
    [ apply frames_ret | apply frames_raise | apply frames_external
    | apply frames_check | apply frames_utcnow
    | apply frames_bind; [|intros ?]
    | apply frames_for_each; intros ?
    | apply frames_filter_workspaces
    | apply frames_get_workspace | apply frames_filter_project_groups
    | apply frames_filter_projects | apply frames_filter_service_accounts
    | apply frames_update_workspace_by_vo; exact Hworkspaces
    | apply frames_create_workspace; exact Hworkspaces
    | apply frames_update_project_group_by_vo; exact Hgroups
    | apply frames_create_project_group; exact Hgroups
    | apply frames_update_project_by_vo; exact Hprojects
    | apply frames_create_project; exact Hprojects
    | apply frames_update_service_account_by_vo; exact Haccounts
    | apply frames_create_service_account; exact Haccounts
    | apply frames_delete_secret; exact Hvault
    | apply frames_create_secret; exact Hvault
    | match goal with
      | |- frames _ (if ?b then _ else _) => destruct b
      | |- frames _ (match ?x with _ => _ end) => destruct x
      | |- frames _ (let _ := _ in _) => cbv zeta
      end ].

Lemma remove_old_reference_frames d r :
  frames g (_remove_old_reference_id_from_workspace d r).
Proof. unfold _remove_old_reference_id_from_workspace. repeat reconciler_step. Qed.

Lemma create_workspace_frames env d ta n : frames g (_create_workspace env d ta n).
Proof.
  unfold _create_workspace.
  repeat first [ apply remove_old_reference_frames | reconciler_step ].
Qed.

Lemma create_project_group_frames env d ws ta n parent :
  frames g (_create_project_group env d ws ta n parent).
Proof. unfold _create_project_group. repeat reconciler_step. Qed.

Lemma create_project_groups_frames env d ws ta l parent :
  frames g (_create_project_groups env d ws ta l parent).
Proof.
  revert parent. induction l as [|n l IH]; intros parent; simpl.
  - apply frames_ret.
  - apply frames_bind; [apply create_project_group_frames|intros v; apply IH].
Qed.

Lemma create_project_frames env r d ws ta grp so ty :
  frames g (_create_project env r d ws ta grp so ty).
Proof. unfold _create_project. repeat reconciler_step. Qed.

Lemma create_service_account_frames env r pv ta ts prov so :
  frames g (_create_service_account env r pv ta ts prov so).
Proof. unfold _create_service_account. repeat reconciler_step. Qed.

Lemma sync_result_frames env tav ws d ta ts prov so r :
  frames g (sync_result env tav ws d ta ts prov so r).
Proof.
  unfold sync_result.
  apply frames_bind.
  - repeat first [ apply create_workspace_frames | reconciler_step ].
  - intros [[sw loc]|]; [|apply frames_ret].
    apply frames_bind; [apply create_project_groups_frames|intros parent].
    apply frames_bind; [apply create_project_frames|intros pv].
    apply frames_bind; [apply create_service_account_frames|intros sa].
    apply frames_ret.
Qed.

Lemma reconcile_all_frames env tav params pv :
  frames g (reconcile_all env tav params pv).
Proof.
  unfold reconcile_all. cbv zeta.
  repeat first [ apply sync_result_frames | reconciler_step ].
Qed.

End ReconcilerFrames.

(** ** The control flow of [sync_service_accounts] *)

Lemma is_job_failed_found d j ws w found :
  JobManager.get_job d j ws w = (w, Return found) ->
  _is_job_failed j d ws w = (w, Return (failed_status (Job.status (doc found)))).
Proof.
  intros H. unfold _is_job_failed. rewrite (bind_Return _ _ _ _ _ H).
  destruct (Job.status (doc found)); reflexivity.
Qed.

(** Past its lookups, [sync_service_accounts] is one of five runs, each
    ended by [_close_job]. *)
Lemma sync_service_accounts_unfold (env : Env) (params : Message.t) (w : World)
    (trusted_account_vo : TrustedAccount.t) (job_vo : vo Job.t)
    (provider_vo : Provider.t) :
  let job_id := Message.job_id params in
  let domain_id := Message.domain_id params in
  let close := _close_job env job_id domain_id (Job.workspace_id (doc job_vo)) in
  TrustedAccountManager.get_trusted_account (Message.trusted_account_id params)
    domain_id (Message.workspace_id params) w = (w, Return trusted_account_vo) ->
  JobManager.get_job domain_id job_id (Message.workspace_id params) w
  = (w, Return job_vo) ->
  get_schema env (TrustedAccount.secret_schema_id trusted_account_vo) domain_id
  = None ->
  ProviderManager.get_provider (TrustedAccount.provider trusted_account_vo)
    domain_id w = (w, Return provider_vo) ->
  sync_service_accounts env params w
  = if failed_status (Job.status (doc job_vo))
    then close (fst (JobManager.change_canceled_status env job_vo w))
    else
      match reconcile_all env trusted_account_vo params provider_vo
              (fst (JobManager.change_in_progress_status env job_vo w)) with
      | (w2, Raise e) => close (fst (JobManager.change_error_status env job_vo e w2))
      | (w2, Return _) =>
          match _is_job_failed job_id domain_id (Job.workspace_id (doc job_vo))
                  (concurrent env w2) with
          | (w3, Raise e) =>
              close (fst (JobManager.change_error_status env job_vo e w3))
          | (w3, Return true) =>
              close (fst (JobManager.change_canceled_status env job_vo w3))
          | (w3, Return false) =>
              close (fst (JobManager.change_success_status env job_vo w3))
          end
      end.
Proof.
  intros job_id domain_id close Hta Hjob Hschema Hprov.
  pose proof (is_job_failed_found _ _ _ _ _ (get_job_again_same _ _ _ _ _ Hjob))
    as Hentry.
  unfold sync_service_accounts.
  fold job_id domain_id.
  rewrite (bind_Return _ _ _ _ _ Hta), (bind_Return _ _ _ _ _ Hjob).
  rewrite Hschema. unfold check at 1. unfold bind at 1.
  rewrite (bind_Return _ _ _ _ _ Hprov).
  rewrite (bind_Return _ _ _ _ _ Hentry).
  destruct (failed_status (Job.status (doc job_vo))); [reflexivity|].
  unfold try_except, reconcile_all, bind, external, check, utcnow, other_workers,
    ret.
  cbv zeta. fold domain_id.
  unfold JobManager.change_in_progress_status, JobManager.change_error_status,
    JobManager.change_success_status, JobManager.change_canceled_status,
    JobManager.transition.
  cbn [fst snd].
  repeat match goal with
         | |- context [match ?x with _ => _ end] =>
             lazymatch x with
             | context [match _ with _ => _ end] => fail
             | _ => destruct x eqn:?
             end; cbn [fst snd negb]
         end; reflexivity.
Qed.


(** ** [_get_location] *)

(** C7. With [skip_project_group] set, [_get_location] returns for a
    DOMAIN-scoped account and a non-empty location the one-node location
    holding only the first node, and for a WORKSPACE-scoped account the
    empty location. *)
Theorem get_location_skip_project_group
    (result : Result.t) (sync_options : SyncOptions.t)
    (first : LocationNode.t) (rest : list LocationNode.t) :
  SyncOptions.skip_project_group sync_options = true ->
  (Result.location result = Some (first :: rest) ->
   _get_location result DOMAIN sync_options = [first])
  /\ _get_location result WORKSPACE sync_options = [].
Proof.
  intros Hskip. unfold _get_location. rewrite Hskip. split.
  - intros ->. reflexivity.
  - reflexivity.
Qed.

Lemma get_location_skip_project_group_witness :
  _get_location sample_result DOMAIN skip_options = [LocationNode.mk "ws-a" "w1"]
  /\ _get_location sample_result WORKSPACE skip_options = [].
Proof.
  destruct (get_location_skip_project_group sample_result skip_options
              (LocationNode.mk "ws-a" "w1")
              [LocationNode.mk "group-b" "g1"; LocationNode.mk "group-c" "g2"]
              eq_refl) as [Hdomain Hworkspace].
  split.
  - apply Hdomain. reflexivity.
  - exact Hworkspace.
Defined.

(** ** Records without a location *)

(** C9. For a DOMAIN-scoped account without a truthy
    [single_workspace_id], a record whose derived location is empty is
    skipped: the loop body returns without raising and leaves the whole
    world (workspaces, project groups, projects, service accounts, vault)
    as it was, and the loop goes on with the remaining records. *)
Theorem sync_result_skips_empty_location (env : Env)
    (trusted_account_vo : TrustedAccount.t) (workspace_id : option string)
    (domain_id trusted_account_id : string) (trusted_secret_id : option string)
    (provider : string) (sync_options : SyncOptions.t) (result : Result.t)
    (w : World) :
  TrustedAccount.resource_group trusted_account_vo = DOMAIN ->
  Py.truthy (SyncOptions.single_workspace_id sync_options) = false ->
  _get_location result DOMAIN sync_options = [] ->
  sync_result env trusted_account_vo workspace_id domain_id trusted_account_id
    trusted_secret_id provider sync_options result w = (w, Return tt)
  /\ forall rest,
       for_each (result :: rest)
         (sync_result env trusted_account_vo workspace_id domain_id
            trusted_account_id trusted_secret_id provider sync_options) w
       = for_each rest
           (sync_result env trusted_account_vo workspace_id domain_id
              trusted_account_id trusted_secret_id provider sync_options) w.
Proof.
  intros Hgroup Hsingle Hloc.
  assert (Hskip : sync_result env trusted_account_vo workspace_id domain_id
            trusted_account_id trusted_secret_id provider sync_options result w
          = (w, Return tt)).
  { unfold sync_result. rewrite Hgroup, Hloc.
    destruct (SyncOptions.single_workspace_id sync_options) as [single|].
    - rewrite Hsingle. reflexivity.
    - reflexivity. }
  split; [exact Hskip|].
  intros rest. simpl. unfold bind at 1. rewrite Hskip. reflexivity.
Qed.

Lemma sync_result_skips_empty_location_witness :
  sync_result sample_env sample_account None "d" "ta-1" (Some "ts-1") "aws"
    (SyncOptions.mk false None) unplaced_result empty_world
  = (empty_world, Return tt).
Proof.
  apply (sync_result_skips_empty_location sample_env sample_account None "d"
           "ta-1" (Some "ts-1") "aws" (SyncOptions.mk false None)
           unplaced_result empty_world); reflexivity.
Defined.

(** ** [_create_service_account] on a matched service account *)








(** ** [_create_project] on a matched project *)

Lemma project_filter_matches (d ws ty ref : string) (x : Project.t) :
  Project.matches (_project_filter d ws ty ref) x = true ->
  Project.domain_id x = d /\ Project.workspace_id x = ws
  /\ Project.project_type x = ty /\ Project.reference_id x = Some ref
  /\ Project.is_managed x = true.
Proof.
  unfold Project.matches, field_ok.
  assert (H0 : _project_filter d ws ty ref !! "project_id" = None)
    by (vm_compute; reflexivity).
  assert (H1 : _project_filter d ws ty ref !! "domain_id" = Some (VStr d))
    by (vm_compute; reflexivity).
  assert (H2 : _project_filter d ws ty ref !! "workspace_id" = Some (VStr ws))
    by (vm_compute; reflexivity).
  assert (H3 : _project_filter d ws ty ref !! "project_type" = Some (VStr ty))
    by (vm_compute; reflexivity).
  assert (H4 : _project_filter d ws ty ref !! "reference_id" = Some (VStr ref))
    by (vm_compute; reflexivity).
  assert (H5 : _project_filter d ws ty ref !! "is_managed" = Some (VBool true))
    by (vm_compute; reflexivity).
  rewrite H0, H1, H2, H3, H4, H5. clear.
  rewrite !andb_true_iff, !bool_decide_eq_true.
  intros [[[[[_ Hd] Hws] Hty] Href] Hm].
  destruct (Project.reference_id x); simpl in Href; [|discriminate].
  repeat split; congruence.
Qed.

Lemma project_update_resynced (d ws ty ref name g ta : string) (now : Z)
    (x : Project.t) :
  Project.matches (_project_filter d ws ty ref) x = true ->
  Project.apply
    (update "last_synced_at" (VTime now)
       (update "trusted_account_id" (VStr ta)
          (if negb (String.eqb (Project.name x) name)
           then update "name" (VStr name)
                  (update "project_group_id" (VStr g) (_project_filter d ws ty ref))
           else update "project_group_id" (VStr g) (_project_filter d ws ty ref))))
    x
  = Project.resynced name g ta now x.
Proof.
  intros H. apply project_filter_matches in H as (Hd & Hws & Hty & Href & Hm).
  destruct x as [pid xname xref xm xty xd xws xg xta xs]. simpl in *. subst.
  destruct (String.eqb_spec xname name) as [->|Hne]; simpl.
  - vm_compute. reflexivity.
  - vm_compute. reflexivity.
Qed.

(** C10. When [_create_project] matches an existing project and a
    truthy [project_group_id] was derived, the update overwrites the
    project's [project_group_id] with it, together with the name of the
    record, [trusted_account_id] and [last_synced_at]; nothing else in
    the matched project and no other project changes. *)
Theorem create_project_reparents (env : Env) (result : Result.t)
    (domain_id workspace_id trusted_account_id project_group_id : string)
    (sync_options : SyncOptions.t) (project_type : string) (w : World)
    (project_vo : vo Project.t) (rest : list (vo Project.t)) :
  query
    (Project.matches
       (_project_filter domain_id workspace_id project_type
          (Result.resource_id result)))
    (projects w) = project_vo :: rest ->
  Py.truthy (Some project_group_id) = true ->
  projects
    (fst (_create_project env result domain_id workspace_id trusted_account_id
            (Some project_group_id) sync_options project_type w))
  = alter
      (Project.resynced (Result.name result) project_group_id
         trusted_account_id (clock w))
      (oid project_vo) (projects w)
  /\ Project.project_group_id <$>
       projects
         (fst (_create_project env result domain_id workspace_id
                 trusted_account_id (Some project_group_id) sync_options
                 project_type w)) !! oid project_vo
     = Some (Some project_group_id).
Proof.
  intros Hmatch Htruthy.
  destruct (query_head _ _ _ _ Hmatch) as [Hstored Hkey].
  assert (Hrun :
    projects
      (fst (_create_project env result domain_id workspace_id trusted_account_id
              (Some project_group_id) sync_options project_type w))
    = alter
        (Project.resynced (Result.name result) project_group_id
           trusted_account_id (clock w))
        (oid project_vo) (projects w)).
  { unfold _create_project, bind, ProjectManager.filter_projects, utcnow,
      ProjectManager.update_project_by_vo.
    cbv zeta. rewrite Hmatch, Htruthy. simpl.
    apply list_alter_ext; [|reflexivity].
    intros x Hx. rewrite Hstored in Hx. injection Hx as <-.
    apply project_update_resynced. exact Hkey. }
  split; [exact Hrun|].
  rewrite Hrun, list_lookup_alter_eq, Hstored. reflexivity.
Qed.

Lemma create_project_reparents_witness :
  Project.project_group_id <$>
    projects
      (fst (_create_project sample_env renamed_result "d" "workspace-0" "ta-1"
              (Some "pg-7") (SyncOptions.mk false None) "PRIVATE" synced_world))
    !! 0
  = Some (Some "pg-7").
Proof.
  destruct (create_project_reparents sample_env renamed_result "d" "workspace-0"
              "ta-1" "pg-7" (SyncOptions.mk false None) "PRIVATE" synced_world
              (VO 0 sample_project) [])
    as [_ Hgroup].
  - vm_compute. reflexivity.
  - reflexivity.
  - exact Hgroup.
Defined.

(** ** [_close_job] at the end of [sync_service_accounts] *)

(** C5, amended. The four lookups [sync_service_accounts] starts with
    (trusted account, job, schema, provider) are made before the status
    check and outside the [try]: when one of them raises, the run ends
    with that exception in the store it found, and [_close_job] is not
    reached. Once they have answered, every run is a run of [_close_job]
    in the store the body left: after the cancel transition when the job
    was found failed at entry; after the error transition when the body
    or the final status check raised; after the cancel or the success
    transition when the body returned. [_close_job] applies the success
    transition to a job it finds IN_PROGRESS, only sets [finished_at] to
    the current time on a job it finds FAILURE, and changes nothing for
    any other status. *)
Theorem sync_service_accounts_closes (env : Env) (params : Message.t) (w : World) :
  let job_id := Message.job_id params in
  let domain_id := Message.domain_id params in
  let workspace_id := Message.workspace_id params in
  let trusted_account_id := Message.trusted_account_id params in
  let run := sync_service_accounts env params w in
  (forall e,
     TrustedAccountManager.get_trusted_account trusted_account_id domain_id
       workspace_id w = (w, Raise e) ->
     run = (w, Raise e))
  /\ (forall trusted_account_vo e,
        TrustedAccountManager.get_trusted_account trusted_account_id domain_id
          workspace_id w = (w, Return trusted_account_vo) ->
        JobManager.get_job domain_id job_id workspace_id w = (w, Raise e) ->
        run = (w, Raise e))
  /\ (forall trusted_account_vo job_vo e,
        TrustedAccountManager.get_trusted_account trusted_account_id domain_id
          workspace_id w = (w, Return trusted_account_vo) ->
        JobManager.get_job domain_id job_id workspace_id w = (w, Return job_vo) ->
        get_schema env (TrustedAccount.secret_schema_id trusted_account_vo)
          domain_id = Some e ->
        run = (w, Raise e))
  /\ (forall trusted_account_vo job_vo e,
        TrustedAccountManager.get_trusted_account trusted_account_id domain_id
          workspace_id w = (w, Return trusted_account_vo) ->
        JobManager.get_job domain_id job_id workspace_id w = (w, Return job_vo) ->
        get_schema env (TrustedAccount.secret_schema_id trusted_account_vo)
          domain_id = None ->
        ProviderManager.get_provider (TrustedAccount.provider trusted_account_vo)
          domain_id w = (w, Raise e) ->
        run = (w, Raise e))
  /\ (forall trusted_account_vo job_vo provider_vo,
        TrustedAccountManager.get_trusted_account trusted_account_id domain_id
          workspace_id w = (w, Return trusted_account_vo) ->
        JobManager.get_job domain_id job_id workspace_id w = (w, Return job_vo) ->
        get_schema env (TrustedAccount.secret_schema_id trusted_account_vo)
          domain_id = None ->
        ProviderManager.get_provider (TrustedAccount.provider trusted_account_vo)
          domain_id w = (w, Return provider_vo) ->
        let close :=
          _close_job env job_id domain_id (Job.workspace_id (doc job_vo)) in
        run
        = if failed_status (Job.status (doc job_vo))
          then close (fst (JobManager.change_canceled_status env job_vo w))
          else
            match reconcile_all env trusted_account_vo params provider_vo
                    (fst (JobManager.change_in_progress_status env job_vo w)) with
            | (w2, Raise e) =>
                close (fst (JobManager.change_error_status env job_vo e w2))
            | (w2, Return _) =>
                match _is_job_failed job_id domain_id
                        (Job.workspace_id (doc job_vo)) (concurrent env w2) with
                | (w3, Raise e) =>
                    close (fst (JobManager.change_error_status env job_vo e w3))
                | (w3, Return true) =>
                    close (fst (JobManager.change_canceled_status env job_vo w3))
                | (w3, Return false) =>
                    close (fst (JobManager.change_success_status env job_vo w3))
                end
            end)
  /\ (forall (job_id domain_id : string) (workspace_id : option string)
        (w0 : World),
        (forall found,
           JobManager.get_job domain_id job_id workspace_id w0
           = (w0, Return found) ->
           _close_job env job_id domain_id workspace_id w0
           = match Job.status (doc found) with
             | IN_PROGRESS => JobManager.change_success_status env found w0
             | FAILURE =>
                 (set_jobs
                    (alter (Job.with_finished_at (Some (clock w0))) (oid found)
                       (jobs w0)) w0, Return tt)
             | _ => (w0, Return tt)
             end)
        /\ (forall e,
              JobManager.get_job domain_id job_id workspace_id w0 = (w0, Raise e) ->
              _close_job env job_id domain_id workspace_id w0 = (w0, Raise e))).
Proof.
  intros job_id domain_id workspace_id trusted_account_id run.
  subst run job_id domain_id workspace_id trusted_account_id.
  repeat split.
  - intros e Hta. unfold sync_service_accounts.
    apply (bind_Raise _ _ _ _ _ Hta).
  - intros trusted_account_vo e Hta Hjob. unfold sync_service_accounts.
    rewrite (bind_Return _ _ _ _ _ Hta). apply (bind_Raise _ _ _ _ _ Hjob).
  - intros trusted_account_vo job_vo e Hta Hjob Hschema.
    unfold sync_service_accounts.
    rewrite (bind_Return _ _ _ _ _ Hta), (bind_Return _ _ _ _ _ Hjob).
    rewrite Hschema. reflexivity.
  - intros trusted_account_vo job_vo e Hta Hjob Hschema Hprov.
    unfold sync_service_accounts.
    rewrite (bind_Return _ _ _ _ _ Hta), (bind_Return _ _ _ _ _ Hjob).
    rewrite Hschema. unfold check at 1. unfold bind at 1.
    apply (bind_Raise _ _ _ _ _ Hprov).
  - intros trusted_account_vo job_vo provider_vo Hta Hjob Hschema Hprov close.
    apply (sync_service_accounts_unfold env params w trusted_account_vo job_vo
             provider_vo Hta Hjob Hschema Hprov).
  - intros found Hfound.
    unfold _close_job. rewrite (bind_Return _ _ _ _ _ Hfound).
    destruct (Job.status (doc found)); reflexivity.
  - intros e Hfound. unfold _close_job. apply (bind_Raise _ _ _ _ _ Hfound).
Qed.

Lemma sync_service_accounts_closes_witness :
  sync_service_accounts sample_env sample_task dispatched_world
  = _close_job sample_env "job-0" "d" (Some "*")
      (fst (JobManager.change_success_status sample_env (VO 0 pending_job)
              (fst (reconcile_all sample_env sample_account sample_task
                      sample_provider
                      (fst (JobManager.change_in_progress_status sample_env
                              (VO 0 pending_job) dispatched_world))))))
  /\ job_status_at 0
       (fst (sync_service_accounts sample_env sample_task dispatched_world))
     = Some SUCCESS
  /\ sync_service_accounts sample_env sample_task orphaned_world
     = (orphaned_world, Raise (ERROR_NOT_FOUND "provider" "aws")).
Proof.
  destruct (sync_service_accounts_closes sample_env sample_task dispatched_world)
    as (_ & _ & _ & _ & Hrun & _).
  destruct (sync_service_accounts_closes sample_env sample_task orphaned_world)
    as (_ & _ & _ & Hprovider & _).
  split; [|split].
  - rewrite (Hrun sample_account (VO 0 pending_job) sample_provider);
      vm_compute; reflexivity.
  - rewrite (Hrun sample_account (VO 0 pending_job) sample_provider);
      vm_compute; reflexivity.
  - apply (Hprovider sample_account (VO 0 pending_job)); vm_compute; reflexivity.
Defined.

(** C5, as stated, fails: when a lookup made before the status check
    raises (here the provider has been deleted since the job was
    dispatched), [sync_service_accounts] ends with that exception and the
    job is left as it was, without [_close_job] having run: no run of
    [_close_job] ends with this exception. *)
Lemma sync_service_accounts_not_closed :
  sync_service_accounts sample_env sample_task orphaned_world
  = (orphaned_world, Raise (ERROR_NOT_FOUND "provider" "aws"))
  /\ ~ (exists ws w',
          sync_service_accounts sample_env sample_task orphaned_world
          = _close_job sample_env "job-0" "d" ws w').
Proof.
  assert (Hrun : sync_service_accounts sample_env sample_task orphaned_world
                 = (orphaned_world, Raise (ERROR_NOT_FOUND "provider" "aws")))
    by (vm_compute; reflexivity).
  split; [exact Hrun|].
  intros (ws & w' & Hclose). rewrite Hrun in Hclose.
  destruct (close_job_outcome sample_env "job-0" "d" ws w') as [H|H];
    rewrite <- Hclose in H; discriminate H.
Qed.

(** ** The final status check of [sync_service_accounts] *)



Lemma examined_elem_of (thr : Z) (l : list (vo Job.t)) (v : vo Job.t) :
  v ∈ examined thr l -> v ∈ l.
Proof.
  induction l as [|u l IH]; simpl; [intros H; inversion H|].
  destruct (fresh thr u).
  - intros H. apply list_elem_of_singleton in H as ->. left.
  - intros H. apply elem_of_cons in H as [->|H]; [left|right; auto].
Qed.

Lemma examined_fresh (thr : Z) (l : list (vo Job.t)) :
  existsb (fresh thr) (examined thr l) = existsb (fresh thr) l.
Proof.
  induction l as [|u l IH]; simpl; [reflexivity|].
  destruct (fresh thr u) eqn:Hu; simpl; rewrite Hu; simpl; [reflexivity|exact IH].
Qed.

Lemma match_in_progress ta ws d id (l : list Job.t) (v : vo Job.t) :
  v ∈ query (other_in_progress ta ws d id) l ->
  l !! oid v = Some (doc v) /\ Job.status (doc v) = IN_PROGRESS.
Proof.
  intros H. apply query_elem_of in H as [Hl Hp]. split; [exact Hl|].
  unfold other_in_progress in Hp. rewrite !andb_true_iff in Hp.
  destruct Hp as [[_ Hstatus] _]. apply bool_decide_eq_true in Hstatus.
  exact Hstatus.
Qed.

(** C1. [create_service_account_job] with the provider and its endpoint
    resolved. [matches] are the other IN_PROGRESS jobs of the same trusted
    account, workspace and domain, [thr] is now minus ten minutes.
    - [_check_duplicate_job] answers true exactly when an examined match
      is fresh (created after [thr]);
    - then the new job receives the failure transition with
      [ERROR_DUPLICATE_JOB] and nothing is pushed;
    - every examined match that is not fresh receives the cancel
      transition;
    - without a fresh match the answer is false and the new job is pushed
      (if the queue refuses, the job receives the failure transition
      instead);
    - under the ledger of the specification the two transitions leave
      FAILURE and CANCELED. *)
Theorem create_service_account_job_duplicate (env : Env)
    (trusted_account_vo : TrustedAccount.t) (job_options : payload) (w : World)
    (provider_vo : Provider.t) (endpoint : string) :
  ProviderManager.get_provider (TrustedAccount.provider trusted_account_vo)
    (TrustedAccount.domain_id trusted_account_vo) w = (w, Return provider_vo) ->
  get_account_collector_plugin_endpoint_by_vo env provider_vo = Return endpoint ->
  initialize env endpoint = None ->
  let trusted_account_id := TrustedAccount.trusted_account_id trusted_account_vo in
  let domain_id := TrustedAccount.domain_id trusted_account_vo in
  let job := new_job env trusted_account_vo provider_vo job_options w in
  let n := length (jobs w) in
  let matches :=
    query (other_in_progress trusted_account_id (Job.workspace_id job) domain_id
             (Job.job_id job)) (jobs w) in
  let thr := (clock w - timedelta_minutes 10)%Z in
  let w' := fst (create_service_account_job env trusted_account_vo job_options w) in
  snd (_check_duplicate_job env domain_id trusted_account_id (VO n job)
         (set_jobs (jobs w ++ [job]) w))
  = Return (existsb (fresh thr) (examined thr matches))
  /\ (existsb (fresh thr) (examined thr matches) = true ->
      queue w' = queue w
      /\ jobs w' !! n
         = Some (Ledger.change_error_status (ledger env) (clock w)
                   (ERROR_DUPLICATE_JOB trusted_account_id) job))
  /\ (forall v, v ∈ examined thr matches -> fresh thr v = false ->
      jobs w' !! oid v
      = Some (Ledger.change_canceled_by_vo (ledger env) (clock w) (doc v)))
  /\ (existsb (fresh thr) matches = false ->
      exists secret_data,
        let task := dispatch_message trusted_account_vo job secret_data job_options in
        match push env task with
        | None => queue w' = queue w ++ [task] /\ jobs w' !! n = Some job
        | Some e =>
            queue w' = queue w
            /\ jobs w' !! n
               = Some (Ledger.change_error_status (ledger env) (clock w) e job)
        end)
  /\ (ledger env = spec_ledger ->
      (existsb (fresh thr) (examined thr matches) = true ->
       job_status_at n w' = Some FAILURE)
      /\ (forall v, v ∈ examined thr matches -> fresh thr v = false ->
          job_status_at (oid v) w' = Some CANCELED)).
Proof.
  intros Hprov Hendpoint Hinit trusted_account_id domain_id job n matches thr w'.
  destruct (create_service_account_job_spec env trusted_account_vo job_options w
              provider_vo endpoint Hprov Hendpoint Hinit)
    as (sd & js & _ & _ & Hcheck & Hjob & Hcanceled & Hother & Hworld).
  fold trusted_account_id domain_id job n matches thr w' in Hcheck, Hjob,
    Hcanceled, Hother, Hworld.
  rewrite examined_fresh.
  assert (Hbelow : forall v, v ∈ examined thr matches -> oid v <> n).
  { intros v Hv. apply examined_elem_of, match_in_progress in Hv as [Hv _].
    apply lookup_lt_Some in Hv. subst n. lia. }
  assert (Hduplicate :
    existsb (fresh thr) matches = true ->
    queue w' = queue w
    /\ jobs w' !! n
       = Some (Ledger.change_error_status (ledger env) (clock w)
                 (ERROR_DUPLICATE_JOB trusted_account_id) job)).
  { intros Hdup. rewrite Hworld, Hdup. simpl. split; [reflexivity|].
    rewrite list_lookup_alter_eq, Hjob. reflexivity. }
  assert (Hstale :
    forall v, v ∈ examined thr matches -> fresh thr v = false ->
    jobs w' !! oid v
    = Some (Ledger.change_canceled_by_vo (ledger env) (clock w) (doc v))).
  { intros v Hv Hf. rewrite Hworld.
    destruct (existsb (fresh thr) matches); simpl.
    - rewrite list_lookup_alter_ne by (intros Heq; apply (Hbelow v Hv); auto).
      apply Hcanceled; assumption.
    - destruct (push env _); simpl.
      + rewrite list_lookup_alter_ne by (intros Heq; apply (Hbelow v Hv); auto).
        apply Hcanceled; assumption.
      + apply Hcanceled; assumption. }
  split; [rewrite Hcheck; reflexivity|].
  split; [exact Hduplicate|].
  split; [exact Hstale|].
  split.
  - intros Hnone. exists sd. cbv zeta. rewrite Hworld, Hnone.
    destruct (push env _); simpl.
    + split; [reflexivity|]. rewrite list_lookup_alter_eq, Hjob. reflexivity.
    + split; [reflexivity|exact Hjob].
  - intros Hledger. split.
    + intros Hdup. destruct (Hduplicate Hdup) as [_ Hn].
      unfold job_status_at. rewrite Hn, Hledger. reflexivity.
    + intros v Hv Hf. unfold job_status_at. rewrite (Hstale v Hv Hf), Hledger.
      apply examined_elem_of, match_in_progress in Hv as [_ Hstatus].
      simpl. unfold forward. rewrite Hstatus. reflexivity.
Qed.

Lemma create_service_account_job_duplicate_witness :
  let w' := fst (create_service_account_job sample_env sample_account ∅ busy_world) in
  job_status_at 2 w' = Some FAILURE
  /\ job_status_at 0 w' = Some CANCELED
  /\ queue w' = [].
Proof.
  destruct (create_service_account_job_duplicate sample_env sample_account ∅
              busy_world sample_provider "grpc://plugin"
              eq_refl eq_refl eq_refl)
    as (_ & Hduplicate & _ & _ & Hspec).
  destruct (Hspec eq_refl) as [Hfailure Hcanceled].
  split; [|split].
  - apply Hfailure. vm_compute. reflexivity.
  - apply (Hcanceled (VO 0 stale_job)).
    + vm_compute. left.
    + vm_compute. reflexivity.
  - apply Hduplicate. vm_compute. reflexivity.
Defined.

(** C8. When fetching the trusted credential raises, or its schema
    validation does, [create_service_account_job] still returns the
    created job, and without a duplicate the task it pushes carries the
    empty dict as [secret_data]. *)
Theorem create_service_account_job_secret_failure (env : Env)
    (trusted_account_vo : TrustedAccount.t) (job_options : payload) (w : World)
    (provider_vo : Provider.t) (endpoint : string) :
  ProviderManager.get_provider (TrustedAccount.provider trusted_account_vo)
    (TrustedAccount.domain_id trusted_account_vo) w = (w, Return provider_vo) ->
  get_account_collector_plugin_endpoint_by_vo env provider_vo = Return endpoint ->
  initialize env endpoint = None ->
  secret_resolution_fails env trusted_account_vo w ->
  let trusted_account_id := TrustedAccount.trusted_account_id trusted_account_vo in
  let domain_id := TrustedAccount.domain_id trusted_account_vo in
  let job := new_job env trusted_account_vo provider_vo job_options w in
  let n := length (jobs w) in
  let matches :=
    query (other_in_progress trusted_account_id (Job.workspace_id job) domain_id
             (Job.job_id job)) (jobs w) in
  let thr := (clock w - timedelta_minutes 10)%Z in
  let run := create_service_account_job env trusted_account_vo job_options w in
  let task := dispatch_message trusted_account_vo job ∅ job_options in
  snd run = Return (VO n job)
  /\ is_Some (jobs (fst run) !! n)
  /\ Message.secret_data task = ∅
  /\ (existsb (fresh thr) matches = false ->
      match push env task with
      | None => queue (fst run) = queue w ++ [task] /\ jobs (fst run) !! n = Some job
      | Some e =>
          queue (fst run) = queue w
          /\ jobs (fst run) !! n
             = Some (Ledger.change_error_status (ledger env) (clock w) e job)
      end).
Proof.
  intros Hprov Hendpoint Hinit Hfails trusted_account_id domain_id job n matches
    thr run task.
  destruct (create_service_account_job_spec env trusted_account_vo job_options w
              provider_vo endpoint Hprov Hendpoint Hinit)
    as (sd & js & Hempty & Hreturn & _ & Hjob & _ & _ & Hworld).
  fold trusted_account_id domain_id job n matches thr run in Hreturn, Hjob, Hworld.
  rewrite (Hempty Hfails) in Hworld. fold task in Hworld.
  split; [exact Hreturn|].
  split.
  - rewrite Hworld. destruct (existsb (fresh thr) matches); simpl.
    + rewrite list_lookup_alter_eq, Hjob. eexists. reflexivity.
    + destruct (push env task); simpl.
      * rewrite list_lookup_alter_eq, Hjob. eexists. reflexivity.
      * rewrite Hjob. eexists. reflexivity.
  - split; [reflexivity|].
    intros Hnone. rewrite Hworld, Hnone.
    destruct (push env task); simpl.
    + split; [reflexivity|]. rewrite list_lookup_alter_eq, Hjob. reflexivity.
    + split; [reflexivity|exact Hjob].
Qed.

Lemma create_service_account_job_secret_failure_witness :
  queue (fst (create_service_account_job vault_down_env sample_account ∅
                empty_world))
  = [dispatch_message sample_account pending_job ∅ ∅].
Proof.
  destruct (create_service_account_job_secret_failure vault_down_env
              sample_account ∅ empty_world sample_provider "grpc://plugin"
              eq_refl eq_refl eq_refl)
    as (_ & _ & _ & Hpush).
  - left. exists (ERROR_EXTERNAL "vault down"). reflexivity.
  - specialize (Hpush eq_refl). apply Hpush.
Defined.

(** ** [_create_workspace] on an existing workspace *)

Lemma remove_elem_of (r : string) (l : list string) :
  r ∈ l -> exists l', Py.remove r l = Some l'.
Proof.
  induction l as [|y l IH]; intros H; [inversion H|]. simpl.
  destruct (String.eqb_spec r y) as [->|Hne]; [eauto|].
  apply elem_of_cons in H as [H|H]; [contradiction|].
  destruct (IH H) as [l' ->]. eauto.
Qed.

Lemma remove_NoDup (r : string) (l l' : list string) :
  NoDup l -> Py.remove r l = Some l' -> r ∉ l'.
Proof.
  revert l'. induction l as [|y l IH]; intros l' Hnd; simpl; [discriminate|].
  apply NoDup_cons in Hnd as [Hy Hnd].
  destruct (String.eqb_spec r y) as [->|Hne].
  - intros [= <-]. exact Hy.
  - destruct (Py.remove r l) as [l0|] eqn:Hl; [|discriminate].
    intros [= <-]. intros Hin. apply elem_of_cons in Hin as [Hin|Hin];
      [contradiction|]. exact (IH l0 Hnd eq_refl Hin).
Qed.

(** The query of [_remove_old_reference_id_from_workspace] selects the
    workspaces of the domain that hold the id. *)
Lemma reference_filter_holds (d r : string) (x : Workspace.t) :
  Workspace.matches
    (update "references" (VList [r]) (update "domain_id" (VStr d) ∅)) x
  = Workspace.holds d r x.
Proof.
  unfold Workspace.matches, Workspace.holds, field_ok.
  set (p := update "references" (VList [r]) (update "domain_id" (VStr d) ∅)).
  assert (H1 : p !! "workspace_id" = None) by (vm_compute; reflexivity).
  assert (H2 : p !! "name" = None) by (vm_compute; reflexivity).
  assert (H3 : p !! "domain_id" = Some (VStr d)) by (vm_compute; reflexivity).
  assert (H4 : p !! "references" = Some (VList [r])) by (vm_compute; reflexivity).
  assert (H5 : p !! "is_managed" = None) by (vm_compute; reflexivity).
  rewrite H1, H2, H3, H4, H5. simpl.
  rewrite andb_true_r, orb_false_r. f_equal.
  destruct (String.eqb_spec (Workspace.domain_id x) d) as [->|Hne].
  - apply bool_decide_eq_true. reflexivity.
  - apply bool_decide_eq_false. intros [= H]. congruence.
Qed.

Lemma apply_references (l : list string) (x : Workspace.t) :
  Workspace.apply (update "references" (VList l) ∅) x
  = Workspace.with_references l x.
Proof. destruct x. vm_compute. reflexivity. Qed.

Lemma set_workspaces_id (w : World) : set_workspaces (workspaces w) w = w.
Proof. destruct w. reflexivity. Qed.

(** The loop of [_remove_old_reference_id_from_workspace]: every listed
    workspace loses the first occurrence of the id, the others stay. *)
Lemma remove_old_loop_spec (r : string) (l : list (vo Workspace.t)) (w : World) :
  NoDup (oid <$> l) ->
  (forall v, v ∈ l ->
     workspaces w !! oid v = Some (doc v) /\ r ∈ Workspace.references (doc v)) ->
  exists ws,
    for_each l (fun workspace_vo =>
      match Py.remove r (Workspace.references (doc workspace_vo)) with
      | None => raise ValueError
      | Some references =>
          bind
            (WorkspaceManager.update_workspace_by_vo
               (update "references" (VList references) ∅) workspace_vo)
            (fun _ => ret tt)
      end) w
    = (set_workspaces ws w, Return tt)
    /\ length ws = length (workspaces w)
    /\ (forall v, v ∈ l ->
        exists l',
          Py.remove r (Workspace.references (doc v)) = Some l'
          /\ ws !! oid v = Some (Workspace.with_references l' (doc v)))
    /\ (forall i, i ∉ oid <$> l -> ws !! i = workspaces w !! i).
Proof.
  revert w. induction l as [|v l IH]; intros w Hnd Hstored.
  - exists (workspaces w). simpl. rewrite set_workspaces_id.
    repeat split; try reflexivity. intros v Hv. inversion Hv.
  - simpl in Hnd. apply NoDup_cons in Hnd as [Hfirst Hnd].
    destruct (Hstored v) as [Hv Hin]; [left|].
    destruct (remove_elem_of r _ Hin) as [l' Hl'].
    simpl. rewrite Hl'. unfold bind at 1. unfold bind at 1.
    unfold WorkspaceManager.update_workspace_by_vo at 1. cbv iota beta. simpl fst.
    set (ws1 := alter (Workspace.apply (update "references" (VList l') ∅))
                  (oid v) (workspaces w)).
    destruct (IH (set_workspaces ws1 w) Hnd) as (ws & Hrun & Hlen & Hlisted & Hother).
    { intros u Hu. destruct (Hstored u) as [Hu1 Hu2]; [right; exact Hu|].
      split; [|exact Hu2]. simpl. subst ws1. rewrite list_lookup_alter_ne; [exact Hu1|].
      intros Heq. apply Hfirst. rewrite Heq. apply list_elem_of_fmap_2. exact Hu. }
    exists ws. unfold ret at 1. cbv iota beta. rewrite Hrun. simpl in *.
    split; [reflexivity|].
    split; [rewrite Hlen; subst ws1; apply length_alter|].
    split.
    + intros u Hu. apply elem_of_cons in Hu as [->|Hu].
      * exists l'. split; [exact Hl'|].
        rewrite Hother by exact Hfirst. subst ws1.
        rewrite list_lookup_alter_eq, Hv. simpl. rewrite apply_references.
        reflexivity.
      * apply Hlisted. exact Hu.
    + intros i Hi. rewrite Hother.
      * subst ws1. apply list_lookup_alter_ne. intros Heq. apply Hi.
        rewrite Heq. left.
      * intros Hin'. apply Hi. right. exact Hin'.
Qed.

(** After [_remove_old_reference_id_from_workspace] no workspace of the
    domain whose references were duplicate-free holds the id. *)
Lemma remove_old_reference_spec (d r : string) (w : World) :
  (forall i x, workspaces w !! i = Some x -> NoDup (Workspace.references x)) ->
  exists ws,
    _remove_old_reference_id_from_workspace d r w = (set_workspaces ws w, Return tt)
    /\ (forall i x', ws !! i = Some x' ->
        Workspace.domain_id x' = d -> r ∉ Workspace.references x').
Proof.
  intros Hnd. unfold _remove_old_reference_id_from_workspace.
  unfold bind at 1. unfold WorkspaceManager.filter_workspaces at 1.
  cbv iota beta.
  erewrite query_ext by (intros x; apply reference_filter_holds).
  set (l := query (Workspace.holds d r) (workspaces w)).
  destruct (remove_old_loop_spec r l w) as (ws & Hrun & Hlen & Hlisted & Hother).
  { apply query_NoDup. }
  { intros v Hv. apply query_elem_of in Hv as [Hv Hp]. split; [exact Hv|].
    unfold Workspace.holds in Hp. apply andb_prop in Hp as [_ Hp].
    apply bool_decide_eq_true in Hp. exact Hp. }
  exists ws. split; [exact Hrun|].
  intros i x' Hx' Hd.
  destruct (workspaces w !! i) as [x|] eqn:Hx.
  2:{ apply lookup_ge_None in Hx. apply lookup_lt_Some in Hx'. lia. }
  destruct (Workspace.holds d r x) eqn:Hholds.
  - assert (Hin : VO i x ∈ l) by (apply query_elem_of; auto).
    destruct (Hlisted _ Hin) as (l' & Hl' & Hws). simpl in *.
    rewrite Hx' in Hws. injection Hws as ->. simpl.
    eapply remove_NoDup; [|exact Hl']. eapply Hnd. exact Hx.
  - assert (Hout : i ∉ oid <$> l).
    { intros Hin. apply list_elem_of_fmap in Hin as (v & -> & Hv).
      apply query_elem_of in Hv as [Hv Hp]. rewrite Hx in Hv.
      injection Hv as Hv. rewrite <- Hv in Hp. congruence. }
    rewrite (Hother i Hout), Hx in Hx'. injection Hx' as <-.
    unfold Workspace.holds in Hholds. rewrite Hd, String.eqb_refl in Hholds.
    simpl in Hholds. apply bool_decide_eq_false in Hholds. exact Hholds.
Qed.

(** The payload of the update on the resolved workspace touches neither
    its domain nor, unless the id is appended, its references. *)
Lemma workspace_update_spec (c1 c2 : bool) (name ta : string)
    (refs : list string) (now : Z) (x : Workspace.t) :
  let p0 : params :=
    update "is_managed" (VBool true) (update "trusted_account_id" (VStr ta) ∅) in
  let p1 := if c1 then update "name" (VStr name) p0 else p0 in
  let p2 := if c2 then update "references" (VList refs) p1 else p1 in
  let p := update "last_synced_at" (VTime now) p2 in
  Workspace.domain_id (Workspace.apply p x) = Workspace.domain_id x
  /\ Workspace.references (Workspace.apply p x)
     = if c2 then refs else Workspace.references x.
Proof. destruct c1, c2, x; vm_compute; split; reflexivity. Qed.

(** On the path that resolves an existing workspace, [_create_workspace]
    returns that workspace and leaves the id with no workspace of the
    domain, the resolved one included (references being duplicate-free). *)
Lemma create_workspace_existing_releases_reference (env : Env)
    (domain_id trusted_account_id : string) (location_info : LocationNode.t)
    (w : World) (workspace_vo : vo Workspace.t) (rest : list (vo Workspace.t)) :
  query
    (Workspace.matches
       (update "name" (VStr (LocationNode.name location_info))
          (update "domain_id" (VStr domain_id) ∅)))
    (workspaces w) = workspace_vo :: rest ->
  (forall i x, workspaces w !! i = Some x -> NoDup (Workspace.references x)) ->
  let run := _create_workspace env domain_id trusted_account_id location_info w in
  (exists resolved, snd run = Return resolved /\ oid resolved = oid workspace_vo)
  /\ (forall i x',
        workspaces (fst run) !! i = Some x' ->
        Workspace.domain_id x' = domain_id ->
        LocationNode.resource_id location_info ∉ Workspace.references x').
Proof.
  intros Hmatch Hnd run.
  destruct (query_head _ _ _ _ Hmatch) as [Hstored Hkey].
  set (name := LocationNode.name location_info) in *.
  set (reference_id := LocationNode.resource_id location_info) in *.
  set (c1 := negb (String.eqb (Workspace.name (doc workspace_vo)) name)).
  set (c2 := Py.truthy_list (Workspace.references (doc workspace_vo))
             && negb (Py.contains reference_id
                        (Workspace.references (doc workspace_vo)))).
  set (p0 := update "is_managed" (VBool true)
               (update "trusted_account_id" (VStr trusted_account_id) ∅)).
  set (p := update "last_synced_at" (VTime (clock w))
              (if c2
               then update "references"
                      (VList (Workspace.references (doc workspace_vo)
                              ++ [reference_id]))
                      (if c1 then update "name" (VStr name) p0 else p0)
               else (if c1 then update "name" (VStr name) p0 else p0))).
  set (ws1 := alter (Workspace.apply p) (oid workspace_vo) (workspaces w)).
  set (resolved := VO (oid workspace_vo)
                     (default (Workspace.apply p (doc workspace_vo))
                        (ws1 !! oid workspace_vo))).
  assert (Hdef :
    run = bind (_remove_old_reference_id_from_workspace domain_id reference_id)
            (fun _ => ret resolved) (set_workspaces ws1 w)).
  { subst run. unfold _create_workspace. cbv zeta.
    unfold bind at 1. unfold WorkspaceManager.filter_workspaces at 1.
    cbv iota beta. fold name. rewrite Hmatch. reflexivity. }
  destruct (remove_old_reference_spec domain_id reference_id
              (set_workspaces ws1 w))
    as (ws & Hrun & Hreleased).
  { intros i x. simpl. subst ws1.
    destruct (decide (oid workspace_vo = i)) as [<-|Hne].
    - rewrite list_lookup_alter_eq, Hstored. simpl. intros [= <-].
      destruct (workspace_update_spec c1 c2 name trusted_account_id
                  (Workspace.references (doc workspace_vo) ++ [reference_id])
                  (clock w) (doc workspace_vo)) as [_ Hrefs].
      cbv zeta in Hrefs. fold p0 in Hrefs.
      replace (update "last_synced_at" (VTime (clock w)) _) with p in Hrefs
        by (subst p; destruct c1, c2; reflexivity).
      rewrite Hrefs.
      destruct c2 eqn:Hc2.
      + subst c2. apply andb_prop in Hc2 as [_ Hc2].
        apply negb_true_iff, bool_decide_eq_false in Hc2.
        apply NoDup_app. split; [eapply Hnd; exact Hstored|].
        split; [|apply NoDup_singleton].
        intros y Hy Hy'. apply list_elem_of_singleton in Hy' as ->. contradiction.
      + eapply Hnd. exact Hstored.
    - rewrite list_lookup_alter_ne by exact Hne. apply Hnd. }
  rewrite Hdef, (bind_Return _ _ _ _ _ Hrun). unfold ret. simpl.
  split; [exists resolved; split; reflexivity|].
  exact Hreleased.
Qed.

(** C2, on the code. Resolving the existing workspace ["ws-a"] for the
    provider id ["w1"] that ["ws-a"] already holds (the re-sync of the
    record that created it) takes the id away from ["ws-a"]; resolving
    it while ["ws-b"] holds the id appends the id to ["ws-a"] and then
    removes it from both: in either case no workspace holds ["w1"]
    afterwards, where the claim has it belong to the resolved one. *)
Theorem create_workspace_drops_reference :
  let again :=
    _create_workspace sample_env "d" "ta-1" (LocationNode.mk "ws-a" "w1")
      settled_world in
  let run :=
    _create_workspace sample_env "d" "ta-1" (LocationNode.mk "ws-a" "w1")
      migrating_world in
  (oid <$> snd_return again) = Some 0
  /\ (Workspace.references <$> workspaces (fst again)) = [[]]
  /\ (oid <$> snd_return run) = Some 0
  /\ (Workspace.references <$> workspaces (fst run)) = [["w0"]; ["w9"]].
Proof. vm_compute. repeat split; reflexivity. Qed.

(** ** Terminal statuses under the ledger of the specification *)

Lemma frames_get_trusted_account {X} (g : World -> X) ta d ws :
  frames g (TrustedAccountManager.get_trusted_account ta d ws).
Proof.
  intros w. unfold TrustedAccountManager.get_trusted_account.
  destruct (List.filter _ _); reflexivity.
Qed.

Lemma frames_get_provider {X} (g : World -> X) p d :
  frames g (ProviderManager.get_provider p d).
Proof.
  intros w. unfold ProviderManager.get_provider.
  destruct (List.filter _ _); reflexivity.
Qed.

Lemma frames_same_world {A} (P : World -> Prop) (m : M A) :
  frames (fun w => w) m -> preserves P m.
Proof. intros H w Hw. rewrite (H w). exact Hw. Qed.

Lemma preserves_job_status_frames {A} (i : nat) (s : JobStatus) (m : M A) :
  frames jobs m -> preserves (fun w => job_status_at i w = Some s) m.
Proof.
  apply preserves_frames. intros w w' Hjobs. unfold job_status_at.
  rewrite Hjobs. auto.
Qed.

Lemma create_job_preserves_status env rg d ws ta pl opts (i : nat) (s : JobStatus) :
  preserves (fun w => job_status_at i w = Some s)
    (JobManager.create_job env rg d ws ta pl opts).
Proof.
  intros w Hw. unfold job_status_at in *. simpl.
  destruct (jobs w !! i) as [j|] eqn:Hj; [|discriminate].
  rewrite lookup_app_l by (apply lookup_lt_Some in Hj; exact Hj).
  rewrite Hj. exact Hw.
Qed.

Lemma push_job_preserves_status env task (i : nat) (s : JobStatus) :
  preserves (fun w => job_status_at i w = Some s) (JobManager.push_job env task).
Proof.
  intros w Hw. unfold JobManager.push_job. destruct (push env task); exact Hw.
Qed.

Section SpecLedgerRuns.
Context (env : Env) (Hledger : ledger env = spec_ledger).
Context (i : nat) (s : JobStatus) (Hs : Job.terminal s = true).

Let P : World -> Prop := fun w => job_status_at i w = Some s.

Lemma is_job_failed_preserves j d ws : preserves P (_is_job_failed j d ws).
Proof.
  unfold _is_job_failed. apply preserves_bind; [apply get_job_preserves|].
  intros v. destruct (Job.status (doc v)); apply preserves_ret.
Qed.

Lemma check_duplicate_job_loop_preserves thr l :
  preserves P (_check_duplicate_job_loop env thr l).
Proof.
  induction l as [|v l IH]; simpl; [apply preserves_ret|].
  destruct (_ >? _)%Z; [apply preserves_ret|].
  apply preserves_bind; [|intros _; exact IH].
  apply spec_change_canceled_by_vo_preserves; assumption.
Qed.

Lemma check_duplicate_job_preserves d ta this :
  preserves P (_check_duplicate_job env d ta this).
Proof.
  unfold _check_duplicate_job.
  apply preserves_bind; [intros w Hw; exact Hw|intros listed].
  apply preserves_bind; [intros w Hw; exact Hw|intros now].
  apply check_duplicate_job_loop_preserves.
Qed.

Lemma create_service_account_job_preserves ta options :
  preserves P (create_service_account_job env ta options).
Proof.
  unfold create_service_account_job. cbv zeta.
  apply preserves_bind; [apply frames_same_world, frames_get_provider|intros pv].
  apply preserves_bind; [apply frames_same_world, frames_external|intros endpoint].
  apply preserves_bind; [apply frames_same_world, frames_check|intros _].
  apply preserves_bind.
  { apply preserves_job_status_frames. unfold _get_trusted_secret_data.
    frames_auto. }
  intros sd.
  apply preserves_bind; [apply create_job_preserves_status|intros job_vo].
  apply preserves_bind; [apply check_duplicate_job_preserves|intros duplicate].
  apply preserves_bind; [|intros _; apply preserves_ret].
  destruct duplicate.
  - apply spec_change_error_preserves; assumption.
  - apply preserves_try_except; [apply push_job_preserves_status|intros e].
    apply spec_change_error_preserves; assumption.
Qed.

Lemma sync_service_accounts_preserves params :
  preserves P (other_workers env) ->
  preserves P (sync_service_accounts env params).
Proof.
  intros Hothers. unfold sync_service_accounts. cbv zeta.
  apply preserves_bind;
    [apply frames_same_world, frames_get_trusted_account|intros tav].
  apply preserves_bind; [apply get_job_preserves|intros job_vo].
  apply preserves_bind; [apply frames_same_world, frames_check|intros _].
  apply preserves_bind; [apply frames_same_world, frames_get_provider|intros pv].
  apply preserves_bind; [apply is_job_failed_preserves|intros failed].
  apply preserves_bind;
    [|intros _; apply spec_close_job_preserves; assumption].
  destruct failed; [apply spec_change_canceled_preserves; assumption|].
  apply preserves_bind;
    [apply spec_change_in_progress_preserves; assumption|intros _].
  apply preserves_try_except;
    [|intros e; apply spec_change_error_preserves; assumption].
  apply preserves_bind; [apply frames_same_world, frames_external|intros located].
  apply preserves_bind; [apply frames_same_world, frames_check|intros _].
  apply preserves_bind; [apply frames_same_world, frames_utcnow|intros start_dt].
  apply preserves_bind; [apply frames_same_world, frames_external|intros response].
  apply preserves_bind.
  { apply preserves_for_each. intros result.
    apply preserves_job_status_frames, sync_result_frames_jobs. }
  intros _.
  apply preserves_bind; [exact Hothers|intros _].
  apply preserves_bind; [apply is_job_failed_preserves|intros failed].
  apply preserves_bind.
  { destruct failed; [|apply preserves_ret].
    apply preserves_bind; [|intros _; apply preserves_ret].
    apply spec_change_canceled_preserves; assumption. }
  intros is_canceled. destruct (negb is_canceled); [|apply preserves_ret].
  apply preserves_bind; [apply frames_same_world, frames_utcnow|intros end_dt].
  apply spec_change_success_preserves; assumption.
Qed.

End SpecLedgerRuns.

(** C4. Under the ledger of the specification:
    - a job that is IN_PROGRESS leaves that status only through the
      success, failure and cancel transitions, into SUCCESS, FAILURE and
      CANCELED respectively;
    - every transition is the identity on a job whose status is terminal;
    - so the cancel transition the executor issues after its run when it
      finds the job FAILURE leaves it FAILURE, and no terminal status at
      any position of the job collection is changed by a run of
      [sync_service_accounts] (other workers aside) or of
      [create_service_account_job]. *)
Theorem spec_ledger_terminal_immutable :
  (forall now e j,
     Job.status j = IN_PROGRESS ->
     Job.status (Ledger.change_in_progress_status spec_ledger now j) = IN_PROGRESS
     /\ Job.status (Ledger.change_success_status spec_ledger now j) = SUCCESS
     /\ Job.status (Ledger.change_error_status spec_ledger now e j) = FAILURE
     /\ Job.status (Ledger.change_canceled_status spec_ledger now j) = CANCELED
     /\ Job.status (Ledger.change_canceled_by_vo spec_ledger now j) = CANCELED)
  /\ (forall now e j,
        Job.terminal (Job.status j) = true ->
        Ledger.change_in_progress_status spec_ledger now j = j
        /\ Ledger.change_success_status spec_ledger now j = j
        /\ Ledger.change_error_status spec_ledger now e j = j
        /\ Ledger.change_canceled_status spec_ledger now j = j
        /\ Ledger.change_canceled_by_vo spec_ledger now j = j)
  /\ (forall env job_vo w,
        ledger env = spec_ledger ->
        job_status_at (oid job_vo) w = Some FAILURE ->
        job_status_at (oid job_vo)
          (fst (JobManager.change_canceled_status env job_vo w)) = Some FAILURE)
  /\ (forall env i s,
        ledger env = spec_ledger ->
        Job.terminal s = true ->
        (forall params,
           preserves (fun w => job_status_at i w = Some s) (other_workers env) ->
           preserves (fun w => job_status_at i w = Some s)
             (sync_service_accounts env params))
        /\ (forall trusted_account_vo job_options,
              preserves (fun w => job_status_at i w = Some s)
                (create_service_account_job env trusted_account_vo job_options))).
Proof.
  split; [|split; [|split]].
  - intros now e j Hj. simpl. unfold forward. rewrite Hj. simpl. auto.
  - intros now e j Hj. simpl. rewrite !forward_terminal by exact Hj. auto.
  - intros env job_vo w Hledger Hw.
    apply (spec_change_canceled_preserves env Hledger (oid job_vo) FAILURE eq_refl).
    exact Hw.
  - intros env i s Hledger Hs. split.
    + intros params. apply sync_service_accounts_preserves; assumption.
    + intros ta options. apply create_service_account_job_preserves; assumption.
Qed.

Lemma spec_ledger_terminal_immutable_witness :
  Ledger.change_canceled_status spec_ledger 5 (Job.with_status FAILURE pending_job)
  = Job.with_status FAILURE pending_job
  /\ job_status_at 0
       (fst (sync_service_accounts sample_env sample_task failed_world))
     = Some FAILURE.
Proof.
  destruct spec_ledger_terminal_immutable as (_ & Hnoop & _ & Hruns).
  split.
  - apply (Hnoop 5%Z ValueError (Job.with_status FAILURE pending_job)). reflexivity.
  - destruct (Hruns sample_env 0 FAILURE eq_refl eq_refl) as [Hsync _].
    apply (Hsync sample_task).
    + intros w Hw. exact Hw.
    + reflexivity.
Defined.

(** ** The runs of [sync_service_accounts] *)

Lemma list_alter_id_at {A} (f : A -> A) (i : nat) (l : list A) (x : A) :
  l !! i = Some x -> f x = x -> alter f i l = l.
Proof.
  revert i. induction l as [|y l IH]; intros [|i] Hl Hf; simpl in *;
    try discriminate.
  - injection Hl as ->. rewrite Hf. reflexivity.
  - f_equal. eapply IH; eassumption.
Qed.

(** Under the ledger of the specification [_close_job] rewrites the job
    it finds by [closed] and returns. *)
Lemma close_job_spec_run (env : Env) j d ws (w : World) (found : vo Job.t) :
  ledger env = spec_ledger ->
  JobManager.get_job d j ws w = (w, Return found) ->
  _close_job env j d ws w
  = (set_jobs (alter (closed (clock w)) (oid found) (jobs w)) w, Return tt).
Proof.
  intros Hledger Hfound.
  destruct (get_job_found _ _ _ _ _ _ Hfound) as (_ & Hstored & _).
  unfold _close_job. rewrite (bind_Return _ _ _ _ _ Hfound).
  destruct (Job.status (doc found)) eqn:Hstatus.
  - rewrite (list_alter_id_at _ _ _ _ Hstored), set_jobs_id; [reflexivity|].
    unfold closed. rewrite Hstatus. reflexivity.
  - unfold JobManager.change_success_status. rewrite transition_total, Hledger.
    f_equal. f_equal. apply list_alter_ext; [|reflexivity].
    intros x Hx. rewrite Hstored in Hx. injection Hx as <-.
    unfold closed. rewrite Hstatus. reflexivity.
  - rewrite (list_alter_id_at _ _ _ _ Hstored), set_jobs_id; [reflexivity|].
    unfold closed. rewrite Hstatus. reflexivity.
  - unfold bind, utcnow, JobManager.update_job_by_vo. f_equal. f_equal.
    apply list_alter_ext; [|reflexivity].
    intros x Hx. rewrite Hstored in Hx. injection Hx as <-.
    unfold closed. rewrite Hstatus. reflexivity.
  - rewrite (list_alter_id_at _ _ _ _ Hstored), set_jobs_id; [reflexivity|].
    unfold closed. rewrite Hstatus. reflexivity.
Qed.

Lemma spec_transition_keys (f : Z -> Job.t -> Job.t) (v : vo Job.t) (w : World) :
  (forall now x, job_key (f now x) = job_key x) ->
  job_key <$> jobs (fst (JobManager.transition f v w)) = job_key <$> jobs w.
Proof. intros Hf. simpl. apply fmap_alter_key. apply Hf. Qed.

(** The whole run under the ledger of the specification: the job is
    rewritten in place, the rest of the world is what the reconciler
    left. Other workers are only heard after the loop over the results;
    they are taken to be silent then. *)
Lemma sync_service_accounts_spec_run (env : Env) (params : Message.t) (w : World)
    (trusted_account_vo : TrustedAccount.t) (job_vo : vo Job.t)
    (provider_vo : Provider.t) :
  let job_id := Message.job_id params in
  let domain_id := Message.domain_id params in
  let i := oid job_vo in
  let now := clock w in
  ledger env = spec_ledger ->
  TrustedAccountManager.get_trusted_account (Message.trusted_account_id params)
    domain_id (Message.workspace_id params) w = (w, Return trusted_account_vo) ->
  JobManager.get_job domain_id job_id (Message.workspace_id params) w
  = (w, Return job_vo) ->
  get_schema env (TrustedAccount.secret_schema_id trusted_account_vo) domain_id
  = None ->
  ProviderManager.get_provider (TrustedAccount.provider trusted_account_vo)
    domain_id w = (w, Return provider_vo) ->
  (failed_status (Job.status (doc job_vo)) = true ->
   sync_service_accounts env params w
   = (set_jobs
        (alter (closed now) i
           (alter (Ledger.change_canceled_status spec_ledger now) i (jobs w))) w,
      Return tt))
  /\ (failed_status (Job.status (doc job_vo)) = false ->
      forall w2 r,
        reconcile_all env trusted_account_vo params provider_vo
          (set_jobs (alter (Ledger.change_in_progress_status spec_ledger now) i
                       (jobs w)) w) = (w2, r) ->
        (forall u, r = Return u -> concurrent env w2 = w2) ->
        sync_service_accounts env params w
        = (set_jobs
             (alter (closed now) i
                (alter
                   (match r with
                    | Raise e => Ledger.change_error_status spec_ledger now e
                    | Return _ => Ledger.change_success_status spec_ledger now
                    end) i
                   (alter (Ledger.change_in_progress_status spec_ledger now) i
                      (jobs w)))) w2,
           Return tt)).
Proof.
  intros job_id domain_id i now Hledger Hta Hjob Hschema Hprov.
  pose proof (sync_service_accounts_unfold env params w trusted_account_vo
                job_vo provider_vo Hta Hjob Hschema Hprov) as Hrun.
  cbv zeta in Hrun. fold job_id domain_id in Hrun.
  pose proof (get_job_again_same _ _ _ _ _ Hjob) as Hjob'.
  fold job_id domain_id in Hjob'.
  destruct (get_job_found _ _ _ _ _ _ Hjob) as (_ & Hstored & _).
  fold i in Hstored.
  assert (Hkeys : forall (f : Job.t -> Job.t) js,
            (forall x, job_key (f x) = job_key x) ->
            job_key <$> js = job_key <$> jobs w ->
            job_key <$> alter f i js = job_key <$> jobs w).
  { intros f js Hf Hjs. rewrite fmap_alter_key by exact Hf. exact Hjs. }
  assert (Hspec : forall t e x,
            job_key (Ledger.change_in_progress_status spec_ledger t x) = job_key x
            /\ job_key (Ledger.change_success_status spec_ledger t x) = job_key x
            /\ job_key (Ledger.change_error_status spec_ledger t e x) = job_key x
            /\ job_key (Ledger.change_canceled_status spec_ledger t x) = job_key x)
    by (intros t e x; destruct (spec_transitions_keep_keys t e x)
          as (? & ? & ? & ? & ?); auto).
  (* closing a world whose jobs have the keys of [w] *)
  assert (Hclose : forall wB,
            job_key <$> jobs wB = job_key <$> jobs w ->
            clock wB = now ->
            _close_job env job_id domain_id (Job.workspace_id (doc job_vo)) wB
            = (set_jobs (alter (closed now) i (jobs wB)) wB, Return tt)).
  { intros wB HkB Hclock.
    destruct (get_job_same_keys _ _ _ w wB job_vo HkB Hjob') as (x' & Hfound & _).
    rewrite (close_job_spec_run env _ _ _ wB _ Hledger Hfound), Hclock.
    reflexivity. }
  split.
  - intros Hfailed. rewrite Hfailed in Hrun. rewrite Hrun.
    unfold JobManager.change_canceled_status. rewrite transition_total, Hledger.
    cbn [fst]. rewrite Hclose; [reflexivity| |reflexivity].
    simpl. apply Hkeys; [intros x; apply (Hspec now ValueError x)|reflexivity].
  - intros Hfailed w2 r Hreconcile Hquiet. rewrite Hfailed in Hrun. rewrite Hrun.
    unfold JobManager.change_in_progress_status. rewrite transition_total, Hledger.
    cbn [fst]. fold i now. rewrite Hreconcile.
    assert (Hjobs : jobs w2
                    = alter (Ledger.change_in_progress_status spec_ledger now) i
                        (jobs w)).
    { pose proof (reconcile_all_frames jobs
                    ltac:(reflexivity) ltac:(reflexivity) ltac:(reflexivity)
                    ltac:(reflexivity) ltac:(reflexivity)
                    env trusted_account_vo params provider_vo
                    (set_jobs (alter (Ledger.change_in_progress_status spec_ledger
                                        now) i (jobs w)) w)) as H.
      rewrite Hreconcile in H. exact H. }
    assert (Hclock : clock w2 = now).
    { pose proof (reconcile_all_frames clock
                    ltac:(reflexivity) ltac:(reflexivity) ltac:(reflexivity)
                    ltac:(reflexivity) ltac:(reflexivity)
                    env trusted_account_vo params provider_vo
                    (set_jobs (alter (Ledger.change_in_progress_status spec_ledger
                                        now) i (jobs w)) w)) as H.
      rewrite Hreconcile in H. exact H. }
    assert (Hk2 : job_key <$> jobs w2 = job_key <$> jobs w).
    { rewrite Hjobs. apply Hkeys; [intros x; apply (Hspec now ValueError x)|].
      reflexivity. }
    destruct r as [[]|e].
    + rewrite (Hquiet tt eq_refl).
      destruct (get_job_same_keys _ _ _ w w2 job_vo Hk2 Hjob')
        as (x' & Hfound & Hx').
      rewrite (is_job_failed_found _ _ _ _ _ Hfound). cbn [doc].
      fold i in Hx'. rewrite Hjobs, list_lookup_alter_eq, Hstored in Hx'.
      simpl in Hx'. injection Hx' as <-.
      assert (Hnot : failed_status
                (Job.status (forward (Job.with_status IN_PROGRESS) (doc job_vo)))
              = false).
      { unfold forward. destruct (Job.status (doc job_vo)) eqn:Hs;
          simpl; try rewrite Hs; try reflexivity; discriminate. }
      rewrite Hnot.
      unfold JobManager.change_success_status. rewrite transition_total, Hledger.
      cbn [fst]. fold i. rewrite Hclock.
      rewrite Hclose; [rewrite <- Hjobs; reflexivity| |exact Hclock].
      simpl. apply Hkeys; [intros x; apply (Hspec now ValueError x)|exact Hk2].
    + unfold JobManager.change_error_status. rewrite transition_total, Hledger.
      cbn [fst]. fold i. rewrite Hclock.
      rewrite Hclose; [rewrite <- Hjobs; reflexivity| |exact Hclock].
      simpl. apply Hkeys; [intros x; apply (Hspec now e x)|exact Hk2].
Qed.

Lemma close_job_frames {X} (g : World -> X) env j d ws :
  (forall w x, g (set_jobs x w) = g w) -> frames g (_close_job env j d ws).
Proof.
  intros Hg. unfold _close_job.
  repeat first
    [ apply frames_job_transition; exact Hg
    | apply frames_update_job_by_vo; exact Hg
    | frames_step ].
Qed.

Lemma close_job_ledger_only (env env' : Env) j d ws (w : World) :
  ledger env' = ledger env ->
  _close_job env' j d ws w = _close_job env j d ws w.
Proof.
  intros Hledger. unfold _close_job, JobManager.change_success_status.
  rewrite Hledger. reflexivity.
Qed.

(** X1. A job that is already FAILURE or CANCELED when the worker picks
    its message up is not reconciled: the run is the cancel transition
    followed by [_close_job] and nothing else. Workspaces, project
    groups, projects, service accounts and the vault are left as they
    were, and the plugin has no part in the run: two environments with
    the same ledger that both let the schema lookup pass give the same
    run, whatever their plugin, vault and validator answer. *)
Theorem sync_service_accounts_failed_job_skipped (env : Env) (params : Message.t)
    (w : World) (trusted_account_vo : TrustedAccount.t) (job_vo : vo Job.t)
    (provider_vo : Provider.t) :
  TrustedAccountManager.get_trusted_account (Message.trusted_account_id params)
    (Message.domain_id params) (Message.workspace_id params) w
  = (w, Return trusted_account_vo) ->
  JobManager.get_job (Message.domain_id params) (Message.job_id params)
    (Message.workspace_id params) w = (w, Return job_vo) ->
  get_schema env (TrustedAccount.secret_schema_id trusted_account_vo)
    (Message.domain_id params) = None ->
  ProviderManager.get_provider (TrustedAccount.provider trusted_account_vo)
    (Message.domain_id params) w = (w, Return provider_vo) ->
  failed_status (Job.status (doc job_vo)) = true ->
  sync_service_accounts env params w
  = _close_job env (Message.job_id params) (Message.domain_id params)
      (Job.workspace_id (doc job_vo))
      (fst (JobManager.change_canceled_status env job_vo w))
  /\ inventory (fst (sync_service_accounts env params w)) = inventory w
  /\ (forall env',
        ledger env' = ledger env ->
        get_schema env' (TrustedAccount.secret_schema_id trusted_account_vo)
          (Message.domain_id params) = None ->
        sync_service_accounts env' params w = sync_service_accounts env params w).
Proof.
  intros Hta Hjob Hschema Hprov Hfailed.
  assert (Hrun : forall env0,
            get_schema env0 (TrustedAccount.secret_schema_id trusted_account_vo)
              (Message.domain_id params) = None ->
            sync_service_accounts env0 params w
            = _close_job env0 (Message.job_id params) (Message.domain_id params)
                (Job.workspace_id (doc job_vo))
                (fst (JobManager.change_canceled_status env0 job_vo w))).
  { intros env0 Hschema0.
    rewrite (sync_service_accounts_unfold env0 params w trusted_account_vo job_vo
               provider_vo Hta Hjob Hschema0 Hprov).
    cbv zeta. rewrite Hfailed. reflexivity. }
  split; [exact (Hrun env Hschema)|]. split.
  - rewrite (Hrun env Hschema).
    rewrite (close_job_frames inventory); [reflexivity|reflexivity].
  - intros env' Hledger Hschema'.
    rewrite (Hrun env Hschema), (Hrun env' Hschema').
    rewrite (close_job_ledger_only env env' _ _ _ _ Hledger).
    unfold JobManager.change_canceled_status. rewrite Hledger. reflexivity.
Qed.

Lemma sync_service_accounts_failed_job_skipped_witness :
  inventory (fst (sync_service_accounts sample_env sample_task failed_world))
  = inventory failed_world
  /\ sync_service_accounts plugin_down_env sample_task failed_world
     = sync_service_accounts sample_env sample_task failed_world.
Proof.
  destruct (sync_service_accounts_failed_job_skipped sample_env sample_task
              failed_world sample_account (VO 0 (Job.with_status FAILURE pending_job))
              sample_provider) as (_ & Hinventory & Hsame);
    [vm_compute; reflexivity ..|].
  split; [exact Hinventory|]. apply Hsame; reflexivity.
Defined.

(** X2. When the plugin or the reconciler raises, the run still returns
    normally; under the ledger of the specification the job ends FAILURE
    with the exception recorded and [finished_at] stamped by [_close_job],
    and nothing the reconciler wrote before the failure is rolled back. *)
Theorem sync_service_accounts_failure_captured (env : Env) (params : Message.t)
    (w w2 : World) (trusted_account_vo : TrustedAccount.t) (job_vo : vo Job.t)
    (provider_vo : Provider.t) (e : exn) :
  ledger env = spec_ledger ->
  TrustedAccountManager.get_trusted_account (Message.trusted_account_id params)
    (Message.domain_id params) (Message.workspace_id params) w
  = (w, Return trusted_account_vo) ->
  JobManager.get_job (Message.domain_id params) (Message.job_id params)
    (Message.workspace_id params) w = (w, Return job_vo) ->
  get_schema env (TrustedAccount.secret_schema_id trusted_account_vo)
    (Message.domain_id params) = None ->
  ProviderManager.get_provider (TrustedAccount.provider trusted_account_vo)
    (Message.domain_id params) w = (w, Return provider_vo) ->
  Job.terminal (Job.status (doc job_vo)) = false ->
  reconcile_all env trusted_account_vo params provider_vo
    (fst (JobManager.change_in_progress_status env job_vo w)) = (w2, Raise e) ->
  snd (sync_service_accounts env params w) = Return tt
  /\ inventory (fst (sync_service_accounts env params w)) = inventory w2
  /\ jobs (fst (sync_service_accounts env params w)) !! oid job_vo
     = Some (Job.with_finished_at (Some (clock w))
               (Job.with_error (Some e) (Job.with_status FAILURE (doc job_vo)))).
Proof.
  intros Hledger Hta Hjob Hschema Hprov Hentry Hraise.
  destruct (sync_service_accounts_spec_run env params w trusted_account_vo job_vo
              provider_vo Hledger Hta Hjob Hschema Hprov) as [_ Hrun].
  unfold JobManager.change_in_progress_status in Hraise.
  rewrite transition_total, Hledger in Hraise. cbn [fst] in Hraise.
  rewrite (Hrun ltac:(destruct (Job.status (doc job_vo)); (reflexivity || discriminate))
             w2 (Raise e) Hraise ltac:(discriminate)).
  destruct (get_job_found _ _ _ _ _ _ Hjob) as (_ & Hstored & _).
  repeat split.
  cbn [fst jobs set_jobs]. rewrite !list_lookup_alter_eq, Hstored.
  simpl. unfold closed, forward.
  destruct (Job.status (doc job_vo)); try discriminate; reflexivity.
Qed.

Lemma sync_service_accounts_failure_captured_witness :
  snd (sync_service_accounts vault_full_env sample_task dispatched_world) = Return tt
  /\ workspaces (fst (sync_service_accounts vault_full_env sample_task dispatched_world))
     <> []
  /\ (Job.status <$>
        jobs (fst (sync_service_accounts vault_full_env sample_task dispatched_world))
          !! 0)
     = Some FAILURE.
Proof.
  destruct (sync_service_accounts_failure_captured vault_full_env sample_task
              dispatched_world
              (fst (reconcile_all vault_full_env sample_account sample_task
                      sample_provider
                      (fst (JobManager.change_in_progress_status vault_full_env
                              (VO 0 pending_job) dispatched_world))))
              sample_account (VO 0 pending_job) sample_provider
              (ERROR_EXTERNAL "vault full"))
    as (Hreturn & Hinventory & Hjob); [vm_compute; reflexivity ..|].
  split; [exact Hreturn|]. split.
  - apply (f_equal (fun t => t.1.1.1.1)) in Hinventory. simpl in Hinventory.
    rewrite Hinventory. vm_compute. discriminate.
  - cbn [oid] in Hjob. rewrite Hjob. reflexivity.
Defined.

Lemma closed_keeps (now : Z) (x : Job.t) :
  job_key (closed now x) = job_key x
  /\ (Job.terminal (Job.status x) = true ->
      Job.terminal (Job.status (closed now x)) = true).
Proof.
  unfold closed. simpl. unfold forward.
  destruct (Job.status x) eqn:Hs; simpl; rewrite ?Hs; split;
    solve [reflexivity | intros; assumption | intros; reflexivity].
Qed.

Lemma spec_final_transitions_terminal (now : Z) (e : exn) (x : Job.t) :
  Job.terminal (Job.status (Ledger.change_success_status spec_ledger now x)) = true
  /\ Job.terminal (Job.status (Ledger.change_error_status spec_ledger now e x)) = true
  /\ Job.terminal (Job.status (Ledger.change_canceled_status spec_ledger now x)) = true.
Proof.
  simpl. unfold forward.
  destruct (Job.terminal (Job.status x)) eqn:Hs; simpl; rewrite ?Hs; auto.
Qed.

(** X3. Past the four lookups a run always returns normally and leaves
    its job in a terminal status, under the ledger of the specification
    and with no other worker writing: whether the job was failed at
    entry, the reconciliation finished, or it raised. *)
Theorem sync_service_accounts_ends_terminal (env : Env) (params : Message.t)
    (w : World) (trusted_account_vo : TrustedAccount.t) (job_vo : vo Job.t)
    (provider_vo : Provider.t) :
  ledger env = spec_ledger ->
  (forall w0, concurrent env w0 = w0) ->
  TrustedAccountManager.get_trusted_account (Message.trusted_account_id params)
    (Message.domain_id params) (Message.workspace_id params) w
  = (w, Return trusted_account_vo) ->
  JobManager.get_job (Message.domain_id params) (Message.job_id params)
    (Message.workspace_id params) w = (w, Return job_vo) ->
  get_schema env (TrustedAccount.secret_schema_id trusted_account_vo)
    (Message.domain_id params) = None ->
  ProviderManager.get_provider (TrustedAccount.provider trusted_account_vo)
    (Message.domain_id params) w = (w, Return provider_vo) ->
  snd (sync_service_accounts env params w) = Return tt
  /\ exists x,
       jobs (fst (sync_service_accounts env params w)) !! oid job_vo = Some x
       /\ Job.terminal (Job.status x) = true
       /\ job_key x = job_key (doc job_vo).
Proof.
  intros Hledger Hquiet Hta Hjob Hschema Hprov.
  destruct (sync_service_accounts_spec_run env params w trusted_account_vo job_vo
              provider_vo Hledger Hta Hjob Hschema Hprov) as [Hskip Hrun].
  destruct (get_job_found _ _ _ _ _ _ Hjob) as (_ & Hstored & _).
  assert (Hspec : forall t e x,
            job_key (Ledger.change_in_progress_status spec_ledger t x) = job_key x
            /\ job_key (Ledger.change_success_status spec_ledger t x) = job_key x
            /\ job_key (Ledger.change_error_status spec_ledger t e x) = job_key x
            /\ job_key (Ledger.change_canceled_status spec_ledger t x) = job_key x)
    by (intros t e x; destruct (spec_transitions_keep_keys t e x)
          as (? & ? & ? & ? & ?); auto).
  destruct (failed_status (Job.status (doc job_vo))) eqn:Hfailed.
  - rewrite (Hskip eq_refl). split; [reflexivity|].
    cbn [fst jobs set_jobs]. rewrite !list_lookup_alter_eq, Hstored.
    eexists. split; [reflexivity|].
    destruct (closed_keeps (clock w)
                (Ledger.change_canceled_status spec_ledger (clock w) (doc job_vo)))
      as [Hkey Hterminal].
    split.
    + apply Hterminal.
      apply (spec_final_transitions_terminal (clock w) ValueError (doc job_vo)).
    + rewrite Hkey. apply (Hspec (clock w) ValueError (doc job_vo)).
  - destruct (reconcile_all env trusted_account_vo params provider_vo
                (set_jobs
                   (alter (Ledger.change_in_progress_status spec_ledger (clock w))
                      (oid job_vo) (jobs w)) w)) as [w2 r] eqn:Hreconcile.
    rewrite (Hrun eq_refl w2 r eq_refl ltac:(intros; apply Hquiet)).
    split; [reflexivity|].
    cbn [fst jobs set_jobs]. rewrite !list_lookup_alter_eq, Hstored.
    eexists. split; [reflexivity|].
    cbn [fmap option_fmap option_map].
    set (x1 := Ledger.change_in_progress_status spec_ledger (clock w) (doc job_vo)).
    assert (Hx1 : job_key x1 = job_key (doc job_vo))
      by apply (Hspec (clock w) ValueError (doc job_vo)).
    destruct r as [[]|e].
    + destruct (closed_keeps (clock w)
                  (Ledger.change_success_status spec_ledger (clock w) x1))
        as [Hkey Hterminal].
      split.
      * apply Hterminal. apply (spec_final_transitions_terminal (clock w) ValueError x1).
      * rewrite Hkey, <- Hx1. apply (Hspec (clock w) ValueError x1).
    + destruct (closed_keeps (clock w)
                  (Ledger.change_error_status spec_ledger (clock w) e x1))
        as [Hkey Hterminal].
      split.
      * apply Hterminal. apply (spec_final_transitions_terminal (clock w) e x1).
      * rewrite Hkey, <- Hx1. apply (Hspec (clock w) e x1).
Qed.

Lemma sync_service_accounts_ends_terminal_witness :
  snd (sync_service_accounts sample_env sample_task dispatched_world) = Return tt
  /\ exists x,
       jobs (fst (sync_service_accounts sample_env sample_task dispatched_world))
         !! 0 = Some x
       /\ Job.terminal (Job.status x) = true
       /\ job_key x = job_key pending_job.
Proof.
  apply (sync_service_accounts_ends_terminal sample_env sample_task
           dispatched_world sample_account (VO 0 pending_job) sample_provider);
    solve [reflexivity | vm_compute; reflexivity].
Defined.

(** *** What a run leaves alone *)

Section ExecutorFrames.
Context {X : Type} (g : World -> X) (env : Env).
Context (Hjobs : forall w x, g (set_jobs x w) = g w).
Context (Hworkspaces : forall w x, g (set_workspaces x w) = g w).
Context (Hgroups : forall w x, g (set_project_groups x w) = g w).
Context (Hprojects : forall w x, g (set_projects x w) = g w).
Context (Haccounts : forall w x, g (set_service_accounts x w) = g w).
Context (Hvault : forall w x, g (set_vault x w) = g w).
Context (Hconcurrent : forall w, g (concurrent env w) = g w).

Lemma get_trusted_account_frames ta d ws :
  frames g (TrustedAccountManager.get_trusted_account ta d ws).
Proof.
  intros w. unfold TrustedAccountManager.get_trusted_account.
  destruct (List.filter _ _); reflexivity.
Qed.

Lemma get_provider_frames p d : frames g (ProviderManager.get_provider p d).
Proof.
  intros w. unfold ProviderManager.get_provider.
  destruct (List.filter _ _); reflexivity.
Qed.

Lemma is_job_failed_frames j d ws : frames g (_is_job_failed j d ws).
Proof. unfold _is_job_failed. frames_auto. Qed.

Lemma other_workers_frames : frames g (other_workers env).
Proof. intros w. apply Hconcurrent. Qed.

Lemma sync_service_accounts_frames params :
  frames g (sync_service_accounts env params).
Proof.
  unfold sync_service_accounts. cbv zeta.
  unfold JobManager.change_canceled_status, JobManager.change_in_progress_status,
    JobManager.change_success_status, JobManager.change_error_status.
  repeat first
    [ apply sync_result_frames; assumption
    | apply get_trusted_account_frames
    | apply get_provider_frames
    | apply is_job_failed_frames
    | apply other_workers_frames
    | apply close_job_frames; exact Hjobs
    | apply frames_job_transition; exact Hjobs
    | frames_step ].
Qed.

End ExecutorFrames.

(** X17. The executor consumes its message without dispatching another:
    whatever happens during a run, the dispatch queue is left as it was,
    as long as no other worker pushes to it meanwhile. *)
Theorem sync_service_accounts_never_dispatches (env : Env) (params : Message.t)
    (w : World) :
  (forall w0, queue (concurrent env w0) = queue w0) ->
  queue (fst (sync_service_accounts env params w)) = queue w.
Proof.
  intros Hquiet.
  apply (sync_service_accounts_frames queue env); auto.
Qed.

Lemma sync_service_accounts_never_dispatches_witness :
  queue (fst (sync_service_accounts canceling_env sample_task dispatched_world))
  = [sample_task].
Proof.
  rewrite (sync_service_accounts_never_dispatches canceling_env sample_task
             dispatched_world); [reflexivity|].
  intros w0. reflexivity.
Defined.

(** ** The hierarchy reconciler *)

(** X4. When no workspace of the domain bears the node's name,
    [_create_workspace] appends one managed workspace that holds the
    node's resource id as its only reference and a theme tag, and changes
    no stored workspace: the old holder of the reference id is only
    released when an existing workspace is updated. *)
Theorem create_workspace_appends (env : Env) (domain_id trusted_account_id : string)
    (location_info : LocationNode.t) (w : World) :
  query
    (Workspace.matches
       (update "name" (VStr (LocationNode.name location_info))
          (update "domain_id" (VStr domain_id) ∅)))
    (workspaces w) = [] ->
  let n := length (workspaces w) in
  let x :=
    Workspace.mk (generate_id env "workspace" n) (LocationNode.name location_info)
      domain_id [LocationNode.resource_id location_info]
      {[ "theme" := random_choice env ]} (Some trusted_account_id) true
      (Some (clock w)) in
  _create_workspace env domain_id trusted_account_id location_info w
  = (set_workspaces (workspaces w ++ [x]) w, Return (VO n x)).
Proof.
  intros Hnone n x. unfold _create_workspace.
  unfold bind at 1. unfold WorkspaceManager.filter_workspaces at 1.
  rewrite Hnone. reflexivity.
Qed.

Lemma create_workspace_appends_witness :
  (Workspace.references <$>
     workspaces
       (fst (_create_workspace sample_env "d" "ta-1" (LocationNode.mk "ws-new" "w1")
               migrating_world)))
  = [["w0"]; ["w1"; "w9"]; ["w1"]].
Proof.
  rewrite (create_workspace_appends sample_env "d" "ta-1"
             (LocationNode.mk "ws-new" "w1") migrating_world);
    vm_compute; reflexivity.
Defined.

(** *** Finding a document again *)

Lemma query_same_flags {A} (q : A -> bool) (l l' : list A) :
  q <$> l' = q <$> l -> oid <$> query q l' = oid <$> query q l.
Proof. intros H. apply (query_key_oids q (fun b => b) l l' H). Qed.

Lemma fmap_alter_at {A K} (k : A -> K) (f : A -> A) (i : nat) (l : list A) :
  (forall x, l !! i = Some x -> k (f x) = k x) -> k <$> alter f i l = k <$> l.
Proof.
  revert i. induction l as [|x l IH]; intros [|i] Hf; simpl; try reflexivity.
  - rewrite (Hf x eq_refl). reflexivity.
  - f_equal. apply IH. intros y Hy. apply Hf. exact Hy.
Qed.

(** The first match of a query stays the first match, at the same
    position, in any collection whose documents answer the query alike. *)
Lemma query_first_again {A} (q : A -> bool) (l l' : list A) (v : vo A)
    (rest : list (vo A)) :
  query q l = v :: rest ->
  q <$> l' = q <$> l ->
  exists x' rest',
    query q l' = VO (oid v) x' :: rest' /\ l' !! oid v = Some x'.
Proof.
  intros Hq Hflags. pose proof (query_same_flags q l l' Hflags) as Hoids.
  rewrite Hq in Hoids.
  destruct (query q l') as [|v' rest'] eqn:Hq'; [discriminate|].
  injection Hoids as Hoid _. apply query_head in Hq' as [Hstored _].
  exists (doc v'), rest'. rewrite <- Hoid.
  split; [destruct v'; reflexivity|exact Hstored].
Qed.

Lemma query_first_altered {A} (q : A -> bool) (f : A -> A) (l : list A)
    (v : vo A) (rest : list (vo A)) :
  query q l = v :: rest ->
  q (f (doc v)) = true ->
  exists rest',
    query q (alter f (oid v) l) = VO (oid v) (f (doc v)) :: rest'.
Proof.
  intros Hq Hf. destruct (query_head _ _ _ _ Hq) as [Hstored Hv].
  destruct (query_first_again q l (alter f (oid v) l) v rest Hq)
    as (x' & rest' & Hq' & Hx').
  - apply fmap_alter_at. intros x Hx. rewrite Hstored in Hx.
    injection Hx as <-. rewrite Hf, Hv. reflexivity.
  - rewrite list_lookup_alter_eq, Hstored in Hx'. injection Hx' as <-.
    exists rest'. exact Hq'.
Qed.

Lemma query_first_appended {A} (q : A -> bool) (l : list A) (x : A) :
  query q l = [] -> q x = true -> query q (l ++ [x]) = [VO (length l) x].
Proof. intros Hq Hx. rewrite query_snoc, Hq, Hx. reflexivity. Qed.

(** *** Project groups *)

Lemma project_group_filter_spec (d ws ref : string) (x : ProjectGroup.t) :
  ProjectGroup.matches
    (update "workspace_id" (VStr ws)
       (update "domain_id" (VStr d)
          (update "reference_id" (VStr ref)
             (update "is_managed" (VBool true) ∅)))) x = true
  <-> ProjectGroup.is_managed x = true
      /\ ProjectGroup.reference_id x = Some ref
      /\ ProjectGroup.domain_id x = d
      /\ ProjectGroup.workspace_id x = ws.
Proof.
  change (ProjectGroup.matches _ x)
    with (true
          && bool_decide (VBool true = VBool (ProjectGroup.is_managed x))
          && bool_decide (VStr ref = of_opt (ProjectGroup.reference_id x))
          && bool_decide (VStr d = VStr (ProjectGroup.domain_id x))
          && bool_decide (VStr ws = VStr (ProjectGroup.workspace_id x))).
  rewrite !andb_true_iff, !bool_decide_eq_true. simpl.
  destruct (ProjectGroup.reference_id x); simpl; split.
  - intros ((((_ & [= <-]) & [= <-]) & [= <-]) & [= <-]). auto.
  - intros (-> & [= <-] & <- & <-). auto.
  - intros ((((_ & _) & ?) & _) & _). discriminate.
  - intros (_ & ? & _). discriminate.
Qed.

(** The update branch of [_create_project_group]. *)
Lemma create_project_group_update_run (env : Env)
    (d ws ta : string) (node : LocationNode.t) (parent : option string)
    (w : World) (v : vo ProjectGroup.t) (rest : list (vo ProjectGroup.t)) :
  query
    (ProjectGroup.matches
       (update "workspace_id" (VStr ws)
          (update "domain_id" (VStr d)
             (update "reference_id" (VStr (LocationNode.resource_id node))
                (update "is_managed" (VBool true) ∅)))))
    (project_groups w) = v :: rest ->
  let stored :=
    ProjectGroup.mk (ProjectGroup.project_group_id (doc v)) (LocationNode.name node)
      (ProjectGroup.reference_id (doc v)) (ProjectGroup.is_managed (doc v))
      (ProjectGroup.domain_id (doc v)) (ProjectGroup.workspace_id (doc v))
      (if Py.truthy parent then parent else ProjectGroup.parent_group_id (doc v))
      (Some ta) (Some (clock w)) in
  _create_project_group env d ws ta node parent w
  = (set_project_groups (<[oid v := stored]> (project_groups w)) w,
     Return (VO (oid v) stored)).
Proof.
  intros Hq stored. destruct (query_head _ _ _ _ Hq) as [Hstored _].
  unfold _create_project_group.
  unfold bind at 1. unfold ProjectGroupManager.filter_project_groups at 1.
  rewrite Hq. cbv zeta.
  unfold bind, utcnow, ProjectGroupManager.update_project_group_by_vo.
  match goal with
  | |- context [alter (ProjectGroup.apply ?p) _ _] =>
      assert (Hp : ProjectGroup.apply p (doc v) = stored)
  end.
  { subst stored. destruct parent as [parent|]; simpl.
    - destruct (String.eqb parent "") eqn:Hparent,
        (String.eqb (ProjectGroup.name (doc v)) (LocationNode.name node)) eqn:Hname;
        simpl; try reflexivity;
        apply String.eqb_eq in Hname; unfold ProjectGroup.apply; simpl;
        rewrite Hname; reflexivity.
    - destruct (String.eqb (ProjectGroup.name (doc v)) (LocationNode.name node))
        eqn:Hname; simpl; try reflexivity.
      apply String.eqb_eq in Hname. unfold ProjectGroup.apply. simpl.
      rewrite Hname. reflexivity. }
  rewrite list_lookup_alter_eq, Hstored. simpl. rewrite Hp.
  f_equal. f_equal.
  apply list_eq. intros i. destruct (decide (i = oid v)) as [->|Hi].
  - rewrite list_lookup_alter_eq, Hstored. simpl. rewrite Hp.
    symmetry. apply list_lookup_insert_eq. eapply lookup_lt_Some. exact Hstored.
  - rewrite list_lookup_alter_ne, list_lookup_insert_ne by auto. reflexivity.
Qed.

(** Whichever branch it takes, [_create_project_group] returns a stored
    group that its own filter finds first from then on. *)
Lemma create_project_group_run (env : Env)
    (d ws ta : string) (node : LocationNode.t) (parent : option string)
    (w : World) :
  exists (v : vo ProjectGroup.t) (l : list ProjectGroup.t) (rest : list (vo ProjectGroup.t)),
    _create_project_group env d ws ta node parent w
    = (set_project_groups l w, Return v)
    /\ query
         (ProjectGroup.matches
            (update "workspace_id" (VStr ws)
               (update "domain_id" (VStr d)
                  (update "reference_id" (VStr (LocationNode.resource_id node))
                     (update "is_managed" (VBool true) ∅))))) l
       = v :: rest
    /\ (query
          (ProjectGroup.matches
             (update "workspace_id" (VStr ws)
                (update "domain_id" (VStr d)
                   (update "reference_id" (VStr (LocationNode.resource_id node))
                      (update "is_managed" (VBool true) ∅)))))
          (project_groups w) = []
        -> l = project_groups w ++ [doc v])
    /\ (query
          (ProjectGroup.matches
             (update "workspace_id" (VStr ws)
                (update "domain_id" (VStr d)
                   (update "reference_id" (VStr (LocationNode.resource_id node))
                      (update "is_managed" (VBool true) ∅)))))
          (project_groups w) <> []
        -> length l = length (project_groups w)).
Proof.
  destruct (query _ (project_groups w)) as [|v rest] eqn:Hq.
  - unfold _create_project_group.
    unfold bind at 1. unfold ProjectGroupManager.filter_project_groups at 1.
    rewrite Hq. cbv zeta.
    unfold bind, utcnow, ProjectGroupManager.create_project_group.
    eexists _, _, _. split; [reflexivity|]. split; [|split; [reflexivity|congruence]].
    apply query_first_appended; [exact Hq|].
    apply project_group_filter_spec.
    destruct (Py.truthy parent); repeat split; reflexivity.
  - pose proof (create_project_group_update_run env d ws ta node parent w v rest Hq)
      as Hrun. cbv zeta in Hrun. rewrite Hrun.
    destruct (query_head _ _ _ _ Hq) as [Hstored Hv].
    apply project_group_filter_spec in Hv as (Hm & Hr & Hd & Hws).
    match goal with
    | |- context [Return (VO (oid v) ?s)] => set (stored := s)
    end.
    destruct (query_first_altered _ (fun _ => stored) (project_groups w) v rest Hq)
      as [rest' Hq'].
    { apply project_group_filter_spec. repeat split; assumption. }
    assert (Halter : alter (fun _ => stored) (oid v) (project_groups w)
                     = <[oid v := stored]> (project_groups w)).
    { apply list_eq. intros i. destruct (decide (i = oid v)) as [->|Hi].
      - rewrite list_lookup_alter_eq, Hstored. simpl.
        symmetry. apply list_lookup_insert_eq. eapply lookup_lt_Some. exact Hstored.
      - rewrite list_lookup_alter_ne, list_lookup_insert_ne by auto. reflexivity. }
    rewrite Halter in Hq'.
    eexists _, _, _. split; [reflexivity|]. split; [exact Hq'|].
    split; [discriminate|]. intros _. apply length_insert.
Qed.

(** X5. A group matched at the top level of a location (no parent given)
    is renamed and re-stamped, but keeps the parent it had: the sync does
    not detach a group that moved to the top. No other group changes. *)
Theorem create_project_group_keeps_parent (env : Env)
    (domain_id workspace_id trusted_account_id : string)
    (location_info : LocationNode.t) (parent_group_id : option string)
    (w : World) (project_group_vo : vo ProjectGroup.t)
    (rest : list (vo ProjectGroup.t)) :
  query
    (ProjectGroup.matches
       (update "workspace_id" (VStr workspace_id)
          (update "domain_id" (VStr domain_id)
             (update "reference_id" (VStr (LocationNode.resource_id location_info))
                (update "is_managed" (VBool true) ∅)))))
    (project_groups w) = project_group_vo :: rest ->
  Py.truthy parent_group_id = false ->
  let w' :=
    fst (_create_project_group env domain_id workspace_id trusted_account_id
           location_info parent_group_id w) in
  (exists x,
     project_groups w' !! oid project_group_vo = Some x
     /\ ProjectGroup.parent_group_id x
        = ProjectGroup.parent_group_id (doc project_group_vo)
     /\ ProjectGroup.name x = LocationNode.name location_info
     /\ ProjectGroup.trusted_account_id x = Some trusted_account_id
     /\ ProjectGroup.last_synced_at x = Some (clock w))
  /\ (forall i, i <> oid project_group_vo ->
        project_groups w' !! i = project_groups w !! i).
Proof.
  intros Hq Hparent w'. subst w'.
  pose proof (create_project_group_update_run env domain_id workspace_id
                trusted_account_id location_info parent_group_id w
                project_group_vo rest Hq) as Hrun.
  cbv zeta in Hrun. rewrite Hrun, Hparent. cbn [fst project_groups set_project_groups].
  destruct (query_head _ _ _ _ Hq) as [Hstored _].
  split.
  - eexists. split.
    + apply list_lookup_insert_eq. eapply lookup_lt_Some. exact Hstored.
    + repeat split.
  - intros i Hi. apply list_lookup_insert_ne. auto.
Qed.

Lemma create_project_group_keeps_parent_witness :
  ProjectGroup.parent_group_id <$>
    project_groups
      (fst (_create_project_group sample_env "d" "workspace-0" "ta-1"
              (LocationNode.mk "group-b-renamed" "g1") None grouped_world)) !! 0
  = Some (Some "pg-9").
Proof.
  destruct (create_project_group_keeps_parent sample_env "d" "workspace-0" "ta-1"
              (LocationNode.mk "group-b-renamed" "g1") None grouped_world
              (VO 0 sample_group) [])
    as [(x & Hx & Hparent & _) _]; [vm_compute; reflexivity ..|].
  cbn [oid] in Hx. rewrite Hx. simpl. rewrite Hparent. reflexivity.
Defined.

(** X6. A location node is never given two groups: whatever
    [_create_project_group] did on a first call (created or updated), a
    later call for the same resource id in the same workspace, even
    under another name, parent or trusted account, updates the group the
    first call returned and adds none. *)
Theorem create_project_group_found_again (env : Env)
    (domain_id workspace_id trusted_account_id trusted_account_id' : string)
    (location_info location_info' : LocationNode.t)
    (parent_group_id parent_group_id' : option string) (w : World) :
  LocationNode.resource_id location_info' = LocationNode.resource_id location_info ->
  let first :=
    _create_project_group env domain_id workspace_id trusted_account_id
      location_info parent_group_id w in
  let second :=
    _create_project_group env domain_id workspace_id trusted_account_id'
      location_info' parent_group_id' (fst first) in
  exists v v',
    snd first = Return v
    /\ snd second = Return v'
    /\ oid v' = oid v
    /\ ProjectGroup.project_group_id (doc v') = ProjectGroup.project_group_id (doc v)
    /\ length (project_groups (fst second)) = length (project_groups (fst first)).
Proof.
  intros Href first second. subst first second.
  destruct (create_project_group_run env domain_id workspace_id trusted_account_id
              location_info parent_group_id w) as (v & l & rest & Hrun & Hq & _).
  rewrite Hrun. cbn [fst snd].
  rewrite <- Href in Hq.
  pose proof (create_project_group_update_run env domain_id workspace_id
                trusted_account_id' location_info' parent_group_id'
                (set_project_groups l w) v rest Hq) as Hrun'.
  cbv zeta in Hrun'. rewrite Hrun'. cbn [fst snd project_groups set_project_groups].
  eexists _, _. split; [reflexivity|]. split; [reflexivity|].
  repeat split. apply length_insert.
Qed.

Lemma create_project_group_found_again_witness :
  exists v v',
    snd (_create_project_group sample_env "d" "workspace-0" "ta-1"
           (LocationNode.mk "group-b" "g1") None empty_world) = Return v
    /\ snd (_create_project_group sample_env "d" "workspace-0" "ta-2"
              (LocationNode.mk "group-b-renamed" "g1") (Some "pg-7")
              (fst (_create_project_group sample_env "d" "workspace-0" "ta-1"
                      (LocationNode.mk "group-b" "g1") None empty_world)))
       = Return v'
    /\ oid v' = oid v
    /\ ProjectGroup.project_group_id (doc v') = ProjectGroup.project_group_id (doc v)
    /\ length
         (project_groups
            (fst (_create_project_group sample_env "d" "workspace-0" "ta-2"
                    (LocationNode.mk "group-b-renamed" "g1") (Some "pg-7")
                    (fst (_create_project_group sample_env "d" "workspace-0" "ta-1"
                            (LocationNode.mk "group-b" "g1") None empty_world)))))
       = length
           (project_groups
              (fst (_create_project_group sample_env "d" "workspace-0" "ta-1"
                      (LocationNode.mk "group-b" "g1") None empty_world))).
Proof.
  apply (create_project_group_found_again sample_env "d" "workspace-0" "ta-1" "ta-2"
           (LocationNode.mk "group-b" "g1") (LocationNode.mk "group-b-renamed" "g1")
           None (Some "pg-7") empty_world).
  reflexivity.
Defined.

(** *** Projects *)

Lemma project_filter_spec (d ws ty ref : string) (x : Project.t) :
  Project.matches (_project_filter d ws ty ref) x = true
  <-> Project.domain_id x = d /\ Project.workspace_id x = ws
      /\ Project.project_type x = ty /\ Project.reference_id x = Some ref
      /\ Project.is_managed x = true.
Proof.
  change (Project.matches _ x)
    with (true
          && bool_decide (VStr d = VStr (Project.domain_id x))
          && bool_decide (VStr ws = VStr (Project.workspace_id x))
          && bool_decide (VStr ty = VStr (Project.project_type x))
          && bool_decide (VStr ref = of_opt (Project.reference_id x))
          && bool_decide (VBool true = VBool (Project.is_managed x))).
  rewrite !andb_true_iff, !bool_decide_eq_true.
  destruct (Project.reference_id x); simpl; split.
  - intros (((((_ & [= <-]) & [= <-]) & [= <-]) & [= <-]) & [= <-]).
    repeat split; reflexivity.
  - intros (<- & <- & <- & [= <-] & ->). repeat split; reflexivity.
  - intros (((((_ & _) & _) & _) & ?) & _). discriminate.
  - intros (_ & _ & _ & ? & _). discriminate.
Qed.

(** The update branch of [_create_project]. *)
Lemma create_project_update_run (env : Env) (result : Result.t)
    (d ws ta : string) (group : option string) (so : SyncOptions.t) (ty : string)
    (w : World) (v : vo Project.t) (rest : list (vo Project.t)) :
  query (Project.matches (_project_filter d ws ty (Result.resource_id result)))
    (projects w) = v :: rest ->
  let stored :=
    Project.mk (Project.project_id (doc v)) (Result.name result)
      (Project.reference_id (doc v)) (Project.is_managed (doc v))
      (Project.project_type (doc v)) (Project.domain_id (doc v))
      (Project.workspace_id (doc v))
      (if Py.truthy group then group else Project.project_group_id (doc v))
      (Some ta) (Some (clock w)) in
  _create_project env result d ws ta group so ty w
  = (set_projects (<[oid v := stored]> (projects w)) w, Return (VO (oid v) stored)).
Proof.
  intros Hq stored. destruct (query_head _ _ _ _ Hq) as [Hstored Hv].
  apply project_filter_spec in Hv as (Hd & Hws & Hty & Href & Hm).
  unfold _create_project.
  unfold bind at 1. unfold ProjectManager.filter_projects at 1.
  rewrite Hq. cbv zeta.
  unfold bind, utcnow, ProjectManager.update_project_by_vo.
  match goal with
  | |- context [alter (Project.apply ?p) _ _] =>
      assert (Hp : Project.apply p (doc v) = stored)
  end.
  { subst stored. rewrite Hd, Hws, Hty, Href, Hm.
    destruct group as [group|]; simpl.
    - destruct (String.eqb group "") eqn:Hgroup,
        (String.eqb (Project.name (doc v)) (Result.name result)) eqn:Hname;
        simpl; try reflexivity;
        apply String.eqb_eq in Hname; unfold Project.apply; simpl;
        rewrite Hname; reflexivity.
    - destruct (String.eqb (Project.name (doc v)) (Result.name result))
        eqn:Hname; simpl; try reflexivity.
      apply String.eqb_eq in Hname. unfold Project.apply. simpl.
      rewrite Hname. reflexivity. }
  rewrite list_lookup_alter_eq, Hstored. simpl. rewrite Hp.
  f_equal. f_equal.
  apply list_eq. intros i. destruct (decide (i = oid v)) as [->|Hi].
  - rewrite list_lookup_alter_eq, Hstored. simpl. rewrite Hp.
    symmetry. apply list_lookup_insert_eq. eapply lookup_lt_Some. exact Hstored.
  - rewrite list_lookup_alter_ne, list_lookup_insert_ne by auto. reflexivity.
Qed.

(** X7. When no managed project of the workspace carries the record's
    resource id, [_create_project] appends one project and changes no
    other. The new project has the group it is given, if any, but no
    trusted account: [trusted_account_id] is only written when a later
    sync updates the project. *)
Theorem create_project_appends (env : Env) (result : Result.t)
    (domain_id workspace_id trusted_account_id : string)
    (project_group_id : option string) (sync_options : SyncOptions.t)
    (project_type : string) (w : World) :
  query
    (Project.matches
       (_project_filter domain_id workspace_id project_type
          (Result.resource_id result)))
    (projects w) = [] ->
  let n := length (projects w) in
  let x :=
    Project.mk (generate_id env "project" n) (Result.name result)
      (Some (Result.resource_id result)) true project_type domain_id workspace_id
      (if Py.truthy project_group_id then project_group_id else None)
      None (Some (clock w)) in
  _create_project env result domain_id workspace_id trusted_account_id
    project_group_id sync_options project_type w
  = (set_projects (projects w ++ [x]) w, Return (VO n x)).
Proof.
  intros Hq n x. unfold _create_project.
  unfold bind at 1. unfold ProjectManager.filter_projects at 1.
  rewrite Hq. cbv zeta.
  unfold bind, utcnow, ProjectManager.create_project. subst x n.
  destruct project_group_id as [g|]; simpl; [|reflexivity].
  destruct (String.eqb g ""); reflexivity.
Qed.

Lemma create_project_appends_witness :
  (Project.trusted_account_id <$>
     projects
       (fst (_create_project sample_env sample_result "d" "workspace-0" "ta-1"
               (Some "pg-1") (SyncOptions.mk false None) "PRIVATE" empty_world)))
  = [None].
Proof.
  rewrite (create_project_appends sample_env sample_result "d" "workspace-0" "ta-1"
             (Some "pg-1") (SyncOptions.mk false None) "PRIVATE" empty_world);
    vm_compute; reflexivity.
Defined.

(** X8. A project matched without a group (a record placed directly
    under its workspace) is renamed, re-stamped and given the trusted
    account, but keeps the group it had. No other project changes. *)
Theorem create_project_keeps_group (env : Env) (result : Result.t)
    (domain_id workspace_id trusted_account_id : string)
    (project_group_id : option string) (sync_options : SyncOptions.t)
    (project_type : string) (w : World)
    (project_vo : vo Project.t) (rest : list (vo Project.t)) :
  query
    (Project.matches
       (_project_filter domain_id workspace_id project_type
          (Result.resource_id result)))
    (projects w) = project_vo :: rest ->
  Py.truthy project_group_id = false ->
  let w' :=
    fst (_create_project env result domain_id workspace_id trusted_account_id
           project_group_id sync_options project_type w) in
  (exists x,
     projects w' !! oid project_vo = Some x
     /\ Project.project_group_id x = Project.project_group_id (doc project_vo)
     /\ Project.name x = Result.name result
     /\ Project.trusted_account_id x = Some trusted_account_id
     /\ Project.last_synced_at x = Some (clock w))
  /\ (forall i, i <> oid project_vo -> projects w' !! i = projects w !! i).
Proof.
  intros Hq Hgroup w'. subst w'.
  pose proof (create_project_update_run env result domain_id workspace_id
                trusted_account_id project_group_id sync_options project_type w
                project_vo rest Hq) as Hrun.
  cbv zeta in Hrun. rewrite Hrun, Hgroup. cbn [fst projects set_projects].
  destruct (query_head _ _ _ _ Hq) as [Hstored _].
  split.
  - eexists. split.
    + apply list_lookup_insert_eq. eapply lookup_lt_Some. exact Hstored.
    + repeat split.
  - intros i Hi. apply list_lookup_insert_ne. auto.
Qed.

Lemma create_project_keeps_group_witness :
  Project.project_group_id <$>
    projects
      (fst (_create_project sample_env renamed_result "d" "workspace-0" "ta-1"
              None (SyncOptions.mk false None) "PRIVATE" regrouped_world)) !! 0
  = Some (Some "pg-0").
Proof.
  destruct (create_project_keeps_group sample_env renamed_result "d" "workspace-0"
              "ta-1" None (SyncOptions.mk false None) "PRIVATE" regrouped_world
              (VO 0 grouped_project) [])
    as [(x & Hx & Hgroup & _) _]; [vm_compute; reflexivity ..|].
  cbn [oid] in Hx. rewrite Hx. simpl. rewrite Hgroup. reflexivity.
Defined.

(** Whichever branch it takes, [_create_project] returns a stored
    project that its own filter finds first from then on. *)
Lemma create_project_run (env : Env) (result : Result.t)
    (d ws ta : string) (group : option string) (so : SyncOptions.t) (ty : string)
    (w : World) :
  exists (v : vo Project.t) (l : list Project.t) (rest : list (vo Project.t)),
    _create_project env result d ws ta group so ty w
    = (set_projects l w, Return v)
    /\ query (Project.matches (_project_filter d ws ty (Result.resource_id result))) l
       = v :: rest
    /\ Project.domain_id (doc v) = d
    /\ Project.workspace_id (doc v) = ws
    /\ (query (Project.matches (_project_filter d ws ty (Result.resource_id result)))
          (projects w) = []
        -> l = projects w ++ [doc v])
    /\ (query (Project.matches (_project_filter d ws ty (Result.resource_id result)))
          (projects w) <> []
        -> length l = length (projects w)).
Proof.
  destruct (query _ (projects w)) as [|v rest] eqn:Hq.
  - unfold _create_project.
    unfold bind at 1. unfold ProjectManager.filter_projects at 1.
    rewrite Hq. cbv zeta.
    unfold bind, utcnow, ProjectManager.create_project.
    eexists _, _, _. split; [reflexivity|]. split.
    + apply query_first_appended; [exact Hq|].
      apply project_filter_spec.
      destruct (Py.truthy group); repeat split; reflexivity.
    + cbn [doc]. destruct (Py.truthy group); repeat split; congruence.
  - pose proof (create_project_update_run env result d ws ta group so ty w v rest Hq)
      as Hrun. cbv zeta in Hrun. rewrite Hrun.
    destruct (query_head _ _ _ _ Hq) as [Hstored Hv].
    apply project_filter_spec in Hv as (Hd & Hws & Hty & Hr & Hm).
    match goal with
    | |- context [Return (VO (oid v) ?s)] => set (stored := s)
    end.
    destruct (query_first_altered _ (fun _ => stored) (projects w) v rest Hq)
      as [rest' Hq'].
    { apply project_filter_spec. repeat split; assumption. }
    assert (Halter : alter (fun _ => stored) (oid v) (projects w)
                     = <[oid v := stored]> (projects w)).
    { apply list_eq. intros i. destruct (decide (i = oid v)) as [->|Hi].
      - rewrite list_lookup_alter_eq, Hstored. simpl.
        symmetry. apply list_lookup_insert_eq. eapply lookup_lt_Some. exact Hstored.
      - rewrite list_lookup_alter_ne, list_lookup_insert_ne by auto. reflexivity. }
    rewrite Halter in Hq'.
    eexists _, _, _. split; [reflexivity|]. split; [exact Hq'|].
    split; [exact Hd|]. split; [exact Hws|].
    split; [discriminate|]. intros _. apply length_insert.
Qed.

(** X9. A record is never given two projects: a later call of
    [_create_project] for the same resource id in the same workspace,
    even under another name, group or trusted account, updates the
    project the first call returned and adds none. *)
Theorem create_project_found_again (env : Env) (result result' : Result.t)
    (domain_id workspace_id trusted_account_id trusted_account_id' : string)
    (project_group_id project_group_id' : option string)
    (sync_options sync_options' : SyncOptions.t) (project_type : string)
    (w : World) :
  Result.resource_id result' = Result.resource_id result ->
  let first :=
    _create_project env result domain_id workspace_id trusted_account_id
      project_group_id sync_options project_type w in
  let second :=
    _create_project env result' domain_id workspace_id trusted_account_id'
      project_group_id' sync_options' project_type (fst first) in
  exists v v',
    snd first = Return v
    /\ snd second = Return v'
    /\ oid v' = oid v
    /\ Project.project_id (doc v') = Project.project_id (doc v)
    /\ length (projects (fst second)) = length (projects (fst first)).
Proof.
  intros Href first second. subst first second.
  destruct (create_project_run env result domain_id workspace_id trusted_account_id
              project_group_id sync_options project_type w)
    as (v & l & rest & Hrun & Hq & _).
  rewrite Hrun. cbn [fst snd].
  rewrite <- Href in Hq.
  pose proof (create_project_update_run env result' domain_id workspace_id
                trusted_account_id' project_group_id' sync_options' project_type
                (set_projects l w) v rest Hq) as Hrun'.
  cbv zeta in Hrun'. rewrite Hrun'. cbn [fst snd projects set_projects].
  eexists _, _. split; [reflexivity|]. split; [reflexivity|].
  repeat split. apply length_insert.
Qed.

Lemma create_project_found_again_witness :
  exists v v',
    snd (_create_project sample_env sample_result "d" "workspace-0" "ta-1" None
           (SyncOptions.mk false None) "PRIVATE" empty_world) = Return v
    /\ snd (_create_project sample_env renamed_result "d" "workspace-0" "ta-2"
              (Some "pg-7") (SyncOptions.mk false None) "PRIVATE"
              (fst (_create_project sample_env sample_result "d" "workspace-0"
                      "ta-1" None (SyncOptions.mk false None) "PRIVATE"
                      empty_world)))
       = Return v'
    /\ oid v' = oid v
    /\ Project.project_id (doc v') = Project.project_id (doc v)
    /\ length
         (projects
            (fst (_create_project sample_env renamed_result "d" "workspace-0" "ta-2"
                    (Some "pg-7") (SyncOptions.mk false None) "PRIVATE"
                    (fst (_create_project sample_env sample_result "d" "workspace-0"
                            "ta-1" None (SyncOptions.mk false None) "PRIVATE"
                            empty_world)))))
       = length
           (projects
              (fst (_create_project sample_env sample_result "d" "workspace-0"
                      "ta-1" None (SyncOptions.mk false None) "PRIVATE"
                      empty_world))).
Proof.
  apply (create_project_found_again sample_env sample_result renamed_result "d"
           "workspace-0" "ta-1" "ta-2" None (Some "pg-7")
           (SyncOptions.mk false None) (SyncOptions.mk false None) "PRIVATE"
           empty_world).
  reflexivity.
Defined.

(** *** Service accounts and their secrets *)

Lemma service_account_filter_spec (provider ref d ws project_id : string)
    (x : ServiceAccount.t) :
  ServiceAccount.matches (_service_account_filter provider ref d ws project_id) x
  = true
  <-> ServiceAccount.provider x = provider
      /\ ServiceAccount.reference_id x = Some ref
      /\ ServiceAccount.is_managed x = true
      /\ ServiceAccount.domain_id x = d
      /\ ServiceAccount.workspace_id x = ws
      /\ ServiceAccount.project_id x = project_id.
Proof.
  change (ServiceAccount.matches _ x)
    with (true
          && bool_decide (VStr provider = VStr (ServiceAccount.provider x))
          && bool_decide (VStr ref = of_opt (ServiceAccount.reference_id x))
          && bool_decide (VBool true = VBool (ServiceAccount.is_managed x))
          && bool_decide (VStr d = VStr (ServiceAccount.domain_id x))
          && bool_decide (VStr ws = VStr (ServiceAccount.workspace_id x))
          && bool_decide (VStr project_id = VStr (ServiceAccount.project_id x))).
  rewrite !andb_true_iff, !bool_decide_eq_true.
  destruct (ServiceAccount.reference_id x); simpl; split.
  - intros ((((((_ & [= <-]) & [= <-]) & [= <-]) & [= <-]) & [= <-]) & [= <-]).
    repeat split; reflexivity.
  - intros (<- & [= <-] & -> & <- & <- & <-). repeat split; reflexivity.
  - intros ((((((_ & _) & ?) & _) & _) & _) & _). discriminate.
  - intros (_ & ? & _). discriminate.
Qed.

Lemma update_service_account_frames_key {K} (k : ServiceAccount.t -> K)
    (g : World -> list K) (p : params) (v : vo ServiceAccount.t) :
  (forall w, g w = k <$> service_accounts w) ->
  (forall x, k (ServiceAccount.apply p x) = k x) ->
  frames g (ServiceAccountManager.update_service_account_by_vo p v).
Proof.
  intros Hg Hk w. rewrite !Hg. simpl. apply fmap_alter_key. exact Hk.
Qed.

(** The update branch of [_create_service_account]. *)
Lemma create_service_account_update_run (env : Env) (result : Result.t)
    (project_vo : vo Project.t) (ta : string) (ts : option string)
    (provider : string) (so : SyncOptions.t) (w : World)
    (v : vo ServiceAccount.t) (rest : list (vo ServiceAccount.t)) :
  query
    (ServiceAccount.matches
       (_service_account_filter provider (Result.resource_id result)
          (Project.domain_id (doc project_vo))
          (Project.workspace_id (doc project_vo))
          (Project.project_id (doc project_vo))))
    (service_accounts w) = v :: rest ->
  _create_service_account env result project_vo ta ts provider so w
  = secret_step env result project_vo ts
      (VO (oid v) (ServiceAccount.synced ta (clock w) (doc v)))
      (set_service_accounts
         (alter (ServiceAccount.synced ta (clock w)) (oid v) (service_accounts w)) w).
Proof.
  intros Hq. destruct (query_head _ _ _ _ Hq) as [Hstored _].
  unfold _create_service_account. cbv zeta.
  unfold bind at 1. unfold ServiceAccountManager.filter_service_accounts at 1.
  rewrite Hq.
  unfold bind at 1. unfold bind at 1. unfold utcnow at 1.
  unfold ServiceAccountManager.update_service_account_by_vo at 1.
  assert (Hp : forall x,
            ServiceAccount.apply
              (_create_service_account_update_params result v ta (clock w)) x
            = ServiceAccount.synced ta (clock w) x)
    by (intros x; destruct x; reflexivity).
  rewrite list_lookup_alter_eq, Hstored. simpl default. rewrite Hp.
  replace (alter (ServiceAccount.apply
                    (_create_service_account_update_params result v ta (clock w)))
             (oid v) (service_accounts w))
    with (alter (ServiceAccount.synced ta (clock w)) (oid v) (service_accounts w))
    by (apply list_alter_ext; [intros x _; symmetry; apply Hp|reflexivity]).
  reflexivity.
Qed.

(** The create branch of [_create_service_account]. *)
Lemma create_service_account_create_run (env : Env) (result : Result.t)
    (project_vo : vo Project.t) (ta : string) (ts : option string)
    (provider : string) (so : SyncOptions.t) (w : World) :
  query
    (ServiceAccount.matches
       (_service_account_filter provider (Result.resource_id result)
          (Project.domain_id (doc project_vo))
          (Project.workspace_id (doc project_vo))
          (Project.project_id (doc project_vo))))
    (service_accounts w) = [] ->
  let n := length (service_accounts w) in
  let x :=
    ServiceAccount.mk (generate_id env "sa" n) (Result.name result)
      (Result.data result) provider (Some (Result.resource_id result)) true
      (Project.domain_id (doc project_vo)) (Project.workspace_id (doc project_vo))
      (Project.project_id (doc project_vo)) (Some ta) (Result.tags result)
      (if Py.truthy (Result.secret_schema_id result)
       then Result.secret_schema_id result else None)
      None None in
  _create_service_account env result project_vo ta ts provider so w
  = secret_step env result project_vo ts (VO n x)
      (set_service_accounts (service_accounts w ++ [x]) w).
Proof.
  intros Hq n x.
  unfold _create_service_account. cbv zeta.
  unfold bind at 1. unfold ServiceAccountManager.filter_service_accounts at 1.
  rewrite Hq.
  unfold bind at 1. unfold ServiceAccountManager.create_service_account at 1.
  match goal with
  | |- context [ServiceAccount.apply ?p ?b] =>
      assert (Hx : ServiceAccount.apply p b = x);
        [|rewrite Hx; reflexivity]
  end.
  subst x n.
  destruct (Result.secret_schema_id result) as [s|]; [|reflexivity].
  unfold Py.truthy. destruct (String.eqb s ""); reflexivity.
Qed.

(** X10. For a record without secret material [_create_service_account]
    returns exactly the account it has stored: the first account its
    filter finds, with the trusted account id and the sync stamp renewed
    and nothing else changed, or, when the filter finds none, the account
    it appends for the record. The vault is left as it was, none of its
    answers enters the result, and no stored secret id changes (a created
    account has none). *)
Theorem create_service_account_without_secret (env : Env) (result : Result.t)
    (project_vo : vo Project.t) (trusted_account_id : string)
    (trusted_secret_id : option string) (provider : string)
    (sync_options : SyncOptions.t) (w : World) :
  Py.truthy_dict (Result.secret_data result) = false ->
  let run :=
    _create_service_account env result project_vo trusted_account_id
      trusted_secret_id provider sync_options w in
  let found :=
    query
      (ServiceAccount.matches
         (_service_account_filter provider (Result.resource_id result)
            (Project.domain_id (doc project_vo))
            (Project.workspace_id (doc project_vo))
            (Project.project_id (doc project_vo))))
      (service_accounts w) in
  let n := length (service_accounts w) in
  let created :=
    ServiceAccount.mk (generate_id env "sa" n) (Result.name result)
      (Result.data result) provider (Some (Result.resource_id result)) true
      (Project.domain_id (doc project_vo)) (Project.workspace_id (doc project_vo))
      (Project.project_id (doc project_vo)) (Some trusted_account_id)
      (Result.tags result)
      (if Py.truthy (Result.secret_schema_id result)
       then Result.secret_schema_id result else None)
      None None in
  run
  = match found with
    | service_account_vo :: _ =>
        (set_service_accounts
           (alter (ServiceAccount.synced trusted_account_id (clock w))
              (oid service_account_vo) (service_accounts w)) w,
         Return (VO (oid service_account_vo)
                   (ServiceAccount.synced trusted_account_id (clock w)
                      (doc service_account_vo))))
    | [] =>
        (set_service_accounts (service_accounts w ++ [created]) w,
         Return (VO n created))
    end
  /\ vault (fst run) = vault w
  /\ (service_account_secrets (fst run) = service_account_secrets w
      \/ service_account_secrets (fst run) = service_account_secrets w ++ [None]).
Proof.
  intros Hnone run found n created. subst run found n created.
  destruct (query
              (ServiceAccount.matches
                 (_service_account_filter provider (Result.resource_id result)
                    (Project.domain_id (doc project_vo))
                    (Project.workspace_id (doc project_vo))
                    (Project.project_id (doc project_vo))))
              (service_accounts w)) as [|v rest] eqn:Hq.
  - pose proof (create_service_account_create_run env result project_vo
                  trusted_account_id trusted_secret_id provider sync_options w Hq)
      as Hrun. cbv zeta in Hrun. rewrite Hrun.
    unfold secret_step. cbv zeta. rewrite Hnone.
    split; [reflexivity|]. split; [reflexivity|]. right.
    unfold service_account_secrets, ret.
    cbn [fst service_accounts set_service_accounts].
    rewrite fmap_app. reflexivity.
  - rewrite (create_service_account_update_run env result project_vo
               trusted_account_id trusted_secret_id provider sync_options w v rest Hq).
    unfold secret_step. cbv zeta. rewrite Hnone.
    split; [reflexivity|]. split; [reflexivity|]. left.
    unfold service_account_secrets, ret.
    cbn [fst service_accounts set_service_accounts].
    apply fmap_alter_key. intros x. reflexivity.
Qed.

Lemma create_service_account_without_secret_witness :
  _create_service_account sample_env renamed_result (VO 0 sample_project)
    "ta-2" (Some "ts-1") "aws" (SyncOptions.mk false None) keyed_world
  = (set_service_accounts
       [ServiceAccount.synced "ta-2" 1000000000 keyed_service_account] keyed_world,
     Return (VO 0 (ServiceAccount.synced "ta-2" 1000000000 keyed_service_account)))
  /\ vault
       (fst (_create_service_account sample_env renamed_result (VO 0 sample_project)
               "ta-2" (Some "ts-1") "aws" (SyncOptions.mk false None) keyed_world))
     = []
  /\ service_account_secrets
       (fst (_create_service_account sample_env renamed_result (VO 0 sample_project)
               "ta-2" (Some "ts-1") "aws" (SyncOptions.mk false None) keyed_world))
     = [Some "secret-0"].
Proof.
  destruct (create_service_account_without_secret sample_env renamed_result
              (VO 0 sample_project) "ta-2" (Some "ts-1") "aws"
              (SyncOptions.mk false None) keyed_world)
    as (Hrun & Hvault & Hsecrets); [vm_compute; reflexivity|].
  split; [|split; [exact Hvault|]].
  - etransitivity; [exact Hrun|]. vm_compute. reflexivity.
  - destruct Hsecrets as [Hsame|Hgrown]; [exact Hsame|].
    apply (f_equal length) in Hgrown. vm_compute in Hgrown. discriminate.
Defined.

(** X11. The old secret is deleted before the new material is checked:
    when a matched account has a secret and the record's secret data
    fails the schema check, [_create_service_account] raises after the
    vault was asked to delete the old secret and before any secret is
    created; the account still refers to the deleted secret. *)
Theorem create_service_account_rejected_secret (env : Env) (result : Result.t)
    (project_vo : vo Project.t) (trusted_account_id : string)
    (trusted_secret_id : option string) (provider : string)
    (sync_options : SyncOptions.t) (w : World)
    (service_account_vo : vo ServiceAccount.t) (rest : list (vo ServiceAccount.t))
    (secret_id : string) (e : exn) :
  query
    (ServiceAccount.matches
       (_service_account_filter provider (Result.resource_id result)
          (Project.domain_id (doc project_vo))
          (Project.workspace_id (doc project_vo))
          (Project.project_id (doc project_vo))))
    (service_accounts w) = service_account_vo :: rest ->
  ServiceAccount.secret_id (doc service_account_vo) = Some secret_id ->
  Py.truthy (Some secret_id) = true ->
  Py.truthy_dict (Result.secret_data result) = true ->
  delete_secret env secret_id (Project.domain_id (doc project_vo)) = None ->
  validate_secret_data_by_schema_id env (Result.secret_schema_id result)
    (ServiceAccount.domain_id (doc service_account_vo))
    (Result.secret_data result) "TRUSTING_SECRET" = Some e ->
  let run :=
    _create_service_account env result project_vo trusted_account_id
      trusted_secret_id provider sync_options w in
  snd run = Raise e
  /\ vault (fst run)
     = vault w ++ [DeleteSecret secret_id (Project.domain_id (doc project_vo))]
  /\ service_account_secrets (fst run) = service_account_secrets w
  /\ service_account_secrets w !! oid service_account_vo = Some (Some secret_id).
Proof.
  intros Hq Hold Htruthy Hdata Hdelete Hcheck run. subst run.
  destruct (query_head _ _ _ _ Hq) as [Hstored _].
  rewrite (create_service_account_update_run env result project_vo
             trusted_account_id trusted_secret_id provider sync_options w
             service_account_vo rest Hq).
  unfold secret_step. cbv zeta. rewrite Hdata. cbn [doc ServiceAccount.synced
    ServiceAccount.secret_id ServiceAccount.domain_id]. rewrite Hold, Htruthy.
  rewrite Hcheck. unfold bind, SecretManager.delete_secret, check.
  rewrite Hdelete. cbn [fst snd vault set_vault set_service_accounts].
  split; [reflexivity|]. split; [reflexivity|]. split.
  - unfold service_account_secrets. cbn [service_accounts].
    apply fmap_alter_key. intros x. reflexivity.
  - unfold service_account_secrets. rewrite list_lookup_fmap, Hstored.
    simpl. rewrite Hold. reflexivity.
Qed.

Lemma create_service_account_rejected_secret_witness :
  snd (_create_service_account strict_env sample_result (VO 0 sample_project)
         "ta-1" (Some "ts-1") "aws" (SyncOptions.mk false None) keyed_world)
  = Raise (ERROR_EXTERNAL "schema mismatch")
  /\ vault
       (fst (_create_service_account strict_env sample_result (VO 0 sample_project)
               "ta-1" (Some "ts-1") "aws" (SyncOptions.mk false None) keyed_world))
     = [DeleteSecret "secret-0" "d"]
  /\ service_account_secrets
       (fst (_create_service_account strict_env sample_result (VO 0 sample_project)
               "ta-1" (Some "ts-1") "aws" (SyncOptions.mk false None) keyed_world))
     = [Some "secret-0"].
Proof.
  destruct (create_service_account_rejected_secret strict_env sample_result
              (VO 0 sample_project) "ta-1" (Some "ts-1") "aws"
              (SyncOptions.mk false None) keyed_world
              (VO 0 keyed_service_account) [] "secret-0"
              (ERROR_EXTERNAL "schema mismatch"))
    as (Hraise & Hvault & Hsecrets & _); [vm_compute; reflexivity ..|].
  split; [exact Hraise|]. split; [exact Hvault|]. exact Hsecrets.
Defined.

(** X12. When the vault and the schema check accept, the secret of a
    matched account is rotated in this order: the old secret, if the
    account has one, is deleted; a secret holding the record's secret
    data is created for the account; the account then refers to the
    secret the vault returned. *)
Theorem create_service_account_rotates_secret (env : Env) (result : Result.t)
    (project_vo : vo Project.t) (trusted_account_id : string)
    (trusted_secret_id : option string) (provider : string)
    (sync_options : SyncOptions.t) (w : World)
    (service_account_vo : vo ServiceAccount.t) (rest : list (vo ServiceAccount.t))
    (new_secret_id : string) :
  let domain_id := Project.domain_id (doc project_vo) in
  query
    (ServiceAccount.matches
       (_service_account_filter provider (Result.resource_id result) domain_id
          (Project.workspace_id (doc project_vo))
          (Project.project_id (doc project_vo))))
    (service_accounts w) = service_account_vo :: rest ->
  Py.truthy_dict (Result.secret_data result) = true ->
  (forall s, delete_secret env s domain_id = None) ->
  validate_secret_data_by_schema_id env (Result.secret_schema_id result)
    (ServiceAccount.domain_id (doc service_account_vo))
    (Result.secret_data result) "TRUSTING_SECRET" = None ->
  (forall p, create_secret env p domain_id = Return new_secret_id) ->
  let run :=
    _create_service_account env result project_vo trusted_account_id
      trusted_secret_id provider sync_options w in
  let deleted :=
    match ServiceAccount.secret_id (doc service_account_vo) with
    | Some old => if Py.truthy (Some old) then [DeleteSecret old domain_id] else []
    | None => []
    end in
  (exists v,
     snd run = Return v /\ oid v = oid service_account_vo
     /\ ServiceAccount.secret_id (doc v) = Some new_secret_id)
  /\ (exists p,
        vault (fst run) = vault w ++ deleted ++ [CreateSecret p domain_id]
        /\ p !! "data" = Some (VDict (Result.secret_data result))
        /\ p !! "service_account_id"
           = Some (VStr (ServiceAccount.service_account_id (doc service_account_vo)))
        /\ p !! "trusted_secret_id" = Some (of_opt trusted_secret_id))
  /\ service_account_secrets (fst run)
     = <[oid service_account_vo := Some new_secret_id]> (service_account_secrets w).
Proof.
  intros domain_id Hq Hdata Hdelete Hcheck Hcreate run deleted. subst run deleted.
  destruct (query_head _ _ _ _ Hq) as [Hstored _].
  rewrite (create_service_account_update_run env result project_vo
             trusted_account_id trusted_secret_id provider sync_options w
             service_account_vo rest Hq).
  unfold secret_step. cbv zeta. rewrite Hdata. cbn [doc ServiceAccount.synced
    ServiceAccount.secret_id ServiceAccount.domain_id ServiceAccount.service_account_id].
  rewrite Hcheck. fold domain_id.
  assert (Hsecrets : forall vlt,
            ServiceAccount.secret_id <$>
              alter (ServiceAccount.apply (update "secret_id" (VStr new_secret_id) ∅))
                (oid service_account_vo)
                (service_accounts
                   (set_vault vlt
                      (set_service_accounts
                         (alter (ServiceAccount.synced trusted_account_id (clock w))
                            (oid service_account_vo) (service_accounts w)) w)))
            = <[oid service_account_vo := Some new_secret_id]>
                (service_account_secrets w)).
  { intros vlt. cbn [service_accounts set_vault set_service_accounts].
    unfold service_account_secrets.
    apply list_eq. intros i.
    destruct (decide (i = oid service_account_vo)) as [->|Hi].
    - rewrite list_lookup_fmap, !list_lookup_alter_eq, Hstored.
      rewrite list_lookup_insert_eq; [reflexivity|].
      rewrite length_fmap. eapply lookup_lt_Some. exact Hstored.
    - rewrite list_lookup_fmap, !list_lookup_alter_ne by auto.
      rewrite list_lookup_insert_ne, list_lookup_fmap by auto. reflexivity. }
  unfold bind, SecretManager.delete_secret, SecretManager.create_secret, check,
    ServiceAccountManager.update_service_account_by_vo, ret.
  destruct (ServiceAccount.secret_id (doc service_account_vo)) as [old|] eqn:Hold;
    [destruct (Py.truthy (Some old)); [rewrite Hdelete|]|];
    rewrite Hcreate;
    cbn [fst snd oid doc vault service_accounts set_vault set_service_accounts];
    (split; [eexists; split; [reflexivity|]; split; [reflexivity|];
             rewrite !list_lookup_alter_eq, Hstored; reflexivity|]);
    (split; [eexists; split; [rewrite <- ?app_assoc; reflexivity|];
             repeat split; reflexivity|]);
    apply (Hsecrets []).
Qed.

Lemma create_service_account_rotates_secret_witness :
  vault
    (fst (_create_service_account sample_env sample_result (VO 0 sample_project)
            "ta-1" (Some "ts-1") "aws" (SyncOptions.mk false None) keyed_world))
  <> []
  /\ service_account_secrets
       (fst (_create_service_account sample_env sample_result (VO 0 sample_project)
               "ta-1" (Some "ts-1") "aws" (SyncOptions.mk false None) keyed_world))
     = [Some "secret-1"].
Proof.
  destruct (create_service_account_rotates_secret sample_env sample_result
              (VO 0 sample_project) "ta-1" (Some "ts-1") "aws"
              (SyncOptions.mk false None) keyed_world
              (VO 0 keyed_service_account) [] "secret-1")
    as (_ & (p & Hvault & _) & Hsecrets);
    [first [vm_compute; reflexivity | intros; reflexivity] ..|].
  split; [|exact Hsecrets].
  rewrite Hvault. simpl. discriminate.
Defined.

Lemma secret_step_frames_key {K} (k : ServiceAccount.t -> K) env result project_vo
    ts v :
  (forall s x,
     k (ServiceAccount.apply (update "secret_id" (VStr s) ∅) x) = k x) ->
  frames (fun w => k <$> service_accounts w)
    (secret_step env result project_vo ts v).
Proof.
  intros Hk. unfold secret_step. cbv zeta.
  repeat first
    [ apply (update_service_account_frames_key k);
      [reflexivity|intros x; apply Hk]
    | frames_step ].
Qed.

(** Once its filter finds an account, [_create_service_account] only
    rewrites accounts in place, whether it returns or raises. *)
Lemma create_service_account_update_keeps {K} (k : ServiceAccount.t -> K)
    (env : Env) (result : Result.t) (project_vo : vo Project.t) (ta : string)
    (ts : option string) (provider : string) (so : SyncOptions.t) (w : World) :
  (forall s x,
     k (ServiceAccount.apply (update "secret_id" (VStr s) ∅) x) = k x) ->
  (forall t now x, k (ServiceAccount.synced t now x) = k x) ->
  query
    (ServiceAccount.matches
       (_service_account_filter provider (Result.resource_id result)
          (Project.domain_id (doc project_vo))
          (Project.workspace_id (doc project_vo))
          (Project.project_id (doc project_vo))))
    (service_accounts w) <> [] ->
  k <$> service_accounts
          (fst (_create_service_account env result project_vo ta ts provider so w))
  = k <$> service_accounts w.
Proof.
  intros Hsecret Hsynced Hq.
  destruct (query _ (service_accounts w)) as [|v rest] eqn:Hq'; [congruence|].
  rewrite (create_service_account_update_run env result project_vo ta ts provider
             so w v rest Hq').
  rewrite (secret_step_frames_key k env result project_vo ts _ Hsecret).
  cbn [service_accounts set_service_accounts].
  apply fmap_alter_key. intros x. apply Hsynced.
Qed.

(** Whichever branch it takes and whether its secret step returns or
    raises, [_create_service_account] leaves an account that its own
    filter finds. *)
Lemma create_service_account_leaves_match (env : Env) (result : Result.t)
    (project_vo : vo Project.t) (ta : string) (ts : option string)
    (provider : string) (so : SyncOptions.t) (w : World) :
  query
    (ServiceAccount.matches
       (_service_account_filter provider (Result.resource_id result)
          (Project.domain_id (doc project_vo))
          (Project.workspace_id (doc project_vo))
          (Project.project_id (doc project_vo))))
    (service_accounts
       (fst (_create_service_account env result project_vo ta ts provider so w)))
  <> [].
Proof.
  set (q := ServiceAccount.matches _).
  assert (Hflags : forall l' l : list ServiceAccount.t,
            q <$> l' = q <$> l -> query q l <> [] -> query q l' <> []).
  { intros l' l Hsame Hl Hl'. apply Hl.
    pose proof (query_same_flags q l l' Hsame) as Hoids.
    rewrite Hl' in Hoids. destruct (query q l); [reflexivity|discriminate]. }
  destruct (query q (service_accounts w)) as [|v rest] eqn:Hq.
  - pose proof (create_service_account_create_run env result project_vo ta ts
                  provider so w Hq) as Hrun.
    cbv zeta in Hrun. rewrite Hrun.
    match type of Hrun with
    | _ = secret_step _ _ _ _ (VO ?n ?x) _ =>
        apply (Hflags _ (service_accounts w ++ [x]))
    end.
    + rewrite (secret_step_frames_key q env result project_vo ts _
                 ltac:(intros; reflexivity)).
      reflexivity.
    + rewrite query_snoc, Hq.
      match goal with
      | |- context [if q ?x then _ else _] =>
          assert (Hx : q x = true)
            by (apply service_account_filter_spec; repeat split; reflexivity);
            rewrite Hx
      end.
      discriminate.
  - apply (Hflags _ (service_accounts w)).
    + apply (create_service_account_update_keeps q);
        [intros; reflexivity|intros; reflexivity|].
      fold q. rewrite Hq. discriminate.
    + rewrite Hq. discriminate.
Qed.

(** X13. A record is never given two service accounts, even when the
    secret step fails: after a first call of [_create_service_account],
    whether it returned or raised, a later call for the same provider,
    resource id and project adds no account and changes no account's id. *)
Theorem create_service_account_found_again (env : Env) (result result' : Result.t)
    (project_vo project_vo' : vo Project.t)
    (trusted_account_id trusted_account_id' : string)
    (trusted_secret_id trusted_secret_id' : option string) (provider : string)
    (sync_options sync_options' : SyncOptions.t) (w : World) :
  Result.resource_id result' = Result.resource_id result ->
  Project.domain_id (doc project_vo') = Project.domain_id (doc project_vo) ->
  Project.workspace_id (doc project_vo') = Project.workspace_id (doc project_vo) ->
  Project.project_id (doc project_vo') = Project.project_id (doc project_vo) ->
  let first :=
    _create_service_account env result project_vo trusted_account_id
      trusted_secret_id provider sync_options w in
  let second :=
    _create_service_account env result' project_vo' trusted_account_id'
      trusted_secret_id' provider sync_options' (fst first) in
  ServiceAccount.service_account_id <$> service_accounts (fst second)
  = ServiceAccount.service_account_id <$> service_accounts (fst first).
Proof.
  intros Href Hd Hws Hid first second. subst first second.
  apply (create_service_account_update_keeps ServiceAccount.service_account_id);
    [intros; reflexivity|intros; reflexivity|].
  rewrite Href, Hd, Hws, Hid.
  apply create_service_account_leaves_match.
Qed.

Lemma create_service_account_found_again_witness :
  ServiceAccount.service_account_id <$>
    service_accounts
      (fst (_create_service_account strict_env renamed_result (VO 0 sample_project)
              "ta-2" None "aws" (SyncOptions.mk false None)
              (fst (_create_service_account strict_env sample_result
                      (VO 0 sample_project) "ta-1" (Some "ts-1") "aws"
                      (SyncOptions.mk false None) empty_world))))
  = ["sa-0"].
Proof.
  rewrite (create_service_account_found_again strict_env sample_result
             renamed_result (VO 0 sample_project) (VO 0 sample_project)
             "ta-1" "ta-2" (Some "ts-1") None "aws" (SyncOptions.mk false None)
             (SyncOptions.mk false None) empty_world);
    vm_compute; reflexivity.
Defined.

(** *** Workspaces *)

Lemma workspace_filter_spec (d name : string) (x : Workspace.t) :
  Workspace.matches (update "name" (VStr name) (update "domain_id" (VStr d) ∅)) x
  = true
  <-> Workspace.name x = name /\ Workspace.domain_id x = d.
Proof.
  change (Workspace.matches _ x)
    with (true
          && bool_decide (VStr name = VStr (Workspace.name x))
          && bool_decide (VStr d = VStr (Workspace.domain_id x))
          && true && true).
  rewrite !andb_true_iff, !bool_decide_eq_true. split.
  - intros ((((_ & [= <-]) & [= <-]) & _) & _). split; reflexivity.
  - intros (<- & <-). repeat split; reflexivity.
Qed.

Lemma update_workspace_frames_key {K} (k : Workspace.t -> K) (p : params)
    (v : vo Workspace.t) :
  (forall x, k (Workspace.apply p x) = k x) ->
  frames (fun w => k <$> workspaces w) (WorkspaceManager.update_workspace_by_vo p v).
Proof. intros Hk w. simpl. apply fmap_alter_key. exact Hk. Qed.

Ltac workspace_keeps k :=
  repeat first
    [ apply (update_workspace_frames_key k); intros ?;
      repeat match goal with
             | |- context [if ?c then _ else _] => destruct c
             end; reflexivity
    | frames_step ].

(** Once its filter finds a workspace, [_create_workspace] only rewrites
    workspaces in place, and changes neither their ids, nor their
    domains, nor, the match being by name, their names. *)
Lemma create_workspace_update_keeps (env : Env) (d ta : string)
    (node : LocationNode.t) (w : World) :
  query
    (Workspace.matches
       (update "name" (VStr (LocationNode.name node))
          (update "domain_id" (VStr d) ∅)))
    (workspaces w) <> [] ->
  (fun x => (Workspace.workspace_id x, Workspace.name x, Workspace.domain_id x))
    <$> workspaces (fst (_create_workspace env d ta node w))
  = (fun x => (Workspace.workspace_id x, Workspace.name x, Workspace.domain_id x))
      <$> workspaces w.
Proof.
  intros Hq.
  destruct (query _ (workspaces w)) as [|v rest] eqn:Hq'; [congruence|].
  destruct (query_head _ _ _ _ Hq') as [_ Hv].
  apply workspace_filter_spec in Hv as [Hname _].
  unfold _create_workspace. cbv zeta.
  unfold bind at 1. unfold WorkspaceManager.filter_workspaces at 1.
  rewrite Hq'. rewrite Hname, String.eqb_refl. cbn [negb].
  match goal with
  | |- ?f <$> workspaces (fst (?m w)) = _ =>
      refine ((_ : frames (fun w => f <$> workspaces w) m) w)
  end.
  unfold _remove_old_reference_id_from_workspace.
  workspace_keeps
    (fun x => (Workspace.workspace_id x, Workspace.name x, Workspace.domain_id x)).
Qed.

(** Whichever branch it takes, [_create_workspace] leaves a workspace
    that its own filter finds. *)
Lemma create_workspace_leaves_match (env : Env) (d ta : string)
    (node : LocationNode.t) (w : World) :
  query
    (Workspace.matches
       (update "name" (VStr (LocationNode.name node))
          (update "domain_id" (VStr d) ∅)))
    (workspaces (fst (_create_workspace env d ta node w))) <> [].
Proof.
  set (q := Workspace.matches _).
  destruct (query q (workspaces w)) as [|v rest] eqn:Hq.
  - unfold _create_workspace.
    unfold bind at 1. unfold WorkspaceManager.filter_workspaces at 1.
    fold q. rewrite Hq. cbv zeta.
    unfold bind, utcnow, WorkspaceManager.create_workspace.
    cbn [fst workspaces set_workspaces].
    rewrite query_snoc. fold q. rewrite Hq.
    match goal with
    | |- context [if q ?x then _ else _] =>
        assert (Hx : q x = true)
          by (apply workspace_filter_spec; split; reflexivity);
          rewrite Hx
    end.
    discriminate.
  - assert (Hkeys := create_workspace_update_keeps env d ta node w).
    fold q in Hkeys. rewrite Hq in Hkeys. specialize (Hkeys ltac:(discriminate)).
    assert (Hflags : q <$> workspaces (fst (_create_workspace env d ta node w))
                     = q <$> workspaces w).
    { apply (f_equal (fmap (fun key : string * string * string =>
                              true
                              && bool_decide (VStr (LocationNode.name node)
                                              = VStr key.1.2)
                              && bool_decide (VStr d = VStr key.2)
                              && true && true))) in Hkeys.
      rewrite <- !list_fmap_compose in Hkeys. exact Hkeys. }
    intros Hnone.
    pose proof (query_same_flags q _ _ Hflags) as Hoids.
    rewrite Hnone, Hq in Hoids. discriminate.
Qed.

(** X14. A workspace name is never given two workspaces: after a first
    call of [_create_workspace], a later call for the same name in the
    same domain, whatever its resource id or trusted account, adds no
    workspace and changes no workspace's id, name or domain. *)
Theorem create_workspace_found_again (env : Env)
    (domain_id trusted_account_id trusted_account_id' : string)
    (location_info location_info' : LocationNode.t) (w : World) :
  LocationNode.name location_info' = LocationNode.name location_info ->
  let first := _create_workspace env domain_id trusted_account_id location_info w in
  let second :=
    _create_workspace env domain_id trusted_account_id' location_info' (fst first) in
  (fun x => (Workspace.workspace_id x, Workspace.name x, Workspace.domain_id x))
    <$> workspaces (fst second)
  = (fun x => (Workspace.workspace_id x, Workspace.name x, Workspace.domain_id x))
      <$> workspaces (fst first).
Proof.
  intros Hname first second. subst first second.
  apply create_workspace_update_keeps.
  rewrite Hname. apply create_workspace_leaves_match.
Qed.

Lemma create_workspace_found_again_witness :
  Workspace.workspace_id <$>
    workspaces
      (fst (_create_workspace sample_env "d" "ta-2" (LocationNode.mk "ws-a" "w7")
              (fst (_create_workspace sample_env "d" "ta-1"
                      (LocationNode.mk "ws-a" "w1") empty_world))))
  = ["workspace-0"].
Proof.
  pose proof (create_workspace_found_again sample_env "d" "ta-1" "ta-2"
                (LocationNode.mk "ws-a" "w1") (LocationNode.mk "ws-a" "w7")
                empty_world eq_refl) as Hsame.
  cbv zeta in Hsame.
  apply (f_equal (fmap (fun key : string * string * string => key.1.1))) in Hsame.
  rewrite <- !list_fmap_compose in Hsame.
  etransitivity; [exact Hsame|]. vm_compute. reflexivity.
Defined.

(** ** One plugin record *)

Lemma create_project_groups_frames_workspaces env d ws ta l parent :
  frames workspaces (_create_project_groups env d ws ta l parent).
Proof.
  revert parent. induction l as [|n l IH]; intros parent; simpl.
  - apply frames_ret.
  - apply frames_bind; [|intros v; apply IH].
    unfold _create_project_group. frames_auto.
Qed.

(** X15. A sync that is told its workspace never writes to the workspace
    collection: for a WORKSPACE-scoped trusted account, and for a
    DOMAIN-scoped one with [single_workspace_id] set, processing a record
    leaves every workspace as it was, whether it returns or raises. *)
Theorem sync_result_keeps_workspaces (env : Env)
    (trusted_account_vo : TrustedAccount.t) (workspace_id : option string)
    (domain_id trusted_account_id : string) (trusted_secret_id : option string)
    (provider : string) (sync_options : SyncOptions.t) (result : Result.t)
    (w : World) :
  TrustedAccount.resource_group trusted_account_vo = WORKSPACE
  \/ Py.truthy (SyncOptions.single_workspace_id sync_options) = true ->
  workspaces
    (fst (sync_result env trusted_account_vo workspace_id domain_id
            trusted_account_id trusted_secret_id provider sync_options result w))
  = workspaces w.
Proof.
  intros Hscope. frames_goal workspaces. unfold sync_result. cbv zeta.
  apply frames_bind.
  - destruct (TrustedAccount.resource_group trusted_account_vo) eqn:Hgroup.
    + destruct Hscope as [Hscope|Hsingle]; [discriminate|].
      destruct (SyncOptions.single_workspace_id sync_options) as [single|];
        [|discriminate].
      rewrite Hsingle. frames_auto.
    + frames_auto.
  - intros [[sync_workspace_id location]|]; [|apply frames_ret].
    apply frames_bind; [apply create_project_groups_frames_workspaces|intros parent].
    apply frames_bind; [unfold _create_project; frames_auto|intros project_vo].
    apply frames_bind; [unfold _create_service_account; frames_auto|intros sa].
    apply frames_ret.
Qed.

Lemma sync_result_keeps_workspaces_witness :
  workspaces
    (fst (sync_result sample_env sample_account None "d" "ta-1" (Some "ts-1") "aws"
            (SyncOptions.mk false (Some "workspace-1")) sample_result
            migrating_world))
  = [ws_a; ws_b].
Proof.
  rewrite (sync_result_keeps_workspaces sample_env sample_account None "d" "ta-1"
             (Some "ts-1") "aws" (SyncOptions.mk false (Some "workspace-1"))
             sample_result migrating_world); [reflexivity|].
  right. reflexivity.
Defined.

Lemma create_workspace_frames_project_groups env d ta n :
  frames project_groups (_create_workspace env d ta n).
Proof.
  unfold _create_workspace, _remove_old_reference_id_from_workspace. frames_auto.
Qed.

(** X16. With [skip_project_group] set, processing a record never writes
    to the project-group collection, for a WORKSPACE-scoped account and
    for a DOMAIN-scoped one without [single_workspace_id]: the only
    location node kept names the workspace, and the project is created
    or updated without a group. *)
Theorem sync_result_skips_project_groups (env : Env)
    (trusted_account_vo : TrustedAccount.t) (workspace_id : option string)
    (domain_id trusted_account_id : string) (trusted_secret_id : option string)
    (provider : string) (sync_options : SyncOptions.t) (result : Result.t)
    (w : World) :
  SyncOptions.skip_project_group sync_options = true ->
  TrustedAccount.resource_group trusted_account_vo = WORKSPACE
  \/ Py.truthy (SyncOptions.single_workspace_id sync_options) = false ->
  project_groups
    (fst (sync_result env trusted_account_vo workspace_id domain_id
            trusted_account_id trusted_secret_id provider sync_options result w))
  = project_groups w.
Proof.
  intros Hskip Hscope. frames_goal project_groups. unfold sync_result. cbv zeta.
  unfold _get_location. rewrite Hskip. cbv zeta.
  assert (Hrest : forall sync_workspace_id,
            frames project_groups
              (parent_group_id <-
                 _create_project_groups env domain_id sync_workspace_id
                   trusted_account_id [] None ;;
               project_vo <-
                 _create_project env result domain_id sync_workspace_id
                   trusted_account_id parent_group_id sync_options "PRIVATE" ;;
               _create_service_account env result project_vo trusted_account_id
                 trusted_secret_id provider sync_options ;;;
               ret tt)).
  { intros sync_workspace_id. simpl _create_project_groups.
    apply frames_bind; [apply frames_ret|intros parent].
    apply frames_bind; [unfold _create_project; frames_auto|intros project_vo].
    apply frames_bind; [unfold _create_service_account; frames_auto|intros sa].
    apply frames_ret. }
  destruct (TrustedAccount.resource_group trusted_account_vo) eqn:Hgroup.
  - destruct Hscope as [Hscope|Hsingle]; [discriminate|].
    assert (Hplaced :
              forall location_info,
                frames project_groups
                  (placed <-
                     (workspace_vo <-
                        _create_workspace env domain_id trusted_account_id
                          location_info ;;
                      ret (Some (Workspace.workspace_id (doc workspace_vo),
                                 @nil LocationNode.t))) ;;
                   match placed with
                   | None => ret tt
                   | Some (sync_workspace_id, location) =>
                       parent_group_id <-
                         _create_project_groups env domain_id sync_workspace_id
                           trusted_account_id location None ;;
                       project_vo <-
                         _create_project env result domain_id sync_workspace_id
                           trusted_account_id parent_group_id sync_options
                           "PRIVATE" ;;
                       _create_service_account env result project_vo
                         trusted_account_id trusted_secret_id provider
                         sync_options ;;;
                       ret tt
                   end)).
    { intros location_info. intros w0. unfold bind at 1. unfold bind at 1.
      pose proof (create_workspace_frames_project_groups env domain_id
                    trusted_account_id location_info w0) as Hws.
      destruct (_create_workspace env domain_id trusted_account_id location_info w0)
        as [w1 [workspace_vo|e]]; cbn [fst] in Hws; [|exact Hws].
      unfold ret at 1. etransitivity; [apply Hrest|exact Hws]. }
    destruct (default [] (Result.location result)) as [|first rest];
      destruct (SyncOptions.single_workspace_id sync_options) as [single|];
      try rewrite Hsingle;
      first [ apply Hplaced | intros w0; reflexivity ].
  - intros w0. unfold bind at 1. unfold ret at 1. apply Hrest.
Qed.

Lemma sync_result_skips_project_groups_witness :
  project_groups
    (fst (sync_result sample_env sample_account None "d" "ta-1" (Some "ts-1") "aws"
            skip_options sample_result empty_world))
  = [].
Proof.
  rewrite (sync_result_skips_project_groups sample_env sample_account None "d"
             "ta-1" (Some "ts-1") "aws" skip_options sample_result empty_world);
    [reflexivity|reflexivity|].
  right. reflexivity.
Defined.

(** ** Creating jobs *)

Lemma check_duplicate_job_loop_stops (env : Env) (thr : Z)
    (before : list (vo Job.t)) (v : vo Job.t) (after : list (vo Job.t)) (w : World) :
  fresh thr v = true ->
  snd (_check_duplicate_job_loop env thr (before ++ v :: after) w) = Return true
  /\ queue (fst (_check_duplicate_job_loop env thr (before ++ v :: after) w))
     = queue w
  /\ forall i, i ∉ oid <$> before ->
       jobs (fst (_check_duplicate_job_loop env thr (before ++ v :: after) w)) !! i
       = jobs w !! i.
Proof.
  intros Hfresh. revert w. induction before as [|u before IH]; intros w.
  - simpl. unfold fresh in Hfresh. rewrite Hfresh. repeat split.
  - simpl. destruct (Job.created_at (doc u) >? thr)%Z; [repeat split|].
    unfold bind at 1 2 3. unfold JobManager.change_canceled_by_vo.
    rewrite transition_total.
    destruct (IH (set_jobs
                    (alter (Ledger.change_canceled_by_vo (ledger env) (clock w))
                       (oid u) (jobs w)) w)) as (Hreturn & Hqueue & Hjobs).
    split; [exact Hreturn|]. split; [exact Hqueue|].
    intros i Hi. rewrite ?fmap_cons in Hi. apply not_elem_of_cons in Hi as [Hu Hi].
    rewrite (Hjobs i Hi). cbn [jobs set_jobs].
    apply list_lookup_alter_ne. auto.
Qed.

(** X18. The duplicate check stops at the first match created within the
    last ten minutes: it answers [True], and every job other than the
    matches listed before that one is left as it was. A stale job listed
    after a fresh one is therefore not canceled. *)
Theorem check_duplicate_job_stops_at_fresh (env : Env)
    (domain_id trusted_account_id : string) (this_job_vo : vo Job.t) (w : World)
    (before : list (vo Job.t)) (job_vo : vo Job.t) (after : list (vo Job.t)) :
  query
    (other_in_progress trusted_account_id (Job.workspace_id (doc this_job_vo))
       domain_id (Job.job_id (doc this_job_vo)))
    (jobs w) = before ++ job_vo :: after ->
  fresh (clock w - timedelta_minutes 10) job_vo = true ->
  let run := _check_duplicate_job env domain_id trusted_account_id this_job_vo w in
  snd run = Return true
  /\ queue (fst run) = queue w
  /\ forall i, i ∉ oid <$> before -> jobs (fst run) !! i = jobs w !! i.
Proof.
  intros Hmatches Hfresh run. subst run.
  assert (Hrun :
    _check_duplicate_job env domain_id trusted_account_id this_job_vo w
    = _check_duplicate_job_loop env (clock w - timedelta_minutes 10)
        (before ++ job_vo :: after) w).
  { unfold _check_duplicate_job.
    unfold bind at 1. unfold JobManager.list_jobs at 1. cbv iota beta. simpl fst.
    unfold bind at 1, utcnow at 1.
    erewrite query_ext by (intros x; apply duplicate_filter_spec).
    match goal with
    | |- context [query ?q (jobs w)] =>
        change (query q (jobs w))
          with (query
                  (other_in_progress trusted_account_id
                     (Job.workspace_id (doc this_job_vo)) domain_id
                     (Job.job_id (doc this_job_vo))) (jobs w))
    end.
    rewrite Hmatches. reflexivity. }
  rewrite Hrun. apply check_duplicate_job_loop_stops. exact Hfresh.
Qed.

Lemma check_duplicate_job_stops_at_fresh_witness :
  snd (_check_duplicate_job sample_env "d" "ta-1" (VO 2 pending_job) late_world)
  = Return true
  /\ jobs (fst (_check_duplicate_job sample_env "d" "ta-1" (VO 2 pending_job)
                  late_world)) !! 1
     = Some stale_job.
Proof.
  destruct (check_duplicate_job_stops_at_fresh sample_env "d" "ta-1"
              (VO 2 pending_job) late_world [] (VO 0 fresh_job) [VO 1 stale_job])
    as (Hreturn & _ & Hjobs); [vm_compute; reflexivity ..|].
  split; [exact Hreturn|].
  rewrite Hjobs; [reflexivity|]. simpl. apply not_elem_of_nil.
Defined.

(** The three calls before [create_job], when one of them fails. *)
Lemma create_service_account_job_stops_early (env : Env)
    (trusted_account_vo : TrustedAccount.t) (job_options : payload) (w : World) :
  reachable env w trusted_account_vo = false ->
  exists e,
    create_service_account_job env trusted_account_vo job_options w = (w, Raise e).
Proof.
  unfold reachable, create_service_account_job. cbv zeta. intros Hunreachable.
  unfold bind at 1.
  assert (Hworld : fst (ProviderManager.get_provider
                          (TrustedAccount.provider trusted_account_vo)
                          (TrustedAccount.domain_id trusted_account_vo) w) = w).
  { unfold ProviderManager.get_provider. destruct (List.filter _ _); reflexivity. }
  destruct (ProviderManager.get_provider _ _ w) as [w0 [provider_vo|e]];
    cbn [fst snd] in *; subst w0; [|eauto].
  unfold bind at 1. unfold external at 1.
  destruct (get_account_collector_plugin_endpoint_by_vo env provider_vo)
    as [endpoint|e]; [|eauto].
  unfold bind at 1. unfold check at 1.
  destruct (initialize env endpoint) as [e|]; [eauto|discriminate].
Qed.

(** X19. A job is only recorded once the plugin is known to be
    reachable: when the provider of the trusted account does not
    resolve, when its plugin endpoint cannot be obtained, or when the
    plugin fails to initialise, [create_service_account_job] raises that
    very exception and leaves the store as it was. *)
Theorem create_service_account_job_unreachable (env : Env)
    (trusted_account_vo : TrustedAccount.t) (job_options : payload) (w : World) :
  let provider := TrustedAccount.provider trusted_account_vo in
  let domain_id := TrustedAccount.domain_id trusted_account_vo in
  let run := create_service_account_job env trusted_account_vo job_options w in
  (forall e,
     ProviderManager.get_provider provider domain_id w = (w, Raise e) ->
     run = (w, Raise e))
  /\ (forall provider_vo e,
        ProviderManager.get_provider provider domain_id w = (w, Return provider_vo) ->
        get_account_collector_plugin_endpoint_by_vo env provider_vo = Raise e ->
        run = (w, Raise e))
  /\ (forall provider_vo endpoint e,
        ProviderManager.get_provider provider domain_id w = (w, Return provider_vo) ->
        get_account_collector_plugin_endpoint_by_vo env provider_vo
        = Return endpoint ->
        initialize env endpoint = Some e ->
        run = (w, Raise e)).
Proof.
  intros provider domain_id run. subst run provider domain_id.
  unfold create_service_account_job. cbv zeta.
  split; [|split].
  - intros e Hprovider. apply (bind_Raise _ _ _ _ _ Hprovider).
  - intros provider_vo e Hprovider Hendpoint.
    rewrite (bind_Return _ _ _ _ _ Hprovider), Hendpoint. reflexivity.
  - intros provider_vo endpoint e Hprovider Hendpoint Hinit.
    rewrite (bind_Return _ _ _ _ _ Hprovider), Hendpoint.
    unfold bind at 1. unfold external at 1.
    rewrite Hinit. reflexivity.
Qed.

Lemma create_service_account_job_unreachable_witness :
  create_service_account_job sample_env sample_account ∅ orphaned_world
  = (orphaned_world, Raise (ERROR_NOT_FOUND "provider" "aws")).
Proof.
  destruct (create_service_account_job_unreachable sample_env sample_account ∅
              orphaned_world) as (Hprovider & _ & _).
  apply Hprovider. vm_compute. reflexivity.
Defined.

(** ** The scheduler entry point *)

Lemma get_provider_world p d w : fst (ProviderManager.get_provider p d w) = w.
Proof. unfold ProviderManager.get_provider. destruct (List.filter _ _); reflexivity. Qed.

(** A reachable trusted account gets exactly one job. *)
Lemma create_service_account_job_reachable (env : Env) (ta : TrustedAccount.t)
    (options : payload) (w : World) :
  reachable env w ta = true ->
  (exists v, snd (create_service_account_job env ta options w) = Return v)
  /\ length (jobs (fst (create_service_account_job env ta options w)))
     = S (length (jobs w))
  /\ providers (fst (create_service_account_job env ta options w)) = providers w.
Proof.
  unfold reachable. intros Hreachable.
  pose proof (get_provider_world (TrustedAccount.provider ta)
                (TrustedAccount.domain_id ta) w) as Hworld.
  destruct (ProviderManager.get_provider _ _ w) as [w0 [pv|e]] eqn:Hprov;
    cbn [fst snd] in *; [subst w0|discriminate].
  destruct (get_account_collector_plugin_endpoint_by_vo env pv) as [endpoint|e]
    eqn:Hendpoint; [|discriminate].
  destruct (initialize env endpoint) eqn:Hinit; [discriminate|].
  destruct (create_service_account_job_spec env ta options w pv endpoint
              Hprov Hendpoint Hinit)
    as (sd & js & _ & Hreturn & Hcheck & _ & _ & _ & Hworld).
  destruct (check_duplicate_job_spec env (TrustedAccount.domain_id ta)
              (TrustedAccount.trusted_account_id ta)
              (VO (length (jobs w)) (new_job env ta pv options w))
              (set_jobs (jobs w ++ [new_job env ta pv options w]) w))
    as (js' & Hcheck' & Hlength & _).
  rewrite Hcheck in Hcheck'. injection Hcheck' as Hjs.
  cbn [jobs set_jobs] in Hlength. subst js'.
  rewrite length_app in Hlength. simpl in Hlength.
  split; [eexists; exact Hreturn|].
  rewrite Hworld.
  destruct (existsb _ _); [|destruct (push env _)];
    cbn [jobs providers set_jobs set_queue]; rewrite ?length_alter;
    split; first [lia | reflexivity].
Qed.

Lemma reachable_providers (env : Env) (w w' : World) (ta : TrustedAccount.t) :
  providers w' = providers w -> reachable env w' ta = reachable env w ta.
Proof.
  intros Hproviders. unfold reachable, ProviderManager.get_provider.
  rewrite Hproviders. destruct (List.filter _ _); reflexivity.
Qed.

(** The loop of [create_jobs_by_trusted_account]. *)
Lemma create_jobs_loop_spec (env : Env) (accounts : list TrustedAccount.t)
    (w : World) :
  let run :=
    for_each accounts (fun trusted_account_vo =>
      try_except
        (create_service_account_job env trusted_account_vo ∅ ;;; ret tt)
        (fun e => ret tt)) w in
  snd run = Return tt
  /\ providers (fst run) = providers w
  /\ length (jobs (fst run))
     = length (jobs w) + length (List.filter (reachable env w) accounts).
Proof.
  revert w. induction accounts as [|ta accounts IH]; intros w; cbv zeta.
  - simpl. repeat split. lia.
  - cbn [for_each].
    assert (Hstep :
      exists w1,
        try_except (create_service_account_job env ta ∅ ;;; ret tt)
          (fun e => ret tt) w = (w1, Return tt)
        /\ providers w1 = providers w
        /\ length (jobs w1)
           = length (jobs w) + (if reachable env w ta then 1 else 0)).
    { unfold try_except, bind.
      destruct (reachable env w ta) eqn:Hreachable.
      - destruct (create_service_account_job_reachable env ta ∅ w Hreachable)
          as ([v Hreturn] & Hlength & Hproviders).
        destruct (create_service_account_job env ta ∅ w) as [w1 r].
        cbn [fst snd] in *. subst r.
        exists w1. split; [reflexivity|]. split; [exact Hproviders|lia].
      - destruct (create_service_account_job_stops_early env ta ∅ w Hreachable)
          as [e Hraise].
        rewrite Hraise. exists w. split; [reflexivity|]. split; [reflexivity|lia]. }
    destruct Hstep as (w1 & Hstep & Hproviders & Hlength).
    rewrite (bind_Return _ _ _ _ _ Hstep).
    destruct (IH w1) as (Hreturn & Hproviders' & Hlength').
    split; [exact Hreturn|]. split; [congruence|].
    rewrite Hlength', Hlength.
    rewrite (List.filter_ext (reachable env w1) (reachable env w))
      by (intros a; apply reachable_providers; exact Hproviders).
    cbn [List.filter]. destruct (reachable env w ta); simpl; lia.
Qed.

(** *** Whom the recorded jobs are for *)

Section Owners.
Context (env : Env).
Context (Hcancel : forall now x,
           job_owner (Ledger.change_canceled_by_vo (ledger env) now x)
           = job_owner x).
Context (Herror : forall now e x,
           job_owner (Ledger.change_error_status (ledger env) now e x)
           = job_owner x).

Lemma check_duplicate_job_loop_owners thr l (w : World) :
  job_owner <$> jobs (fst (_check_duplicate_job_loop env thr l w))
  = job_owner <$> jobs w.
Proof.
  revert w. induction l as [|v l IH]; intros w; simpl; [reflexivity|].
  destruct (Job.created_at (doc v) >? thr)%Z; [reflexivity|].
  unfold bind at 1. unfold JobManager.change_canceled_by_vo.
  rewrite transition_total, IH. cbn [jobs set_jobs].
  apply fmap_alter_key. apply Hcancel.
Qed.

Lemma check_duplicate_job_owners d ta this (w : World) :
  job_owner <$> jobs (fst (_check_duplicate_job env d ta this w))
  = job_owner <$> jobs w.
Proof.
  unfold _check_duplicate_job.
  unfold bind at 1. unfold JobManager.list_jobs at 1. cbv iota beta.
  unfold bind at 1, utcnow at 1.
  apply check_duplicate_job_loop_owners.
Qed.

(** A reachable trusted account gets one job, its own, after the jobs
    already stored. *)
Lemma create_service_account_job_owner (ta : TrustedAccount.t) (options : payload)
    (w : World) :
  reachable env w ta = true ->
  job_owner <$> jobs (fst (create_service_account_job env ta options w))
  = (job_owner <$> jobs w) ++ [account_owner ta].
Proof.
  unfold reachable. intros Hreachable.
  pose proof (get_provider_world (TrustedAccount.provider ta)
                (TrustedAccount.domain_id ta) w) as Hworld.
  destruct (ProviderManager.get_provider _ _ w) as [w0 [pv|e]] eqn:Hprov;
    cbn [fst snd] in *; [subst w0|discriminate].
  destruct (get_account_collector_plugin_endpoint_by_vo env pv) as [endpoint|e]
    eqn:Hendpoint; [|discriminate].
  destruct (initialize env endpoint) eqn:Hinit; [discriminate|].
  destruct (create_service_account_job_spec env ta options w pv endpoint
              Hprov Hendpoint Hinit)
    as (sd & js & _ & _ & Hcheck & _ & _ & _ & Hrun).
  pose proof (check_duplicate_job_owners (TrustedAccount.domain_id ta)
                (TrustedAccount.trusted_account_id ta)
                (VO (length (jobs w)) (new_job env ta pv options w))
                (set_jobs (jobs w ++ [new_job env ta pv options w]) w)) as Howners.
  rewrite Hcheck in Howners. cbn [fst jobs set_jobs] in Howners.
  rewrite fmap_app in Howners.
  rewrite Hrun.
  destruct (existsb _ _); [|destruct (push env _)];
    cbn [jobs set_jobs set_queue]; rewrite ?(fmap_alter_key job_owner);
    try exact Howners; intros x; apply Herror.
Qed.

Lemma create_jobs_loop_owners (accounts : list TrustedAccount.t) (w : World) :
  job_owner <$>
    jobs (fst (for_each accounts (fun trusted_account_vo =>
                 try_except
                   (create_service_account_job env trusted_account_vo ∅ ;;; ret tt)
                   (fun e => ret tt)) w))
  = (job_owner <$> jobs w)
    ++ (account_owner <$> List.filter (reachable env w) accounts).
Proof.
  revert w. induction accounts as [|ta accounts IH]; intros w.
  - simpl. rewrite app_nil_r. reflexivity.
  - cbn [for_each].
    assert (Hstep :
      exists w1,
        try_except (create_service_account_job env ta ∅ ;;; ret tt)
          (fun e => ret tt) w = (w1, Return tt)
        /\ providers w1 = providers w
        /\ job_owner <$> jobs w1
           = (job_owner <$> jobs w)
             ++ (if reachable env w ta then [account_owner ta] else [])).
    { unfold try_except, bind.
      destruct (reachable env w ta) eqn:Hreachable.
      - destruct (create_service_account_job_reachable env ta ∅ w Hreachable)
          as ([v Hreturn] & _ & Hproviders).
        pose proof (create_service_account_job_owner ta ∅ w Hreachable) as Howner.
        destruct (create_service_account_job env ta ∅ w) as [w1 r].
        cbn [fst snd] in *. subst r.
        exists w1. split; [reflexivity|]. split; [exact Hproviders|exact Howner].
      - destruct (create_service_account_job_stops_early env ta ∅ w Hreachable)
          as [e Hraise].
        rewrite Hraise. exists w. split; [reflexivity|]. split; [reflexivity|].
        rewrite app_nil_r. reflexivity. }
    destruct Hstep as (w1 & Hstep & Hproviders & Howner).
    rewrite (bind_Return _ _ _ _ _ Hstep), IH, Howner.
    rewrite (List.filter_ext (reachable env w1) (reachable env w))
      by (intros a; apply reachable_providers; exact Hproviders).
    cbn [List.filter]. destruct (reachable env w ta);
      rewrite <- ?app_assoc; reflexivity.
Qed.

End Owners.

(** X20. One scheduled run never raises once the listing has answered,
    and records exactly one job for every listed trusted account whose
    plugin is reachable and none for the others: the jobs stored before
    stay in place, and after them come, in the order of the listing, one
    job for each reachable account, bearing that account's id and
    domain. An account that fails does not keep the accounts after it
    from being tried. The order and the owners are read through a ledger
    whose cancel and error transitions keep the trusted account and the
    domain of a job. *)
Theorem create_jobs_by_trusted_account_isolated (env : Env)
    (list_trusted_accounts : list schedule_cond -> M (list TrustedAccount.t * nat))
    (params : option Z) (w : World)
    (trusted_account_vos : list TrustedAccount.t) (total_count : nat) :
  list_trusted_accounts
    [ ScheduleEq "schedule.state" "ENABLED";
      ScheduleIn "schedule.hours" [default (utc_hour (clock w)) params] ] w
  = (w, Return (trusted_account_vos, total_count)) ->
  let run := create_jobs_by_trusted_account env list_trusted_accounts params w in
  snd run = Return tt
  /\ length (jobs (fst run))
     = length (jobs w)
       + length (List.filter (reachable env w) trusted_account_vos)
  /\ ((forall now x,
         job_owner (Ledger.change_canceled_by_vo (ledger env) now x) = job_owner x) ->
      (forall now e x,
         job_owner (Ledger.change_error_status (ledger env) now e x) = job_owner x) ->
      job_owner <$> jobs (fst run)
      = (job_owner <$> jobs w)
        ++ (account_owner <$> List.filter (reachable env w) trusted_account_vos)).
Proof.
  intros Hlisted run. subst run.
  assert (Hrun :
    create_jobs_by_trusted_account env list_trusted_accounts params w
    = for_each trusted_account_vos (fun trusted_account_vo =>
        try_except
          (create_service_account_job env trusted_account_vo ∅ ;;; ret tt)
          (fun e => ret tt)) w).
  { unfold create_jobs_by_trusted_account,
      _get_all_schedule_enabled_trusted_accounts.
    cbv zeta. unfold bind at 1. unfold utcnow at 1.
    unfold bind at 1. unfold bind at 1. rewrite Hlisted. reflexivity. }
  rewrite Hrun.
  destruct (create_jobs_loop_spec env trusted_account_vos w)
    as (Hreturn & _ & Hlength).
  split; [exact Hreturn|]. split; [exact Hlength|].
  intros Hcancel Herror.
  apply (create_jobs_loop_owners env Hcancel Herror).
Qed.

Lemma create_jobs_by_trusted_account_isolated_witness :
  snd (create_jobs_by_trusted_account sample_env sample_schedule None busy_world)
  = Return tt
  /\ (job_owner <$>
        jobs (fst (create_jobs_by_trusted_account sample_env sample_schedule None
                     busy_world)))
     = [("ta-1", "d"); ("ta-1", "d"); ("ta-1", "d")]
  /\ (Job.job_id <$>
        jobs (fst (create_jobs_by_trusted_account sample_env sample_schedule None
                     busy_world)))
     = ["job-a"; "job-b"; "job-2"].
Proof.
  destruct (create_jobs_by_trusted_account_isolated sample_env sample_schedule None
              busy_world [stray_account; sample_account] 2)
    as (Hreturn & _ & Howners); [reflexivity|].
  split; [exact Hreturn|]. split; [|vm_compute; reflexivity].
  rewrite Howners; [vm_compute; reflexivity| |].
  - intros now x. simpl. unfold forward.
    destruct (Job.terminal (Job.status x)); reflexivity.
  - intros now e x. simpl. unfold forward.
    destruct (Job.terminal (Job.status x)); reflexivity.
Defined.

(** ** From the producer to the executor *)

Lemma query_first_at {A} (q : A -> bool) (l : list A) (n : nat) (x : A) :
  l !! n = Some x -> q x = true ->
  (forall i y, i < n -> l !! i = Some y -> q y = false) ->
  exists rest, query q l = VO n x :: rest.
Proof.
  intros Hn Hx Hbefore.
  destruct (query q l) as [|v rest] eqn:Hq.
  - exfalso. eapply query_nonempty; eassumption.
  - exists rest. f_equal.
    destruct (query_head _ _ _ _ Hq) as [Hv Hqv].
    assert (Hin : VO n x ∈ query q l) by (apply query_elem_of; auto).
    rewrite Hq in Hin. apply elem_of_cons in Hin as [Heq|Hin]; [auto|].
    assert (Hle : n <= oid v).
    { destruct (decide (oid v < n)) as [Hlt|]; [|lia].
      rewrite (Hbefore _ _ Hlt Hv) in Hqv. discriminate. }
    assert (Hsorted : forall (m : nat) (l0 : list A) (u : vo A) (us : list (vo A)),
              filter (fun v => Is_true (q (doc v))) (imap (fun i => VO (m + i)) l0)
              = u :: us -> forall u', u' ∈ us -> oid u < oid u').
    { clear. intros m l0. revert m. induction l0 as [|y l0 IH]; intros m u us Hf u' Hu'.
      - discriminate.
      - simpl in Hf.
        assert (Hext : imap ((fun i => VO (m + i)) ∘ S) l0
                       = imap (fun i => VO (S m + i)) l0).
        { apply imap_ext. intros i z _. simpl. f_equal. lia. }
        rewrite Hext, filter_cons in Hf.
        destruct (decide (Is_true (q (doc (VO (m + 0) y))))).
        + injection Hf as <- <-. simpl.
          destruct (query_oids (fun v => Is_true (q (doc v))) l0 (S m)) as [_ Hge].
          specialize (Hge u' Hu'). lia.
        + eapply IH; eassumption. }
    specialize (Hsorted 0 l v rest Hq (VO n x) Hin). simpl in Hsorted. lia.
Qed.

(** X22. The message a job is dispatched with leads the executor back to
    that job: when [create_service_account_job] pushes a message, looking
    the job up by the message's domain, job id and workspace, as
    [sync_service_accounts] does, finds the job just created, provided
    the generated job id is new, the cancel transition keeps job ids, and
    a DOMAIN-scoped trusted account has no workspace or ["*"]. *)
Theorem dispatched_message_finds_job (env : Env)
    (trusted_account_vo : TrustedAccount.t) (job_options : payload) (w : World)
    (provider_vo : Provider.t) (endpoint : string) :
  ProviderManager.get_provider (TrustedAccount.provider trusted_account_vo)
    (TrustedAccount.domain_id trusted_account_vo) w = (w, Return provider_vo) ->
  get_account_collector_plugin_endpoint_by_vo env provider_vo = Return endpoint ->
  initialize env endpoint = None ->
  (forall i x, jobs w !! i = Some x ->
     Job.job_id x <> generate_id env "job" (length (jobs w))) ->
  (forall now x,
     Job.job_id (Ledger.change_canceled_by_vo (ledger env) now x) = Job.job_id x) ->
  (TrustedAccount.resource_group trusted_account_vo = DOMAIN ->
   TrustedAccount.workspace_id trusted_account_vo = None
   \/ TrustedAccount.workspace_id trusted_account_vo = Some "*") ->
  let run := create_service_account_job env trusted_account_vo job_options w in
  let job := new_job env trusted_account_vo provider_vo job_options w in
  forall task rest,
    queue (fst run) = queue w ++ task :: rest ->
    rest = []
    /\ Message.job_id task = Job.job_id job
    /\ JobManager.get_job (Message.domain_id task) (Message.job_id task)
         (Message.workspace_id task) (fst run)
       = (fst run, Return (VO (length (jobs w)) job)).
Proof.
  intros Hprov Hendpoint Hinit Hnew Hcancel Hscope run job task rest Hqueue.
  subst run.
  destruct (create_service_account_job_spec env trusted_account_vo job_options w
              provider_vo endpoint Hprov Hendpoint Hinit)
    as (sd & js & _ & _ & Hcheck & Hn & Hstale & Hother & Hworld).
  fold job in Hcheck, Hn, Hstale, Hother, Hworld.
  set (matches :=
         query (other_in_progress
                  (TrustedAccount.trusted_account_id trusted_account_vo)
                  (Job.workspace_id job)
                  (TrustedAccount.domain_id trusted_account_vo) (Job.job_id job))
           (jobs w)) in *.
  set (thr := (clock w - timedelta_minutes 10)%Z) in *.
  rewrite Hworld in Hqueue |- *. clear Hworld.
  destruct (existsb (fresh thr) matches) eqn:Hfresh.
  { cbn [queue set_jobs] in Hqueue.
    apply (f_equal length) in Hqueue. rewrite length_app in Hqueue.
    simpl in Hqueue. lia. }
  destruct (push env (dispatch_message trusted_account_vo job sd job_options))
    eqn:Hpush.
  { cbn [queue set_jobs] in Hqueue.
    apply (f_equal length) in Hqueue. rewrite length_app in Hqueue.
    simpl in Hqueue. lia. }
  cbn [queue set_queue set_jobs] in Hqueue.
  apply app_inv_head in Hqueue. injection Hqueue as <- <-.
  split; [reflexivity|]. split; [reflexivity|].
  cbn [dispatch_message Message.domain_id Message.job_id Message.workspace_id].
  (* every job stored before the new one keeps its id *)
  assert (Hids : forall i y, i < length (jobs w) -> js !! i = Some y ->
                 Job.job_id y <> Job.job_id job).
  { intros i y Hi Hy.
    destruct (jobs w !! i) as [x|] eqn:Hx;
      [|apply lookup_ge_None in Hx; lia].
    destruct (decide (i ∈ oid <$> matches)) as [Hin|Hout].
    - apply list_elem_of_fmap in Hin as (v & -> & Hv).
      pose proof Hv as Hv'. apply query_elem_of in Hv' as [Hdoc _].
      assert (Hexamined : v ∈ examined thr matches /\ fresh thr v = false).
      { clear - Hfresh Hv. induction matches as [|u l IH]; [inversion Hv|].
        simpl in Hfresh. apply orb_false_elim in Hfresh as [Hu Hl].
        simpl. rewrite Hu. apply elem_of_cons in Hv as [->|Hv].
        - split; [left|exact Hu].
        - destruct (IH Hl Hv) as [Hin Hf]. split; [right; exact Hin|exact Hf]. }
      destruct Hexamined as [Hex Hst].
      rewrite (Hstale v Hex Hst) in Hy. injection Hy as <-.
      rewrite Hcancel. rewrite Hx in Hdoc. injection Hdoc as <-.
      apply (Hnew _ _ Hx).
    - rewrite (Hother i Hout), lookup_app_l in Hy by exact Hi.
      rewrite Hx in Hy. injection Hy as <-. apply (Hnew _ _ Hx). }
  unfold JobManager.get_job. cbn [jobs set_queue set_jobs].
  match goal with
  | |- context [query ?q js] =>
      destruct (query_first_at q js (length (jobs w)) job Hn) as [rest Hq]
  end.
  - rewrite !String.eqb_refl. simpl.
    destruct (TrustedAccount.workspace_id trusted_account_vo) as [ws|] eqn:Hws;
      [|reflexivity].
    apply bool_decide_eq_true.
    destruct (TrustedAccount.resource_group trusted_account_vo); [|reflexivity].
    destruct (Hscope eq_refl) as [Hnone|Hstar]; [discriminate|].
    symmetry. exact Hstar.
  - intros i y Hi Hy.
    apply andb_false_intro1, andb_false_intro1.
    apply String.eqb_neq. apply (Hids i y Hi Hy).
  - rewrite Hq. reflexivity.
Qed.

Lemma dispatched_message_finds_job_witness :
  JobManager.get_job "d" "job-0" None
    (fst (create_service_account_job sample_env sample_account ∅ empty_world))
  = (fst (create_service_account_job sample_env sample_account ∅ empty_world),
     Return (VO 0 pending_job)).
Proof.
  destruct (dispatched_message_finds_job sample_env sample_account ∅ empty_world
              sample_provider "grpc://plugin"
              ltac:(vm_compute; reflexivity) ltac:(reflexivity) ltac:(reflexivity)
              ltac:(intros i x Hx; destruct i; discriminate)
              ltac:(intros now x; simpl; unfold forward;
                    destruct (Job.terminal (Job.status x)); reflexivity)
              ltac:(intros _; left; reflexivity)
              sample_task [] ltac:(vm_compute; reflexivity))
    as (_ & _ & Hfound).
  exact Hfound.
Defined.

(** ** Processing a record again *)

(** *** Each step writes to its own collection only *)

Section OwnCollection.
Context {X : Type} (g : World -> X) (env : Env).

Lemma remove_old_reference_frames_others d r :
  (forall w x, g (set_workspaces x w) = g w) ->
  frames g (_remove_old_reference_id_from_workspace d r).
Proof.
  intros Hg. unfold _remove_old_reference_id_from_workspace.
  repeat first [ apply frames_update_workspace_by_vo; exact Hg | frames_step ].
Qed.

Lemma create_workspace_frames_others d ta n :
  (forall w x, g (set_workspaces x w) = g w) ->
  frames g (_create_workspace env d ta n).
Proof.
  intros Hg. unfold _create_workspace.
  repeat first
    [ apply remove_old_reference_frames_others; exact Hg
    | apply frames_update_workspace_by_vo; exact Hg
    | apply frames_create_workspace; exact Hg
    | frames_step ].
Qed.

Lemma create_project_group_frames_others d ws ta n parent :
  (forall w x, g (set_project_groups x w) = g w) ->
  frames g (_create_project_group env d ws ta n parent).
Proof.
  intros Hg. unfold _create_project_group.
  repeat first
    [ apply frames_update_project_group_by_vo; exact Hg
    | apply frames_create_project_group; exact Hg
    | frames_step ].
Qed.

Lemma create_project_groups_frames_others d ws ta l parent :
  (forall w x, g (set_project_groups x w) = g w) ->
  frames g (_create_project_groups env d ws ta l parent).
Proof.
  intros Hg. revert parent. induction l as [|n l IH]; intros parent; simpl.
  - apply frames_ret.
  - apply frames_bind; [apply create_project_group_frames_others; exact Hg|].
    intros v. apply IH.
Qed.

Lemma create_project_frames_others r d ws ta grp so ty :
  (forall w x, g (set_projects x w) = g w) ->
  frames g (_create_project env r d ws ta grp so ty).
Proof.
  intros Hg. unfold _create_project.
  repeat first
    [ apply frames_update_project_by_vo; exact Hg
    | apply frames_create_project; exact Hg
    | frames_step ].
Qed.

Lemma create_service_account_frames_others r pv ta ts prov so :
  (forall w x, g (set_service_accounts x w) = g w) ->
  (forall w x, g (set_vault x w) = g w) ->
  frames g (_create_service_account env r pv ta ts prov so).
Proof.
  intros Hg Hvault. unfold _create_service_account.
  repeat first
    [ apply frames_update_service_account_by_vo; exact Hg
    | apply frames_create_service_account; exact Hg
    | apply frames_delete_secret; exact Hvault
    | apply frames_create_secret; exact Hvault
    | frames_step ].
Qed.

End OwnCollection.

(** *** Workspaces *)

Lemma remove_old_reference_returns (d r : string) (w : World) :
  exists w', _remove_old_reference_id_from_workspace d r w = (w', Return tt).
Proof.
  unfold _remove_old_reference_id_from_workspace.
  unfold bind at 1. unfold WorkspaceManager.filter_workspaces at 1.
  cbv iota beta.
  erewrite query_ext by (intros x; apply reference_filter_holds).
  destruct (remove_old_loop_spec r (query (Workspace.holds d r) (workspaces w)) w)
    as (ws & Hrun & _).
  - apply query_NoDup.
  - intros v Hv. apply query_elem_of in Hv as [Hv Hp]. split; [exact Hv|].
    unfold Workspace.holds in Hp. apply andb_prop in Hp as [_ Hp].
    apply bool_decide_eq_true in Hp. exact Hp.
  - eexists. exact Hrun.
Qed.

(** On a matched workspace [_create_workspace] returns that workspace. *)
Lemma create_workspace_update_returns (env : Env) (d ta : string)
    (node : LocationNode.t) (w : World) (v0 : vo Workspace.t)
    (rest : list (vo Workspace.t)) :
  query
    (Workspace.matches
       (update "name" (VStr (LocationNode.name node))
          (update "domain_id" (VStr d) ∅)))
    (workspaces w) = v0 :: rest ->
  exists v w',
    _create_workspace env d ta node w = (w', Return v)
    /\ oid v = oid v0
    /\ Workspace.workspace_id (doc v) = Workspace.workspace_id (doc v0).
Proof.
  intros Hq. destruct (query_head _ _ _ _ Hq) as [Hstored _].
  unfold _create_workspace. cbv zeta.
  unfold bind at 1. unfold WorkspaceManager.filter_workspaces at 1.
  rewrite Hq.
  unfold bind at 1. unfold utcnow at 1.
  unfold bind at 1. unfold WorkspaceManager.update_workspace_by_vo at 1.
  cbv beta iota zeta.
  match goal with
  | |- context [bind (_remove_old_reference_id_from_workspace d ?r) _ ?w1] =>
      destruct (remove_old_reference_returns d r w1) as [w' Hremove]
  end.
  rewrite (bind_Return _ _ _ _ _ Hremove). unfold ret.
  eexists _, _. split; [reflexivity|]. split; [reflexivity|].
  cbn [doc]. rewrite list_lookup_alter_eq, Hstored. reflexivity.
Qed.

(** Whichever branch it takes, [_create_workspace] returns a workspace
    that its filter finds first from then on. *)
Lemma create_workspace_returns_first (env : Env) (d ta : string)
    (node : LocationNode.t) (w : World) :
  exists v w' x' rest',
    _create_workspace env d ta node w = (w', Return v)
    /\ query
         (Workspace.matches
            (update "name" (VStr (LocationNode.name node))
               (update "domain_id" (VStr d) ∅)))
         (workspaces w') = VO (oid v) x' :: rest'
    /\ Workspace.workspace_id x' = Workspace.workspace_id (doc v).
Proof.
  set (q := Workspace.matches _).
  destruct (query q (workspaces w)) as [|v0 rest] eqn:Hq.
  - unfold _create_workspace.
    unfold bind at 1. unfold WorkspaceManager.filter_workspaces at 1.
    fold q. rewrite Hq. cbv zeta.
    unfold bind, utcnow, WorkspaceManager.create_workspace.
    eexists _, _, _, _. split; [reflexivity|]. split; [|reflexivity].
    cbn [workspaces set_workspaces oid].
    apply query_first_appended; [exact Hq|].
    apply workspace_filter_spec. split; reflexivity.
  - destruct (create_workspace_update_returns env d ta node w v0 rest Hq)
      as (v & w' & Hrun & Hoid & Hid).
    destruct (query_head _ _ _ _ Hq) as [Hstored _].
    pose proof (create_workspace_update_keeps env d ta node w) as Hkeys.
    fold q in Hkeys. rewrite Hq, Hrun in Hkeys.
    specialize (Hkeys ltac:(discriminate)). cbn [fst] in Hkeys.
    destruct (query_first_again q (workspaces w) (workspaces w') v0 rest Hq)
      as (x' & rest' & Hq' & Hx').
    { apply (f_equal (fmap (fun key : string * string * string =>
                              true
                              && bool_decide (VStr (LocationNode.name node)
                                              = VStr key.1.2)
                              && bool_decide (VStr d = VStr key.2)
                              && true && true))) in Hkeys.
      rewrite <- !list_fmap_compose in Hkeys. exact Hkeys. }
    exists v, w', x', rest'. split; [exact Hrun|]. rewrite Hoid.
    split; [exact Hq'|].
    apply (f_equal (fun l => l !! oid v0)) in Hkeys.
    rewrite !list_lookup_fmap, Hx', Hstored in Hkeys. simpl in Hkeys.
    injection Hkeys as Hkey _ _. rewrite Hkey, Hid. reflexivity.
Qed.

(** *** Project groups *)

Lemma query_nonempty_flags {A} (q : A -> bool) (l l' : list A) :
  q <$> l' = q <$> l -> query q l <> [] -> query q l' <> [].
Proof.
  intros Hsame Hl Hl'. apply Hl.
  pose proof (query_same_flags q l l' Hsame) as Hoids.
  rewrite Hl' in Hoids. destruct (query q l); [reflexivity|discriminate].
Qed.

Lemma query_nonempty_snoc {A} (q : A -> bool) (l : list A) (x : A) :
  query q l <> [] -> query q (l ++ [x]) <> [].
Proof.
  intros Hl. rewrite query_snoc. destruct (query q l); [congruence|discriminate].
Qed.

Lemma fmap_insert_same {A B} (f : A -> B) (l : list A) (i : nat) (x y : A) :
  l !! i = Some x -> f y = f x -> f <$> <[i := y]> l = f <$> l.
Proof.
  intros Hl Hf. rewrite list_fmap_insert, Hf. apply list_insert_id.
  rewrite list_lookup_fmap, Hl. reflexivity.
Qed.

(** One call of [_create_project_group]: it returns, it leaves a group
    for its node, it keeps every group any filter of the same shape found
    before, and it adds nothing when its node already had a group. *)
Lemma create_project_group_step (env : Env) (d ws ta : string)
    (node : LocationNode.t) (parent : option string) (w : World) :
  exists (v : vo ProjectGroup.t) (l : list ProjectGroup.t),
    _create_project_group env d ws ta node parent w
    = (set_project_groups l w, Return v)
    /\ query (ProjectGroup.matches
                (_project_group_filter d ws (LocationNode.resource_id node))) l
       <> []
    /\ (forall d' ws' ref',
          query (ProjectGroup.matches (_project_group_filter d' ws' ref'))
            (project_groups w) <> [] ->
          query (ProjectGroup.matches (_project_group_filter d' ws' ref')) l <> [])
    /\ (query (ProjectGroup.matches
                 (_project_group_filter d ws (LocationNode.resource_id node)))
          (project_groups w) <> [] ->
        length l = length (project_groups w)).
Proof.
  destruct (create_project_group_run env d ws ta node parent w)
    as (v & l & rest & Hrun & Hq & Hnew & Hsame).
  exists v, l. split; [exact Hrun|].
  split; [unfold _project_group_filter; rewrite Hq; discriminate|].
  split; [|exact Hsame].
  intros d' ws' ref' Hfound.
  destruct (query
              (ProjectGroup.matches
                 (update "workspace_id" (VStr ws)
                    (update "domain_id" (VStr d)
                       (update "reference_id" (VStr (LocationNode.resource_id node))
                          (update "is_managed" (VBool true) ∅)))))
              (project_groups w)) as [|v0 rest0] eqn:Hq0.
  - rewrite (Hnew eq_refl). apply query_nonempty_snoc. exact Hfound.
  - pose proof (create_project_group_update_run env d ws ta node parent w v0 rest0
                  Hq0) as Hrun'.
    cbv zeta in Hrun'. rewrite Hrun in Hrun'. injection Hrun' as Hl _.
    destruct (query_head _ _ _ _ Hq0) as [Hstored _].
    refine (query_nonempty_flags _ (project_groups w) l _ Hfound).
    rewrite Hl. eapply fmap_insert_same; [exact Hstored|].
    reflexivity.
Qed.

(** The loop over the location nodes. *)
Lemma create_project_groups_spec (env : Env) (d ws ta : string)
    (nodes : list LocationNode.t) (parent : option string) (w : World) :
  exists (last : option string) (l : list ProjectGroup.t),
    _create_project_groups env d ws ta nodes parent w
    = (set_project_groups l w, Return last)
    /\ (forall node, node ∈ nodes ->
          query (ProjectGroup.matches
                   (_project_group_filter d ws (LocationNode.resource_id node))) l
          <> [])
    /\ (forall d' ws' ref',
          query (ProjectGroup.matches (_project_group_filter d' ws' ref'))
            (project_groups w) <> [] ->
          query (ProjectGroup.matches (_project_group_filter d' ws' ref')) l <> [])
    /\ ((forall node, node ∈ nodes ->
           query (ProjectGroup.matches
                    (_project_group_filter d ws (LocationNode.resource_id node)))
             (project_groups w) <> []) ->
        length l = length (project_groups w)).
Proof.
  revert parent w. induction nodes as [|node nodes IH]; intros parent w.
  - exists parent, (project_groups w). simpl.
    split; [destruct w; reflexivity|].
    split; [intros node Hnode; inversion Hnode|]. split; [auto|reflexivity].
  - destruct (create_project_group_step env d ws ta node parent w)
      as (v & l1 & Hrun & Hown & Hkeep & Hsame).
    destruct (IH (Some (ProjectGroup.project_group_id (doc v)))
                (set_project_groups l1 w))
      as (last & l & Hloop & Hall & Hkeep' & Hsame').
    cbn [project_groups set_project_groups] in Hall, Hkeep', Hsame'.
    exists last, l. split.
    + cbn [_create_project_groups]. rewrite (bind_Return _ _ _ _ _ Hrun), Hloop.
      reflexivity.
    + split; [|split].
      * intros n Hn. apply elem_of_cons in Hn as [->|Hn]; [|apply Hall; exact Hn].
        apply Hkeep'. exact Hown.
      * intros d' ws' ref' Hfound. apply Hkeep', Hkeep. exact Hfound.
      * intros Hfound. rewrite Hsame'.
        -- apply Hsame. apply Hfound. left.
        -- intros n Hn. apply Hkeep. apply Hfound. right. exact Hn.
Qed.

(** *** The steps below the workspace *)

Lemma fst_bind_ret {A} (m : M A) (w : World) :
  fst ((m ;;; ret tt) w) = fst (m w).
Proof. unfold bind, ret. destruct (m w) as [w' [a|e]]; reflexivity. Qed.

(** After a first pass below the workspace, a second pass in any world
    that holds the same project groups, projects and service accounts
    adds nothing. *)
Lemma reconcile_placed_again (env : Env) (result : Result.t) (d ta : string)
    (ts : option string) (provider : string) (so : SyncOptions.t)
    (sync_workspace_id : string) (location : list LocationNode.t) (w w2 : World) :
  let w1 :=
    fst (reconcile_placed env result d ta ts provider so sync_workspace_id
           location w) in
  project_groups w2 = project_groups w1 ->
  projects w2 = projects w1 ->
  service_accounts w2 = service_accounts w1 ->
  inventory_sizes
    (fst (reconcile_placed env result d ta ts provider so sync_workspace_id
            location w2))
  = inventory_sizes w2.
Proof.
  intros w1 Hgroups Hprojects Haccounts. subst w1.
  (* the first pass *)
  destruct (create_project_groups_spec env d sync_workspace_id ta location None w)
    as (last & lB & HloopB & HallB & _ & _).
  destruct (create_project_run env result d sync_workspace_id ta last so "PRIVATE"
              (set_project_groups lB w))
    as (pv & lC & restC & HrunC & HqC & _ & _ & _ & _).
  set (wC := set_projects lC (set_project_groups lB w)) in *.
  pose proof (create_service_account_leaves_match env result pv ta ts provider so wC)
    as HfoundD.
  assert (Hfirst :
    fst (reconcile_placed env result d ta ts provider so sync_workspace_id
           location w)
    = fst (_create_service_account env result pv ta ts provider so wC)).
  { unfold reconcile_placed.
    rewrite (bind_Return _ _ _ _ _ HloopB), (bind_Return _ _ _ _ _ HrunC).
    apply fst_bind_ret. }
  rewrite Hfirst in Hgroups, Hprojects, Haccounts.
  rewrite (create_service_account_frames_others project_groups env result pv ta ts
             provider so ltac:(reflexivity) ltac:(reflexivity) wC) in Hgroups.
  rewrite (create_service_account_frames_others projects env result pv ta ts
             provider so ltac:(reflexivity) ltac:(reflexivity) wC) in Hprojects.
  cbn [wC project_groups projects set_projects set_project_groups]
    in Hgroups, Hprojects.
  (* the second pass *)
  destruct (create_project_groups_spec env d sync_workspace_id ta location None w2)
    as (last2 & l2B & Hloop2 & _ & _ & Hsame2).
  rewrite Hgroups in Hsame2. specialize (Hsame2 HallB).
  set (w2B := set_project_groups l2B w2) in *.
  assert (Hq2 : query
                  (Project.matches
                     (_project_filter d sync_workspace_id "PRIVATE"
                        (Result.resource_id result)))
                  (projects w2B) = pv :: restC).
  { cbn [w2B projects set_project_groups]. rewrite Hprojects. exact HqC. }
  pose proof (create_project_update_run env result d sync_workspace_id ta last2 so
                "PRIVATE" w2B pv restC Hq2) as Hrun2.
  cbv zeta in Hrun2.
  match type of Hrun2 with
  | _ = (?w2C', Return ?pv2') => set (w2C := w2C') in *; set (pv2 := pv2') in *
  end.
  assert (Hsecond :
    fst (reconcile_placed env result d ta ts provider so sync_workspace_id
           location w2)
    = fst (_create_service_account env result pv2 ta ts provider so w2C)).
  { unfold reconcile_placed.
    rewrite (bind_Return _ _ _ _ _ Hloop2), (bind_Return _ _ _ _ _ Hrun2).
    apply fst_bind_ret. }
  rewrite Hsecond.
  assert (Hids :
    ServiceAccount.service_account_id <$>
      service_accounts (fst (_create_service_account env result pv2 ta ts provider
                               so w2C))
    = ServiceAccount.service_account_id <$> service_accounts w2C).
  { apply (create_service_account_update_keeps ServiceAccount.service_account_id);
      [intros; reflexivity|intros; reflexivity|].
    cbn [pv2 doc Project.domain_id Project.workspace_id Project.project_id].
    cbn [w2C w2B service_accounts set_projects set_project_groups].
    rewrite Haccounts. exact HfoundD. }
  apply (f_equal length) in Hids. rewrite !length_fmap in Hids.
  unfold inventory_sizes.
  rewrite (create_service_account_frames_others workspaces env result pv2 ta ts
             provider so ltac:(reflexivity) ltac:(reflexivity) w2C).
  rewrite (create_service_account_frames_others project_groups env result pv2 ta ts
             provider so ltac:(reflexivity) ltac:(reflexivity) w2C).
  rewrite (create_service_account_frames_others projects env result pv2 ta ts
             provider so ltac:(reflexivity) ltac:(reflexivity) w2C).
  rewrite Hids.
  cbn [w2C w2B workspaces project_groups projects service_accounts set_projects
         set_project_groups].
  rewrite Hsame2, length_insert, Hgroups. reflexivity.
Qed.

Lemma reconcile_placed_frames_workspaces env result d ta ts provider so ws loc :
  frames workspaces (reconcile_placed env result d ta ts provider so ws loc).
Proof.
  unfold reconcile_placed.
  apply frames_bind;
    [apply create_project_groups_frames_others; reflexivity|intros parent].
  apply frames_bind; [apply create_project_frames_others; reflexivity|intros pv].
  apply frames_bind;
    [apply create_service_account_frames_others; reflexivity|intros sa].
  apply frames_ret.
Qed.

Lemma get_workspace_same (i d : string) (w w' : World) :
  workspaces w' = workspaces w ->
  snd (WorkspaceManager.get_workspace i d w')
  = snd (WorkspaceManager.get_workspace i d w)
  /\ fst (WorkspaceManager.get_workspace i d w') = w'
  /\ fst (WorkspaceManager.get_workspace i d w) = w.
Proof.
  intros Hsame. unfold WorkspaceManager.get_workspace. rewrite Hsame.
  destruct (query _ (workspaces w)); repeat split.
Qed.

Lemma get_workspace_world (i d : string) (w : World) :
  fst (WorkspaceManager.get_workspace i d w) = w.
Proof.
  unfold WorkspaceManager.get_workspace. destruct (query _ _); reflexivity.
Qed.

(** The four ways the loop body places a record. *)
Section Placing.
Context (env : Env) (trusted_account_vo : TrustedAccount.t)
  (workspace_id : option string) (domain_id trusted_account_id : string)
  (trusted_secret_id : option string) (provider : string)
  (sync_options : SyncOptions.t) (result : Result.t).

Let location :=
  _get_location result (TrustedAccount.resource_group trusted_account_vo)
    sync_options.

Let run := sync_result env trusted_account_vo workspace_id domain_id
             trusted_account_id trusted_secret_id provider sync_options result.

Let below := reconcile_placed env result domain_id trusted_account_id
               trusted_secret_id provider sync_options.

Lemma sync_result_workspace_scope (w : World) :
  TrustedAccount.resource_group trusted_account_vo = WORKSPACE ->
  run w = below (default "" workspace_id) location w.
Proof.
  intros Hscope. subst run below location. unfold sync_result. cbv zeta.
  rewrite Hscope. reflexivity.
Qed.

Lemma sync_result_single_workspace (w : World) (single : string) :
  TrustedAccount.resource_group trusted_account_vo = DOMAIN ->
  SyncOptions.single_workspace_id sync_options = Some single ->
  Py.truthy (Some single) = true ->
  run w
  = match snd (WorkspaceManager.get_workspace single domain_id w) with
    | Return workspace_vo =>
        below (Workspace.workspace_id (doc workspace_vo)) location w
    | Raise e => (w, Raise e)
    end.
Proof.
  intros Hscope Hsingle Htruthy. subst run below location.
  unfold sync_result. cbv zeta. rewrite Hscope, Hsingle, Htruthy.
  pose proof (get_workspace_world single domain_id w) as Hworld.
  unfold bind at 1 2.
  destruct (WorkspaceManager.get_workspace single domain_id w) as [w0 [v|e]];
    cbn [fst snd] in *; subst w0; reflexivity.
Qed.

Lemma sync_result_located (w : World) (location_info : LocationNode.t)
    (rest : list LocationNode.t) :
  TrustedAccount.resource_group trusted_account_vo = DOMAIN ->
  Py.truthy (SyncOptions.single_workspace_id sync_options) = false ->
  location = location_info :: rest ->
  run w
  = (workspace_vo <-
       _create_workspace env domain_id trusted_account_id location_info ;;
     below (Workspace.workspace_id (doc workspace_vo)) rest) w.
Proof.
  intros Hscope Hsingle Hlocation. subst run below location.
  unfold sync_result. cbv zeta. rewrite Hlocation, Hscope.
  destruct (SyncOptions.single_workspace_id sync_options) as [single|];
    [rewrite Hsingle|];
    unfold bind at 1 2;
    (destruct (_create_workspace env domain_id trusted_account_id location_info w)
       as [w0 [v|e]] eqn:Hrun;
       [rewrite (bind_Return _ _ _ _ _ Hrun)|rewrite (bind_Raise _ _ _ _ _ Hrun)];
       reflexivity).
Qed.

Lemma sync_result_unlocated (w : World) :
  TrustedAccount.resource_group trusted_account_vo = DOMAIN ->
  Py.truthy (SyncOptions.single_workspace_id sync_options) = false ->
  location = [] ->
  run w = (w, Return tt).
Proof.
  intros Hscope Hsingle Hlocation. subst run below location.
  unfold sync_result. cbv zeta. rewrite Hlocation, Hscope.
  destruct (SyncOptions.single_workspace_id sync_options) as [single|];
    [rewrite Hsingle|]; reflexivity.
Qed.

End Placing.

(** X21. Processing the same plugin record a second time creates
    nothing: whatever the first pass did and whether it returned or
    raised, after a second pass over the same record the workspace,
    project-group, project and service-account collections have the
    sizes the first pass left. *)
Theorem sync_result_again (env : Env) (trusted_account_vo : TrustedAccount.t)
    (workspace_id : option string) (domain_id trusted_account_id : string)
    (trusted_secret_id : option string) (provider : string)
    (sync_options : SyncOptions.t) (result : Result.t) (w : World) :
  let first :=
    sync_result env trusted_account_vo workspace_id domain_id trusted_account_id
      trusted_secret_id provider sync_options result w in
  let second :=
    sync_result env trusted_account_vo workspace_id domain_id trusted_account_id
      trusted_secret_id provider sync_options result (fst first) in
  inventory_sizes (fst second) = inventory_sizes (fst first).
Proof.
  intros first second. subst first second.
  (* a pass that goes straight below a known workspace *)
  assert (Hplaced : forall sync_workspace_id loc w0,
            inventory_sizes
              (fst (reconcile_placed env result domain_id trusted_account_id
                      trusted_secret_id provider sync_options sync_workspace_id loc
                      (fst (reconcile_placed env result domain_id
                              trusted_account_id trusted_secret_id provider
                              sync_options sync_workspace_id loc w0))))
            = inventory_sizes
                (fst (reconcile_placed env result domain_id trusted_account_id
                        trusted_secret_id provider sync_options sync_workspace_id
                        loc w0))).
  { intros sync_workspace_id loc w0.
    apply (reconcile_placed_again env result domain_id trusted_account_id
             trusted_secret_id provider sync_options sync_workspace_id loc w0);
      reflexivity. }
  destruct (TrustedAccount.resource_group trusted_account_vo) eqn:Hscope.
  - destruct (Py.truthy (SyncOptions.single_workspace_id sync_options))
      eqn:Htruthy.
    + destruct (SyncOptions.single_workspace_id sync_options) as [single|]
        eqn:Hsingle; [|discriminate].
      rewrite !(sync_result_single_workspace env trusted_account_vo workspace_id
                  domain_id trusted_account_id trusted_secret_id provider
                  sync_options result _ single Hscope Hsingle Htruthy).
      destruct (snd (WorkspaceManager.get_workspace single domain_id w))
        as [workspace_vo|e] eqn:Hget.
      * assert (Hsame :
          snd (WorkspaceManager.get_workspace single domain_id
                 (fst (reconcile_placed env result domain_id trusted_account_id
                         trusted_secret_id provider sync_options
                         (Workspace.workspace_id (doc workspace_vo))
                         (_get_location result
                            (TrustedAccount.resource_group trusted_account_vo)
                            sync_options) w)))
          = Return workspace_vo).
        { rewrite <- Hget. unfold WorkspaceManager.get_workspace.
          rewrite (reconcile_placed_frames_workspaces env result domain_id
                     trusted_account_id trusted_secret_id provider sync_options
                     _ _ w).
          destruct (query _ (workspaces w)); reflexivity. }
        rewrite Hsame. apply Hplaced.
      * cbn [fst]. rewrite Hget. reflexivity.
    + destruct (_get_location result
                  (TrustedAccount.resource_group trusted_account_vo) sync_options)
        as [|location_info loc] eqn:Hlocation.
      * rewrite !(sync_result_unlocated env trusted_account_vo workspace_id
                    domain_id trusted_account_id trusted_secret_id provider
                    sync_options result _ Hscope Htruthy Hlocation).
        reflexivity.
      * rewrite !(sync_result_located env trusted_account_vo workspace_id
                    domain_id trusted_account_id trusted_secret_id provider
                    sync_options result _ location_info loc Hscope Htruthy
                    Hlocation).
        destruct (create_workspace_returns_first env domain_id trusted_account_id
                    location_info w) as (v & wA & x' & rest' & HrunA & HqA & Hid).
        rewrite (bind_Return _ _ _ _ _ HrunA).
        set (w1 := fst (reconcile_placed env result domain_id trusted_account_id
                          trusted_secret_id provider sync_options
                          (Workspace.workspace_id (doc v)) loc wA)).
        assert (Hws1 : workspaces w1 = workspaces wA)
          by apply reconcile_placed_frames_workspaces.
        rewrite <- Hws1 in HqA.
        destruct (create_workspace_update_returns env domain_id trusted_account_id
                    location_info w1 _ _ HqA) as (v2 & w1A & Hrun2 & _ & Hid2).
        cbn [doc] in Hid2. rewrite Hid in Hid2.
        rewrite (bind_Return _ _ _ _ _ Hrun2), Hid2.
        pose proof (create_workspace_update_keeps env domain_id trusted_account_id
                      location_info w1) as Hkeys.
        rewrite HqA, Hrun2 in Hkeys. specialize (Hkeys ltac:(discriminate)).
        apply (f_equal length) in Hkeys. rewrite !length_fmap in Hkeys.
        cbn [fst] in Hkeys.
        pose proof (create_workspace_frames_others project_groups env domain_id
                      trusted_account_id location_info ltac:(reflexivity) w1) as Hg.
        pose proof (create_workspace_frames_others projects env domain_id
                      trusted_account_id location_info ltac:(reflexivity) w1) as Hp.
        pose proof (create_workspace_frames_others service_accounts env domain_id
                      trusted_account_id location_info ltac:(reflexivity) w1) as Ha.
        rewrite Hrun2 in Hg, Hp, Ha. cbn [fst] in Hg, Hp, Ha.
        rewrite (reconcile_placed_again env result domain_id trusted_account_id
                   trusted_secret_id provider sync_options
                   (Workspace.workspace_id (doc v)) loc wA w1A Hg Hp Ha).
        unfold inventory_sizes. rewrite Hkeys, Hg, Hp, Ha. reflexivity.
  - rewrite !(sync_result_workspace_scope env trusted_account_vo workspace_id
                domain_id trusted_account_id trusted_secret_id provider
                sync_options result _ Hscope).
    apply Hplaced.
Qed.
